(** * LifeNest insurance server: request-authorization pipeline and handlers

    A shallow embedding of the Express/MongoDB server of this repository.
    The repository holds several near-duplicate variants of the server file;
    each one is embedded in a module of its own:

    - [Full]   : the complete server (verifyJWT, verifyToken, verifyAdmin,
                 verifyAgent and the role-gated routes),
    - [Basic]  : the earlier [index.js] (verifyToken only),
    - [Legacy] : the first variant (no authentication at all).

    JavaScript values are embedded as [value], JSON objects and MongoDB
    documents as [gmap string value], a collection as the list of its documents
    in insertion order, and an [async] handler as a state-and-exception monad
    over the database. *)

From Stdlib Require Import Ascii String NArith ZArith List Bool Lia.
From Stdlib Require Import Sorted Permutation.
From stdpp Require Import base option list gmap strings fin_maps.
Import ListNotations.
Local Open Scope string_scope.
Local Open Scope list_scope.

(** ** JavaScript values and documents *)

(** Values that occur in request bodies, token claims and stored documents.
    Numbers are integers here; nested objects and arrays do not occur in any
    field the handlers inspect and are left out. [VDate] and [VOid] are the
    two object-valued cases ([Date], [ObjectId]); an [ObjectId] is kept as its
    24-digit lower-case hex string. *)
Inductive value :=
| VUndef
| VNull
| VBool (b : bool)
| VNum (z : Z)
| VStr (s : string)
| VDate (t : N)
| VOid (h : string).

#[global] Instance value_eq_dec : EqDecision value.
Proof. solve_decision. Defined.

Abbreviation doc := (gmap string value).

(** [d.k] for an object [d]: a missing property reads as [undefined]. *)
Definition field (d : doc) (k : string) : value := default VUndef (d !! k).

(** JavaScript truthiness ([!x] is its negation). *)
Definition truthy (v : value) : bool :=
  match v with
  | VUndef | VNull => false
  | VBool b => b
  | VNum z => negb (Z.eqb z 0)
  | VStr s => negb (String.eqb s "")
  | VDate _ | VOid _ => true
  end.

(** [a || b]. *)
Definition js_or (a b : value) : value := if truthy a then a else b.

(** [a === b]: primitives compare by value, objects by reference, and the two
    objects compared in a handler are never the same reference. *)
Definition strict_eq (a b : value) : bool :=
  match a, b with
  | VUndef, VUndef | VNull, VNull => true
  | VBool x, VBool y => Bool.eqb x y
  | VNum x, VNum y => Z.eqb x y
  | VStr x, VStr y => String.eqb x y
  | _, _ => false
  end.

(** [a !== b]. *)
Definition strict_ne (a b : value) : bool := negb (strict_eq a b).

(** ** Strings: [split(" ")], [startsWith] *)

(** [s.split(" ")]. *)
Fixpoint split_space (s : string) : list string :=
  match s with
  | EmptyString => [EmptyString]
  | String c rest =>
      if Ascii.eqb c " "%char then EmptyString :: split_space rest
      else match split_space rest with
           | [] => [String c EmptyString]
           | w :: ws => String c w :: ws
           end
  end.

(** [s.split(" ")[1]]: the second segment, [undefined] when there is none. *)
Definition second_segment (s : string) : value :=
  match nth_error (split_space s) 1 with
  | Some t => VStr t
  | None => VUndef
  end.

(** [s.startsWith(p)]. *)
Definition startsWith (p s : string) : bool := String.prefix p s.

(** ** ObjectId *)

Definition is_hex_digit (c : ascii) : bool :=
  let n := nat_of_ascii c in
  (Nat.leb 48 n && Nat.leb n 57) || (Nat.leb 97 n && Nat.leb n 102)
  || (Nat.leb 65 n && Nat.leb n 70).

Definition lower_hex (c : ascii) : ascii :=
  let n := nat_of_ascii c in
  if Nat.leb 65 n && Nat.leb n 70 then ascii_of_nat (n + 32) else c.

Fixpoint string_forallb (p : ascii -> bool) (s : string) : bool :=
  match s with
  | EmptyString => true
  | String c rest => p c && string_forallb p rest
  end.

Fixpoint string_map (f : ascii -> ascii) (s : string) : string :=
  match s with
  | EmptyString => EmptyString
  | String c rest => String (f c) (string_map f rest)
  end.

(** Modelled from the spec: the driver's [ObjectId] constructor is not part of
    the repository; identifiers are "opaque 24-hex-character document-store
    keys", and the constructor throws on any other string. [None] is the
    thrown exception. *)
Definition new_ObjectId (s : string) : option value :=
  if Nat.eqb (String.length s) 24 && string_forallb is_hex_digit s
  then Some (VOid (string_map lower_hex s))
  else None.

Definition hex_digit (n : N) : ascii :=
  nth (N.to_nat (n mod 16)) (list_ascii_of_string "0123456789abcdef") "0"%char.

Fixpoint hex_fixed (len : nat) (n : N) (acc : string) : string :=
  match len with
  | O => acc
  | S k => hex_fixed k (n / 16) (String (hex_digit n) acc)
  end.

(** Generated identifiers. The driver draws them from the clock, a random
    value and a counter; here the store's counter written as 24 hex digits
    stands for them, and a statement that relies on a generated identifier
    being new assumes it (see [fresh_in]). *)
Definition fresh_hex (n : N) : string := hex_fixed 24 n EmptyString.

(** How an identifier in a JSON response reads on the client, which sends it
    back as a path segment. *)
Definition id_text (v : value) : string :=
  match v with
  | VOid h => h
  | VStr s => s
  | _ => EmptyString
  end.

(** ** The document store *)

Inductive coll :=
| Policies | Applications | Users | Payments | Blogs | Agents
| NewsletterSubscribers | Purchases.

Record Db := mkDb {
  policies : list doc;
  applications : list doc;
  users : list doc;
  payments : list doc;
  blogs : list doc;
  agents : list doc;
  newsletterSubscribers : list doc;
  purchases : list doc;
  next_oid : N;      (* counter behind generated identifiers *)
  online : bool      (* whether the store answers; every call throws otherwise *)
}.

Definition get_coll (c : coll) (s : Db) : list doc :=
  match c with
  | Policies => policies s
  | Applications => applications s
  | Users => users s
  | Payments => payments s
  | Blogs => blogs s
  | Agents => agents s
  | NewsletterSubscribers => newsletterSubscribers s
  | Purchases => purchases s
  end.

Definition set_coll (c : coll) (l : list doc) (s : Db) : Db :=
  match c with
  | Policies => mkDb l (applications s) (users s) (payments s) (blogs s) (agents s) (newsletterSubscribers s) (purchases s) (next_oid s) (online s)
  | Applications => mkDb (policies s) l (users s) (payments s) (blogs s) (agents s) (newsletterSubscribers s) (purchases s) (next_oid s) (online s)
  | Users => mkDb (policies s) (applications s) l (payments s) (blogs s) (agents s) (newsletterSubscribers s) (purchases s) (next_oid s) (online s)
  | Payments => mkDb (policies s) (applications s) (users s) l (blogs s) (agents s) (newsletterSubscribers s) (purchases s) (next_oid s) (online s)
  | Blogs => mkDb (policies s) (applications s) (users s) (payments s) l (agents s) (newsletterSubscribers s) (purchases s) (next_oid s) (online s)
  | Agents => mkDb (policies s) (applications s) (users s) (payments s) (blogs s) l (newsletterSubscribers s) (purchases s) (next_oid s) (online s)
  | NewsletterSubscribers => mkDb (policies s) (applications s) (users s) (payments s) (blogs s) (agents s) l (purchases s) (next_oid s) (online s)
  | Purchases => mkDb (policies s) (applications s) (users s) (payments s) (blogs s) (agents s) (newsletterSubscribers s) l (next_oid s) (online s)
  end.

Definition bump_oid (s : Db) : Db :=
  mkDb (policies s) (applications s) (users s) (payments s) (blogs s) (agents s)
       (newsletterSubscribers s) (purchases s) (N.succ (next_oid s)) (online s).

Definition empty_db : Db := mkDb [] [] [] [] [] [] [] [] 0 true.

(** ** The handler monad: database state and exceptions *)

Inductive outcome (A : Type) :=
| Ok (a : A) (s : Db)
| Throw (s : Db).
Arguments Ok {A} a s.
Arguments Throw {A} s.

Definition M (A : Type) : Type := Db -> outcome A.

Definition ret {A} (a : A) : M A := fun s => Ok a s.
Definition throw {A} : M A := fun s => Throw s.
Definition bind {A B} (m : M A) (k : A -> M B) : M B :=
  fun s => match m s with
           | Ok a s' => k a s'
           | Throw s' => Throw s'
           end.
(** [try { m } catch { h }]. *)
Definition try_catch {A} (m : M A) (h : M A) : M A :=
  fun s => match m s with
           | Ok a s' => Ok a s'
           | Throw s' => h s'
           end.
(** An expression that may throw, such as [new ObjectId(id)]. *)
Definition lift_opt {A} (o : option A) : M A :=
  match o with
  | Some a => ret a
  | None => throw
  end.

Declare Scope handler_scope.
Delimit Scope handler_scope with handler.
Notation "x <- m ;; k" := (bind m (fun x => k))
  (at level 100, m at next level, right associativity) : handler_scope.
Notation "m ;;; k" := (bind m (fun _ => k))
  (at level 100, right associativity) : handler_scope.
Local Open Scope handler_scope.

(** ** Collection operations of the driver *)

(** A query document of equality conditions, such as [{ email }] or
    [{ _id: ..., assignedAgent: ... }]. *)
Definition query := list (string * value).

Definition is_nullish (v : value) : bool :=
  match v with
  | VUndef | VNull => true
  | _ => false
  end.

(** What the driver writes for a value: [undefined] is serialised as [null]. *)
Definition bson (v : value) : value :=
  match v with
  | VUndef => VNull
  | _ => v
  end.

Definition bson_doc (d : doc) : doc := bson <$> d.

(** One equality condition. A [null] (or [undefined]) condition matches a
    document in which the field is [null] or missing. *)
Definition match_cond (d : doc) (c : string * value) : bool :=
  if is_nullish (snd c) then is_nullish (field d (fst c))
  else bool_decide (d !! fst c = Some (snd c)).

Definition matches (q : query) (d : doc) : bool := forallb (match_cond d) q.

(** Every call on a collection throws when the store is unreachable. *)
Definition guard_online : M unit :=
  fun s => if online s then Ok tt s else Throw s.

Definition get_docs (c : coll) : M (list doc) := fun s => Ok (get_coll c s) s.
Definition put_docs (c : coll) (l : list doc) : M unit :=
  fun s => Ok tt (set_coll c l s).
Definition take_oid : M value :=
  fun s => Ok (VOid (fresh_hex (next_oid s))) (bump_oid s).

(** [collection.findOne(q)]: the first match in insertion order, or [null]. *)
Definition findOne (c : coll) (q : query) : M (option doc) :=
  guard_online ;;;
  l <- get_docs c ;;
  ret (List.find (matches q) l).

(** [collection.find(q).toArray()]. *)
Definition find (c : coll) (q : query) : M (list doc) :=
  guard_online ;;;
  l <- get_docs c ;;
  ret (List.filter (matches q) l).

Definition has_id (id : value) (l : list doc) : bool :=
  existsb (fun d => bool_decide (d !! "_id" = Some id)) l.

(** Storing a document, with a generated [_id] when [generate] is set; a
    duplicate [_id] is a duplicate-key error. Returns the [_id]. *)
Definition store_new (c : coll) (generate : bool) (d : doc) : M value :=
  d' <- (if generate
         then (id <- take_oid ;; ret (<["_id" := id]> d))
         else ret d) ;;
  l <- get_docs c ;;
  if has_id (field d' "_id") l then throw
  else (put_docs c (l ++ [d']) ;;; ret (field d' "_id")).

(** [collection.insertOne(d)], returning [insertedId]. The driver generates
    the [_id] when the document has none or a [null] one. *)
Definition insertOne (c : coll) (d : doc) : M value :=
  guard_online ;;;
  store_new c (is_nullish (field (bson_doc d) "_id")) (bson_doc d).

(** The first element satisfying [p], with what precedes and follows it. *)
Fixpoint split_first (p : doc -> bool) (l : list doc)
  : option (list doc * doc * list doc) :=
  match l with
  | [] => None
  | d :: rest =>
      if p d then Some ([], d, rest)
      else match split_first p rest with
           | Some (pre, x, post) => Some (d :: pre, x, post)
           | None => None
           end
  end.

Record update_result := mkUpdate {
  matchedCount : nat;
  modifiedCount : nat;
  upsertedCount : nat;
  upsertedId : value
}.

(** [{ $set: upd }] applied to a document. *)
Definition apply_set (upd old : doc) : doc := bson_doc upd ∪ old.

(** [collection.updateOne(q, { $set: upd }, { upsert })]. The first match is
    updated; [_id] is immutable; with [upsert] and no match, the document made
    of the query's fields and the [$set] fields is stored, the server
    generating its [_id] when neither gives one. *)
Definition updateOne (c : coll) (q : query) (upd : doc) (upsert : bool)
  : M update_result :=
  guard_online ;;;
  l <- get_docs c ;;
  match split_first (matches q) l with
  | Some (pre, old, post) =>
      let new := apply_set upd old in
      if bool_decide (new !! "_id" = old !! "_id") then
        put_docs c (pre ++ new :: post) ;;;
        ret (mkUpdate 1 (if bool_decide (new = old) then 0 else 1) 0 VNull)
      else throw
  | None =>
      if upsert then
        let d := apply_set upd (bson_doc (list_to_map q)) in
        id <- store_new c (bool_decide (d !! "_id" = None)) d ;;
        ret (mkUpdate 0 0 1 id)
      else ret (mkUpdate 0 0 0 VNull)
  end.

(** [collection.deleteOne(q)], returning [deletedCount]. *)
Definition deleteOne (c : coll) (q : query) : M nat :=
  guard_online ;;;
  l <- get_docs c ;;
  match split_first (matches q) l with
  | Some (pre, _, post) => put_docs c (pre ++ post) ;;; ret 1
  | None => ret 0
  end.

(** The order in which the store compares values of different types, then
    values of one type. *)
Definition bson_rank (v : value) : nat :=
  match v with
  | VUndef | VNull => 1
  | VNum _ => 2
  | VStr _ => 3
  | VOid _ => 7
  | VBool _ => 8
  | VDate _ => 9
  end.

Definition bson_leb (a b : value) : bool :=
  match a, b with
  | VNum x, VNum y => Z.leb x y
  | VStr x, VStr y => String.leb x y
  | VOid x, VOid y => String.leb x y
  | VBool x, VBool y => implb x y
  | VDate x, VDate y => N.leb x y
  | _, _ => Nat.leb (bson_rank a) (bson_rank b)
  end.

Definition bson_ltb (a b : value) : bool := negb (bson_leb b a).

(** [.sort({ k: -1 })]: descending on field [k], earlier documents first
    among equals. *)
Fixpoint insert_desc (k : string) (d : doc) (l : list doc) : list doc :=
  match l with
  | [] => [d]
  | x :: rest =>
      if bson_ltb (field d k) (field x k) then x :: insert_desc k d rest
      else d :: l
  end.

Definition sort_desc (k : string) (l : list doc) : list doc :=
  fold_right (insert_desc k) [] l.

(** ** Requests, responses and the middleware chain *)

(** A JSON response body. *)
Inductive json :=
| JText (s : string)                         (* res.send("...") *)
| JDoc (d : doc)                             (* an object of plain fields *)
| JDocs (l : list doc)                       (* an array of documents *)
| JWrap (d : doc) (k : string) (inner : json). (* d plus a nested field k *)

Record response := mkResponse {
  status : nat;
  payload : json
}.

Definition message (m : string) : json := JDoc {[ "message" := VStr m ]}.
Definition failure (m : string) : json :=
  JDoc (<["success" := VBool false]> {[ "message" := VStr m ]}).
Definition success (m : string) : json :=
  JDoc (<["success" := VBool true]> {[ "message" := VStr m ]}).

Record request := mkRequest {
  authorization : option string;  (* req.headers.authorization *)
  param : string;                 (* the path parameter (:id, :email, ...) *)
  body : doc;                     (* req.body *)
  user : option doc;              (* req.user, set by the token middleware *)
  now : N                         (* the server clock read by new Date() *)
}.

Definition set_user (u : doc) (r : request) : request :=
  mkRequest (authorization r) (param r) (body r) (Some u) (now r).

(** [req.user.k]; throws when [req.user] is undefined. *)
Definition user_claim (r : request) (k : string) : M value :=
  match user r with
  | Some u => ret (field u k)
  | None => throw
  end.

(** A middleware either answers (the chain ends) or calls [next()], possibly
    after updating the request. An exception that escapes goes to the
    framework. *)
Inductive step :=
| Respond (r : response)
| Next (r : request).

Definition middleware := request -> M step.
Definition handler := request -> M response.

Definition respond (code : nat) (j : json) : M step :=
  ret (Respond (mkResponse code j)).
Definition reply (code : nat) (j : json) : M response :=
  ret (mkResponse code j).

Fixpoint run_chain (ms : list middleware) (h : handler) (r : request)
  : M response :=
  match ms with
  | [] => h r
  | m :: rest =>
      st <- m r ;;
      match st with
      | Respond resp => ret resp
      | Next r' => run_chain rest h r'
      end
  end.

(** What the route's own code sends, and the store afterwards. [None]: an
    exception escaped the chain and the route sent nothing itself; what the
    client sees then is the framework's doing (its default error handling)
    and is not modelled. *)
Definition serve (ms : list middleware) (h : handler) (r : request) (s : Db)
  : option response * Db :=
  match run_chain ms h r s with
  | Ok resp s' => (Some resp, s')
  | Throw s' => (None, s')
  end.

(** ** Token middleware shared by the variants *)

Section Guards.
(** [admin.auth().verifyIdToken]: the identity provider. It yields the
    decoded claims, or rejects ([None]); it is handed whatever the
    middleware extracted, which can be [undefined]. *)
Variable verifyIdToken : value -> option doc.

(** [verifyToken], identical in [index.js] and in the full server. *)
Definition verifyToken : middleware := fun r =>
  match authorization r with
  | Some h =>
      if startsWith "Bearer " h then
        match verifyIdToken (second_segment h) with
        | Some decodedToken => ret (Next (set_user decodedToken r))
        | None => respond 401 (message "Unauthorized, invalid token")
        end
      else respond 401 (message "Unauthorized, no token")
  | None => respond 401 (message "Unauthorized, no token")
  end.

(** [verifyJWT] of the full server: no check of the ["Bearer "] prefix, and
    a rejected token is answered 403. *)
Definition verifyJWT : middleware := fun r =>
  match authorization r with
  | Some h =>
      if truthy (VStr h) then
        match verifyIdToken (second_segment h) with
        | Some decoded => ret (Next (set_user decoded r))
        | None => respond 403 (message "Forbidden")
        end
      else respond 401 (message "Unauthorized")
  | None => respond 401 (message "Unauthorized")
  end.
End Guards.

(** [verifyAdmin] and [verifyAgent] differ in the role and the messages. *)
Definition verifyRole (role denied crashed : string) : middleware := fun r =>
  try_catch
    (email <- user_claim r "email" ;;
     u <- findOne Users [("email", email)] ;;
     match u with
     | Some d =>
         if strict_ne (field d "role") (VStr role) then respond 403 (message denied)
         else ret (Next r)
     | None => respond 403 (message denied)
     end)
    (respond 500 (message crashed)).

Definition verifyAdmin : middleware :=
  verifyRole "admin" "Forbidden: Admin access required"
             "Server error during admin verification".

Definition verifyAgent : middleware :=
  verifyRole "agent" "Forbidden: Agent access required"
             "Server error during agent verification".

(** [res.send(result)] for the driver's [UpdateResult]. *)
Definition update_result_doc (u : update_result) : doc :=
  <["acknowledged" := VBool true]>
  (<["modifiedCount" := VNum (Z.of_nat (modifiedCount u))]>
  (<["upsertedId" := upsertedId u]>
  (<["upsertedCount" := VNum (Z.of_nat (upsertedCount u))]>
  {[ "matchedCount" := VNum (Z.of_nat (matchedCount u)) ]}))).

(** ** The full server *)

Module Full.

Definition falsy (v : value) : bool := negb (truthy v).

(** [GET /policies/:id] *)
Definition get_policy : handler := fun r =>
  try_catch
    (oid <- lift_opt (new_ObjectId (param r)) ;;
     policy <- findOne Policies [("_id", oid)] ;;
     match policy with
     | None => reply 404 (message "Policy not found")
     | Some p => reply 200 (JDoc p)
     end)
    (reply 500 (message "Failed to fetch policy")).

(** [POST /users]: the profile upsert. *)
Definition post_users : handler := fun r =>
  try_catch
    (let userData := body r in
     if falsy (field userData "email") || falsy (field userData "name") then
       reply 400 (message "Name and Email are required")
     else
       let userData :=
         if falsy (field userData "role")
         then <["role" := VStr "user"]> userData else userData in
       updateOne Users [("email", field userData "email")] userData true ;;;
       reply 200 (JWrap {[ "success" := VBool true ]} "data" (JDoc userData)))
    (reply 500 (message "Failed to create or update user")).

(** [POST /agents] *)
Definition post_agents : handler := fun r =>
  try_catch
    (let agentData := body r in
     if falsy (field agentData "name") || falsy (field agentData "email")
        || falsy (field agentData "district") then
       reply 400 (message "Name, Email & District are required")
     else
       existingAgent <- findOne Agents [("email", field agentData "email")] ;;
       match existingAgent with
       | Some _ =>
           reply 409 (failure "You have already submitted an agent request")
       | None =>
           let agentData := <["status" := VStr "pending"]> agentData in
           let agentData := <["created_at" := VDate (now r)]> agentData in
           requestedBy <- user_claim r "email" ;;
           let agentData := <["requestedBy" := requestedBy]> agentData in
           insertedId <- insertOne Agents agentData ;;
           reply 201 (JDoc (<["success" := VBool true]>
                           (<["message" := VStr "Agent request submitted"]>
                           {[ "insertedId" := insertedId ]})))
       end)
    (reply 500 (message "Failed to submit agent request")).

(** [["approved", "pending", "disapproved"].includes(status)] *)
Definition valid_status (v : value) : bool :=
  match v with
  | VStr s => existsb (String.eqb s) ["approved"; "pending"; "disapproved"]
  | _ => false
  end.

(** [PATCH /agents/:id/status] *)
Definition patch_agent_status : handler := fun r =>
  try_catch
    (let status := field (body r) "status" in
     if negb (valid_status status) then
       reply 400 (failure "Invalid status value")
     else
       oid <- lift_opt (new_ObjectId (param r)) ;;
       result <- updateOne Agents [("_id", oid)] {[ "status" := status ]} false ;;
       if Nat.eqb (modifiedCount result) 1
       then reply 200 (success "Agent status updated")
       else reply 404 (failure "Agent not found"))
    (reply 500 (failure "Failed to update agent")).

(** [DELETE /agents/:id] *)
Definition delete_agent : handler := fun r =>
  try_catch
    (oid <- lift_opt (new_ObjectId (param r)) ;;
     deletedCount <- deleteOne Agents [("_id", oid)] ;;
     if Nat.eqb deletedCount 1
     then reply 200 (success "Agent deleted successfully")
     else reply 404 (failure "Agent not found"))
    (reply 500 (failure "Failed to delete agent")).

(** [GET /all] (no try/catch) *)
Definition get_all : handler := fun r =>
  apps <- find Applications [] ;;
  reply 200 (JDocs apps).

(** [PATCH /assign/:id] (no try/catch) *)
Definition patch_assign : handler := fun r =>
  let agentEmail := field (body r) "agentEmail" in
  oid <- lift_opt (new_ObjectId (param r)) ;;
  result <- updateOne Applications [("_id", oid)]
              (<["assignedAgent" := agentEmail]> {[ "status" := VStr "Assigned" ]})
              false ;;
  reply 200 (JDoc (update_result_doc result)).

(** [PATCH /applications/reject/:id] *)
Definition patch_reject : handler := fun r =>
  try_catch
    (oid <- lift_opt (new_ObjectId (param r)) ;;
     result <- updateOne Applications [("_id", oid)]
                 (<["status" := VStr "Rejected"]> {[ "rejectedAt" := VDate (now r) ]})
                 false ;;
     if Nat.eqb (matchedCount result) 0
     then reply 404 (message "Application not found")
     else reply 200 (JDoc (<["success" := VBool true]>
                          (<["message" := VStr "Application rejected"]>
                          {[ "modifiedCount" := VNum (Z.of_nat (modifiedCount result)) ]}))))
    (reply 500 (message "Failed to reject application")).

(** [POST /applications] *)
Definition post_applications : handler := fun r =>
  try_catch
    (let application := body r in
     userEmail <- user_claim r "email" ;;
     let application := <["userEmail" := userEmail]> application in
     let application := <["status" := VStr "pending"]> application in
     let application := <["applicationDate" := VDate (now r)]> application in
     insertedId <- insertOne Applications application ;;
     reply 201 (JDoc {[ "insertedId" := insertedId ]}))
    (reply 500 (message "Failed to create application")).

(** [PATCH /applications/:id/status] *)
Definition patch_application_status : handler := fun r =>
  try_catch
    (let status := field (body r) "status" in
     oid <- lift_opt (new_ObjectId (param r)) ;;
     email <- user_claim r "email" ;;
     application <- findOne Applications [("_id", oid); ("assignedAgent", email)] ;;
     match application with
     | None => reply 404 (failure "Application not found or not assigned to you")
     | Some _ =>
         oid <- lift_opt (new_ObjectId (param r)) ;;
         result <- updateOne Applications [("_id", oid)] {[ "status" := status ]} false ;;
         if Nat.eqb (modifiedCount result) 1
         then reply 200 (success "Application status updated successfully")
         else reply 404 (failure "Application not found")
     end)
    (reply 500 (failure "Failed to update application status")).

(** [GET /applications/all] *)
Definition get_applications_all : handler := fun r =>
  try_catch
    (apps <- find Applications [] ;;
     reply 200 (JDocs apps))
    (reply 500 (message "Failed to fetch applications")).

(** The ownership test of the application handlers:
    [application.userEmail !== req.user.email && req.user.role !== "admin"]. *)
Definition not_owner_nor_admin (application : doc) (r : request) : M bool :=
  email <- user_claim r "email" ;;
  if strict_ne (field application "userEmail") email then
    role <- user_claim r "role" ;;
    ret (strict_ne role (VStr "admin"))
  else ret false.

(** [GET /applications/:id] *)
Definition get_application : handler := fun r =>
  try_catch
    (oid <- lift_opt (new_ObjectId (param r)) ;;
     application <- findOne Applications [("_id", oid)] ;;
     match application with
     | None => reply 404 (message "Application not found")
     | Some a =>
         denied <- not_owner_nor_admin a r ;;
         if denied then reply 403 (message "Forbidden")
         else reply 200 (JDoc a)
     end)
    (reply 500 (message "Failed to fetch application")).

(** [DELETE /applications/:id] *)
Definition delete_application : handler := fun r =>
  try_catch
    (oid <- lift_opt (new_ObjectId (param r)) ;;
     application <- findOne Applications [("_id", oid)] ;;
     match application with
     | None => reply 404 (message "Application not found")
     | Some a =>
         denied <- not_owner_nor_admin a r ;;
         if denied then reply 403 (message "Forbidden")
         else
           oid <- lift_opt (new_ObjectId (param r)) ;;
           deleteOne Applications [("_id", oid)] ;;;
           reply 200 (JDoc {[ "success" := VBool true ]})
     end)
    (reply 500 (message "Failed to delete application")).

(** [POST /blogs] *)
Definition post_blogs : handler := fun r =>
  try_catch
    (let blog := body r in
     email <- user_claim r "email" ;;
     let blog := <["authorEmail" := email]> blog in
     name <- user_claim r "name" ;;
     let blog := <["authorName" := js_or name email]> blog in
     let blog := <["publishDate" := VDate (now r)]> blog in
     insertedId <- insertOne Blogs blog ;;
     reply 201 (JDoc (<["success" := VBool true]> {[ "insertedId" := insertedId ]})))
    (reply 500 (message "Failed to create blog")).

(** [GET /blogs]. [user.role] throws when no user record was found. *)
Definition get_blogs : handler := fun r =>
  try_catch
    (email <- user_claim r "email" ;;
     u <- findOne Users [("email", email)] ;;
     role <- lift_opt (option_map (fun d => field d "role") u) ;;
     let q := if strict_eq role (VStr "agent")
              then [("authorEmail", email)] else [] in
     found <- find Blogs q ;;
     reply 200 (JDocs (sort_desc "publishDate" found)))
    (reply 500 (message "Failed to fetch blogs")).

(** [GET /blogs/:id] *)
Definition get_blog : handler := fun r =>
  try_catch
    (oid <- lift_opt (new_ObjectId (param r)) ;;
     blog <- findOne Blogs [("_id", oid)] ;;
     match blog with
     | None => reply 404 (message "Blog not found")
     | Some b => reply 200 (JDoc b)
     end)
    (reply 500 (message "Failed to fetch blog")).

(** [DELETE /blogs/:id] *)
Definition delete_blog : handler := fun r =>
  try_catch
    (oid <- lift_opt (new_ObjectId (param r)) ;;
     blog <- findOne Blogs [("_id", oid)] ;;
     match blog with
     | None => reply 404 (message "Blog not found")
     | Some b =>
         email <- user_claim r "email" ;;
         if strict_ne (field b "authorEmail") email then
           reply 403 (message "Forbidden: Cannot delete others' blogs")
         else
           oid <- lift_opt (new_ObjectId (param r)) ;;
           deleteOne Blogs [("_id", oid)] ;;;
           reply 200 (success "Blog deleted successfully")
     end)
    (reply 500 (message "Failed to delete blog")).

(** [POST /subscribe] *)
Definition post_subscribe : handler := fun r =>
  try_catch
    (let name := field (body r) "name" in
     let email := field (body r) "email" in
     if falsy name || falsy email then
       reply 400 (message "Name and email are required")
     else
       existingSubscriber <- findOne NewsletterSubscribers [("email", email)] ;;
       match existingSubscriber with
       | Some _ => reply 409 (message "This email is already subscribed")
       | None =>
           let newSubscriber : doc :=
             <["name" := name]> (<["email" := email]>
             (<["subscribedAt" := VDate (now r)]> {[ "active" := VBool true ]})) in
           subscriberId <- insertOne NewsletterSubscribers newSubscriber ;;
           reply 201 (JDoc (<["success" := VBool true]>
                           (<["message" := VStr "Thank you for subscribing!"]>
                           {[ "subscriberId" := subscriberId ]})))
       end)
    (reply 500 (message "Failed to process subscription")).

(** The routes embedded here, with their middleware as registered. *)
Inductive route :=
| GetPolicy | PostUsers | PostAgents | PatchAgentStatus | DeleteAgent
| GetAll | PatchAssign | PatchReject | PostApplications
| PatchApplicationStatus | GetApplicationsAll | GetApplication
| DeleteApplication | PostBlogs | GetBlogs | GetBlog | DeleteBlog
| PostSubscribe.

Section Routes.
Variable verifyIdToken : value -> option doc.

Definition guards (rt : route) : list middleware :=
  match rt with
  | GetPolicy | PostUsers | PatchAgentStatus | DeleteAgent | PostSubscribe => []
  | GetAll | PatchAssign => [verifyJWT verifyIdToken]
  | PostAgents | PostApplications | GetApplication | DeleteApplication
  | GetBlogs | GetBlog => [verifyToken verifyIdToken]
  | PatchReject | GetApplicationsAll => [verifyToken verifyIdToken; verifyAdmin]
  | PatchApplicationStatus | PostBlogs | DeleteBlog =>
      [verifyToken verifyIdToken; verifyAgent]
  end.

Definition handler_of (rt : route) : handler :=
  match rt with
  | GetPolicy => get_policy
  | PostUsers => post_users
  | PostAgents => post_agents
  | PatchAgentStatus => patch_agent_status
  | DeleteAgent => delete_agent
  | GetAll => get_all
  | PatchAssign => patch_assign
  | PatchReject => patch_reject
  | PostApplications => post_applications
  | PatchApplicationStatus => patch_application_status
  | GetApplicationsAll => get_applications_all
  | GetApplication => get_application
  | DeleteApplication => delete_application
  | PostBlogs => post_blogs
  | GetBlogs => get_blogs
  | GetBlog => get_blog
  | DeleteBlog => delete_blog
  | PostSubscribe => post_subscribe
  end.

Definition handle (rt : route) (r : request) (s : Db) : option response * Db :=
  serve (guards rt) (handler_of rt) r s.
End Routes.

End Full.

(** ** The earlier server, [index.js] *)

Module Basic.

(** [GET /policies/:id] *)
Definition get_policy : handler := fun r =>
  try_catch
    (oid <- lift_opt (new_ObjectId (param r)) ;;
     policy <- findOne Policies [("_id", oid)] ;;
     match policy with
     | None => reply 404 (message "Policy not found")
     | Some p => reply 200 (JDoc p)
     end)
    (reply 500 (message "Failed to fetch policy")).

(** [POST /applications]: the body is stored as submitted. *)
Definition post_applications : handler := fun r =>
  try_catch
    (let application := body r in
     insertedId <- insertOne Applications application ;;
     reply 200 (JDoc {[ "insertedId" := insertedId ]}))
    (reply 500 (message "Failed to create application")).

(** [PATCH /applications/:id/status] *)
Definition patch_application_status : handler := fun r =>
  let status := field (body r) "status" in
  try_catch
    (oid <- lift_opt (new_ObjectId (param r)) ;;
     result <- updateOne Applications [("_id", oid)] {[ "status" := status ]} false ;;
     if Nat.eqb (modifiedCount result) 1
     then reply 200 (JDoc {[ "success" := VBool true ]})
     else reply 404 (message "Application not found"))
    (reply 500 (message "Failed to update application status")).

(** [GET /applications/:id] *)
Definition get_application : handler := fun r =>
  try_catch
    (oid <- lift_opt (new_ObjectId (param r)) ;;
     application <- findOne Applications [("_id", oid)] ;;
     match application with
     | None => reply 404 (message "Application not found")
     | Some a => reply 200 (JDoc a)
     end)
    (reply 500 (message "Failed to fetch application")).

(** [DELETE /applications/:id]: no ownership test. *)
Definition delete_application : handler := fun r =>
  try_catch
    (oid <- lift_opt (new_ObjectId (param r)) ;;
     deletedCount <- deleteOne Applications [("_id", oid)] ;;
     if Nat.eqb deletedCount 1
     then reply 200 (JDoc {[ "success" := VBool true ]})
     else reply 404 (failure "Application not found"))
    (reply 500 (failure "Failed to delete application")).

(** [POST /blogs] *)
Definition post_blogs : handler := fun r =>
  try_catch
    (let blog := body r in
     name <- user_claim r "name" ;;
     email <- user_claim r "email" ;;
     let blog := <["author" := js_or (js_or name email) (VStr "Unknown Author")]> blog in
     let blog := <["publishDate" := VDate (now r)]> blog in
     insertedId <- insertOne Blogs blog ;;
     reply 200 (JDoc {[ "insertedId" := insertedId ]}))
    (reply 500 (message "Failed to publish blog")).

Inductive route :=
| GetPolicy | PostApplications | PatchApplicationStatus | GetApplication
| DeleteApplication | PostBlogs.

Section Routes.
Variable verifyIdToken : value -> option doc.

Definition guards (rt : route) : list middleware :=
  match rt with
  | GetPolicy => []
  | _ => [verifyToken verifyIdToken]
  end.

Definition handler_of (rt : route) : handler :=
  match rt with
  | GetPolicy => get_policy
  | PostApplications => post_applications
  | PatchApplicationStatus => patch_application_status
  | GetApplication => get_application
  | DeleteApplication => delete_application
  | PostBlogs => post_blogs
  end.

Definition handle (rt : route) (r : request) (s : Db) : option response * Db :=
  serve (guards rt) (handler_of rt) r s.
End Routes.

End Basic.

(** ** The first variant: no authentication *)

Module Legacy.

(** [GET /policies/:id] *)
Definition get_policy : handler := fun r =>
  try_catch
    (oid <- lift_opt (new_ObjectId (param r)) ;;
     policy <- findOne Policies [("_id", oid)] ;;
     match policy with
     | None => reply 404 (message "Policy not found")
     | Some p => reply 200 (JDoc p)
     end)
    (reply 500 (message "Failed to fetch policy")).

(** [POST /users]: a plain insert. *)
Definition post_users : handler := fun r =>
  try_catch
    (insertedId <- insertOne Users (body r) ;;
     reply 200 (JDoc (<["success" := VBool true]> {[ "insertedId" := insertedId ]})))
    (reply 500 (failure "Failed to add user")).

Definition handle (h : handler) (r : request) (s : Db) : option response * Db :=
  serve [] h r s.

End Legacy.

(** ** Observations used in the statements *)

(** The records of a collection whose field [k] is the string [v]. *)
Definition records_with (k : string) (v : value) (l : list doc) : list doc :=
  List.filter (fun d => bool_decide (d !! k = Some v)) l.


(** The five failure classes of the specification and their statuses. *)
Inductive failure_class :=
| Unauthenticated | Forbidden | NotFound | Unavailable | Conflict.

Definition class_status (c : failure_class) : nat :=
  match c with
  | Unauthenticated => 401
  | Forbidden => 403
  | NotFound => 404
  | Unavailable => 500
  | Conflict => 409
  end.

(** A request as it arrives: [req.user] not yet set. *)
Definition incoming (auth : option string) (id : string) (b : doc) (t : N)
  : request := mkRequest auth id b None t.

(** An agent record satisfies the status invariant. *)
Definition agent_status_ok (d : doc) : Prop :=
  d !! "status" = Some (VStr "pending")
  \/ d !! "status" = Some (VStr "approved")
  \/ d !! "status" = Some (VStr "disapproved").

(** The credential is missing, is not of the form [Bearer <token>], or is
    rejected by the identity provider. *)
Definition bad_credential (verifyIdToken : value -> option doc)
    (auth : option string) : Prop :=
  match auth with
  | None => True
  | Some h =>
      startsWith "Bearer " h = false \/ verifyIdToken (second_segment h) = None
  end.

(** The credential is a bearer token that the identity provider resolves to
    the claims [u]. *)
Definition authenticates (verifyIdToken : value -> option doc)
    (auth : option string) (u : doc) : Prop :=
  exists h, auth = Some h /\ startsWith "Bearer " h = true
            /\ verifyIdToken (second_segment h) = Some u.

(** The user record that role resolution reads for the claims [u]. *)
Definition user_record_of (u : doc) (s : Db) : option doc :=
  List.find (matches [("email", field u "email")]) (users s).

(** The identifier the store would generate next is not in use in [c]. *)
Definition fresh_in (c : coll) (s : Db) : Prop :=
  has_id (VOid (fresh_hex (next_oid s))) (get_coll c s) = false.

(** A lower-case hex digit. *)
Definition lower_hex_digit (c : ascii) : Prop :=
  is_hex_digit c = true /\ lower_hex c = c.

(** The document [POST /applications] of the full server hands to the driver. *)
Definition stamped_application (b : doc) (email : value) (t : N) : doc :=
  <["applicationDate" := VDate t]>
  (<["status" := VStr "pending"]> (<["userEmail" := email]> b)).

(** The store an operation leaves behind, whether it returned or threw. *)
Definition after {A} (o : outcome A) : Db :=
  match o with
  | Ok _ s => s
  | Throw s => s
  end.

(** What [POST /users] passes to the upsert: the body, with the default role
    when none is submitted. *)
Definition with_default_role (b : doc) : doc :=
  if Full.falsy (field b "role") then <["role" := VStr "user"]> b else b.





(** Every agent record of the store has one of the three statuses. *)
Definition agents_ok (s : Db) : Prop := Forall agent_status_ok (agents s).

(** The computation keeps [Inv], whether it returns or throws. *)
Definition preserves (Inv : Db -> Prop) {A} (m : M A) : Prop :=
  forall s, Inv s -> Inv (after (m s)).

(** ** Sample data for closed statements *)

Module Sample.

(** An identity provider that knows three tokens. *)
Definition idp (t : value) : option doc :=
  match t with
  | VStr "jane-token" =>
      Some (<["email" := VStr "jane@example.com"]> {[ "name" := VStr "Jane Doe" ]})
  | VStr "bob-token" => Some {[ "email" := VStr "bob@example.com" ]}
  | VStr "root-token" =>
      Some (<["email" := VStr "root@example.com"]> {[ "role" := VStr "admin" ]})
  | _ => None
  end.

Definition jane : option string := Some "Bearer jane-token".
Definition bob : option string := Some "Bearer bob-token".

Definition user_record (email role : string) : doc :=
  <["_id" := VStr email]>
  (<["email" := VStr email]> (<["name" := VStr email]> {[ "role" := VStr role ]})).

(** A store in which jane is an agent, root an admin, and bob has no record. *)
Definition staffed : Db :=
  mkDb [] [] [user_record "jane@example.com" "agent";
             user_record "root@example.com" "admin"]
       [] [] [] [] [] 0 true.

(** The application of the specification's scenario. *)
Definition jane_application : doc :=
  <["policyId" := VStr "X"]> {[ "aname" := VStr "Jane Doe" ]}.

(** The store after jane has applied. *)
Definition with_application : Db :=
  snd (Full.handle idp Full.PostApplications
         (incoming jane "" jane_application 1000) staffed).

Definition jane_profile : doc :=
  <["email" := VStr "jane@example.com"]> {[ "name" := VStr "Jane Doe" ]}.



(** bob's request to become an agent and the store after it was accepted. *)
Definition agent_request : doc :=
  <["name" := VStr "Bob"]>
  (<["email" := VStr "bob@example.com"]> {[ "district" := VStr "Dhaka" ]}).

Definition requested : Db :=
  snd (Full.handle idp Full.PostAgents (incoming bob "" agent_request 20) staffed).


(** Two blog submissions: an honest one, and one that claims another author. *)
Definition honest_blog : doc := {[ "title" := VStr "Why insure early" ]}.

Definition spoofed_blog : doc :=
  <["title" := VStr "Why insure early"]>
  (<["author" := VStr "Amy"]>
  (<["authorEmail" := VStr "amy@example.com"]>
  (<["authorName" := VStr "Amy"]> {[ "publishDate" := VStr "1999-01-01" ]}))).

(** A blog written by another agent, and a store that holds it. *)
Definition amy_blog : doc :=
  <["_id" := VOid "00000000000000000000b109"]>
  (<["title" := VStr "Term life explained"]>
  (<["authorEmail" := VStr "amy@example.com"]>
  (<["authorName" := VStr "Amy"]> {[ "publishDate" := VDate 900 ]}))).

Definition with_blog : Db :=
  mkDb [] [] (users staffed) [] [amy_blog] [] [] [] 0 true.

End Sample.

(** ** More routes of the full server *)

Module FullRest.

Import Full.

(** [PUT /make-admin]. [describe] is the text of [`${email}`], the string
    conversion of the language. *)
Definition put_make_admin (describe : value -> string) : handler := fun r =>
  let email := field (body r) "email" in
  if falsy email then reply 400 (message "Email is required")
  else
    try_catch
      (result <- updateOne Users [("email", email)] {[ "role" := VStr "admin" ]} false ;;
       if Nat.ltb 0 (modifiedCount result)
       then reply 200 (message (describe email ++ " is now an admin."))
       else reply 404 (message "User not found or already an admin"))
      (reply 500 (message "Internal server error")).

(** [PATCH /users/:email], behind [verifyToken]. The whole body is written
    with [$set]; an empty [$set] changes nothing, as the store has it from
    version 5.0 on. *)
Definition patch_user : handler := fun r =>
  try_catch
    (let email := VStr (param r) in
     let updateData := body r in
     requester <- user_claim r "email" ;;
     denied <- (if strict_ne requester email
                then (role <- user_claim r "role" ;;
                      ret (strict_ne role (VStr "admin")))
                else ret false) ;;
     if denied then reply 403 (message "Forbidden")
     else
       result <- updateOne Users [("email", email)] updateData false ;;
       if Nat.eqb (modifiedCount result) 1
       then reply 200 (JDoc {[ "success" := VBool true ]})
       else reply 404 (failure "User not found"))
    (reply 500 (failure "Failed to update user")).

(** [GET /users/role]; [query] is [req.query]. *)
Definition get_users_role (query : doc) : handler := fun r =>
  try_catch
    (let email := field query "email" in
     if falsy email then reply 400 (message "Email is required")
     else
       u <- findOne Users [("email", email)] ;;
       match u with
       | None => reply 404 (message "User not found")
       | Some d =>
           reply 200 (JDoc {[ "role" := js_or (field d "role") (VStr "user") ]})
       end)
    (reply 500 (message "Server error")).

(** [GET /applications/assigned/:agentEmail] *)
Definition get_applications_assigned : handler := fun r =>
  try_catch
    (let agentEmail := VStr (param r) in
     if falsy agentEmail then
       reply 400 (JDoc {[ "error" := VStr "Agent email missing" ]})
     else
       assignedCustomers <- find Applications [("assignedAgent", agentEmail)] ;;
       reply 200 (JDocs assignedCustomers))
    (reply 500 (JDoc {[ "error" := VStr "Server error" ]})).

(** [PATCH /applications/assign/:id] *)
Definition patch_applications_assign : handler := fun r =>
  try_catch
    (let agentEmail := field (body r) "agentEmail" in
     if falsy agentEmail then reply 400 (message "Agent email is required")
     else
       agent <- findOne Users [("email", agentEmail); ("role", VStr "agent")] ;;
       match agent with
       | None => reply 404 (message "Agent not found")
       | Some _ =>
           oid <- lift_opt (new_ObjectId (param r)) ;;
           result <- updateOne Applications [("_id", oid)]
                       (<["assignedAgent" := agentEmail]>
                        (<["status" := VStr "Assigned"]>
                        {[ "assignedAt" := VDate (now r) ]}))
                       false ;;
           if Nat.eqb (matchedCount result) 0
           then reply 404 (message "Application not found")
           else reply 200 (JDoc (<["success" := VBool true]>
                                (<["message" := VStr "Agent assigned successfully"]>
                                {[ "modifiedCount"
                                   := VNum (Z.of_nat (modifiedCount result)) ]})))
       end)
    (reply 500 (message "Failed to assign agent")).

(** [GET /applications], behind [verifyToken]; [query] is [req.query]. *)
Definition get_applications (query : doc) : handler := fun r =>
  try_catch
    (email <- (if truthy (field query "email") then ret (field query "email")
               else user_claim r "email") ;;
     if falsy email then reply 400 (message "Email is required")
     else
       own <- user_claim r "email" ;;
       denied <- (if strict_ne email own
                  then (role <- user_claim r "role" ;;
                        ret (strict_ne role (VStr "admin")))
                  else ret false) ;;
       if denied then reply 403 (message "Forbidden")
       else
         apps <- find Applications [("userEmail", email)] ;;
         reply 200 (JDocs apps))
    (reply 500 (message "Failed to get applications")).

(** [POST /policies] *)
Definition post_policies : handler := fun r =>
  try_catch
    (id <- insertOne Policies (body r) ;;
     reply 201 (JDoc (<["success" := VBool true]> {[ "insertedId" := id ]})))
    (reply 500 (failure "Failed to create policy")).

(** [PATCH /policies/:id] *)
Definition patch_policy : handler := fun r =>
  try_catch
    (oid <- lift_opt (new_ObjectId (param r)) ;;
     result <- updateOne Policies [("_id", oid)] (body r) false ;;
     if Nat.eqb (matchedCount result) 0
     then reply 404 (message "Policy not found")
     else reply 200 (success "Policy updated successfully"))
    (reply 500 (message "Failed to update policy")).

(** [DELETE /policies/:id] *)
Definition delete_policy : handler := fun r =>
  try_catch
    (oid <- lift_opt (new_ObjectId (param r)) ;;
     deleted <- deleteOne Policies [("_id", oid)] ;;
     if Nat.eqb deleted 0
     then reply 404 (message "Policy not found")
     else reply 200 (success "Policy deleted successfully"))
    (reply 500 (message "Failed to delete policy")).

Inductive route :=
| PutMakeAdmin | PatchUser | GetUsersRole | GetApplicationsAssigned
| PatchApplicationsAssign | GetApplications | PostPolicies | PatchPolicy
| DeletePolicy.

Section Routes.
Variable verifyIdToken : value -> option doc.
Variable describe : value -> string.
(** [req.query] *)
Variable query : doc.

Definition guards (rt : route) : list middleware :=
  match rt with
  | PatchUser | GetApplications => [verifyToken verifyIdToken]
  | PutMakeAdmin | GetUsersRole | GetApplicationsAssigned
  | PatchApplicationsAssign | PostPolicies | PatchPolicy | DeletePolicy => []
  end.

Definition handler_of (rt : route) : handler :=
  match rt with
  | PutMakeAdmin => put_make_admin describe
  | PatchUser => patch_user
  | GetUsersRole => get_users_role query
  | GetApplicationsAssigned => get_applications_assigned
  | PatchApplicationsAssign => patch_applications_assign
  | GetApplications => get_applications query
  | PostPolicies => post_policies
  | PatchPolicy => patch_policy
  | DeletePolicy => delete_policy
  end.

Definition handle (rt : route) (r : request) (s : Db) : option response * Db :=
  serve (guards rt) (handler_of rt) r s.
End Routes.

End FullRest.

(** ** The routing table of the full server *)

Module Router.

Inductive method := GET | POST | PUT | PATCH | DELETE.

(** One name for each registration ([app.get], [app.post], ...), in the order
    of the source. *)
Inductive endpoint :=
  | Root | PostPolicies | GetPolicies | GetPoliciesSix | GetPolicy | PatchPolicy
  | DeletePolicy | GetUsersRole | GetUser | GetUsers | GetAgentsAll | GetUserAgain
  | PostUsers | PatchUser | PutMakeAdmin | PostAgents | GetAgents
  | GetAgentsAllAgain | PatchAgentStatus | DeleteAgent | GetAll | PatchAssign
  | GetApplicationsAssigned | PatchApplicationsAssign | PatchReject
  | PostApplications | PatchApplicationStatus | GetApplications
  | GetApplicationsAll | GetApplication | DeleteApplication
  | PostCreatePaymentIntent | PostPaymentsSave | GetPayments | GetPaymentsAll
  | PostBlogs | GetBlogs | GetBlog | DeleteBlog | GetBlogsLatest | GetAdminStats
  | PostSubscribe.

Definition routes : list (method * string * endpoint) :=
  [ (GET, "/", Root);
    (POST, "/policies", PostPolicies);
    (GET, "/policies", GetPolicies);
    (GET, "/policies/6", GetPoliciesSix);
    (GET, "/policies/:id", GetPolicy);
    (PATCH, "/policies/:id", PatchPolicy);
    (DELETE, "/policies/:id", DeletePolicy);
    (GET, "/users/role", GetUsersRole);
    (GET, "/users/:email", GetUser);
    (GET, "/users", GetUsers);
    (GET, "/agents/all", GetAgentsAll);
    (GET, "/users/:email", GetUserAgain);
    (POST, "/users", PostUsers);
    (PATCH, "/users/:email", PatchUser);
    (PUT, "/make-admin", PutMakeAdmin);
    (POST, "/agents", PostAgents);
    (GET, "/agents", GetAgents);
    (GET, "/agents/all", GetAgentsAllAgain);
    (PATCH, "/agents/:id/status", PatchAgentStatus);
    (DELETE, "/agents/:id", DeleteAgent);
    (GET, "/all", GetAll);
    (PATCH, "/assign/:id", PatchAssign);
    (GET, "/applications/assigned/:agentEmail", GetApplicationsAssigned);
    (PATCH, "/applications/assign/:id", PatchApplicationsAssign);
    (PATCH, "/applications/reject/:id", PatchReject);
    (POST, "/applications", PostApplications);
    (PATCH, "/applications/:id/status", PatchApplicationStatus);
    (GET, "/applications", GetApplications);
    (GET, "/applications/all", GetApplicationsAll);
    (GET, "/applications/:id", GetApplication);
    (DELETE, "/applications/:id", DeleteApplication);
    (POST, "/create-payment-intent", PostCreatePaymentIntent);
    (POST, "/payments/save", PostPaymentsSave);
    (GET, "/payments", GetPayments);
    (GET, "/payments/all", GetPaymentsAll);
    (POST, "/blogs", PostBlogs);
    (GET, "/blogs", GetBlogs);
    (GET, "/blogs/:id", GetBlog);
    (DELETE, "/blogs/:id", DeleteBlog);
    (GET, "/blogs/latest", GetBlogsLatest);
    (GET, "/admin-stats", GetAdminStats);
    (POST, "/subscribe", PostSubscribe) ].

Definition method_eqb (a b : method) : bool :=
  match a, b with
  | GET, GET | POST, POST | PUT, PUT | PATCH, PATCH | DELETE, DELETE => true
  | _, _ => false
  end.

(** The pieces of a path between its slashes. *)
Fixpoint split_slash (s : string) : list string :=
  match s with
  | EmptyString => [EmptyString]
  | String c rest =>
      if Ascii.eqb c "/"%char then EmptyString :: split_slash rest
      else match split_slash rest with
           | [] => [String c EmptyString]
           | w :: ws => String c w :: ws
           end
  end.

Fixpoint drop_last_empty (l : list string) : list string :=
  match l with
  | [] => []
  | [x] => if String.eqb x "" then [] else [x]
  | x :: rest => x :: drop_last_empty rest
  end.

(** A path starts with a slash and may end with one more (routing is not
    strict); [None] for a path without the leading slash. *)
Definition segments (path : string) : option (list string) :=
  match split_slash path with
  | first :: rest =>
      if String.eqb first "" then Some (drop_last_empty rest) else None
  | [] => None
  end.

Definition lower (c : ascii) : ascii :=
  let n := nat_of_ascii c in
  if Nat.leb 65 n && Nat.leb n 90 then ascii_of_nat (n + 32) else c.

Definition is_param (p : string) : bool :=
  match p with
  | String c _ => Ascii.eqb c ":"%char
  | EmptyString => false
  end.

(** Matching a pattern against a path, piece by piece: a literal piece is
    compared without regard to case, a [:name] piece takes any non-empty
    piece. Returns the piece the parameter took (no pattern of the table has
    two), as it is written in the path. *)
Fixpoint match_segments (pat segs : list string) (captured : string)
  : option string :=
  match pat, segs with
  | [], [] => Some captured
  | p :: pat', x :: segs' =>
      if is_param p then
        if String.eqb x "" then None else match_segments pat' segs' x
      else if String.eqb (string_map lower p) (string_map lower x)
           then match_segments pat' segs' captured
           else None
  | _, _ => None
  end.

Definition hit (m : method) (segs : list string)
    (e : method * string * endpoint) : option (endpoint * string) :=
  if method_eqb m (fst (fst e)) then
    match segments (snd (fst e)) with
    | Some pat =>
        match match_segments pat segs "" with
        | Some p => Some (snd e, p)
        | None => None
        end
    | None => None
    end
  else None.

(** The first registration that matches answers the request: its handlers
    never call [next()]. *)
Fixpoint first_hit (m : method) (segs : list string)
    (table : list (method * string * endpoint)) : option (endpoint * string) :=
  match table with
  | [] => None
  | e :: rest =>
      match hit m segs e with
      | Some x => Some x
      | None => first_hit m segs rest
      end
  end.

Definition dispatch (m : method) (path : string) : option (endpoint * string) :=
  match segments path with
  | Some segs => first_hit m segs routes
  | None => None
  end.

(** A request that reaches each registration but three. *)
Definition example (e : endpoint) : method * string :=
  match e with
  | Root => (GET, "/")
  | PostPolicies => (POST, "/policies")
  | GetPolicies => (GET, "/policies")
  | GetPoliciesSix => (GET, "/policies/6")
  | GetPolicy => (GET, "/policies/7")
  | PatchPolicy => (PATCH, "/policies/7")
  | DeletePolicy => (DELETE, "/policies/7")
  | GetUsersRole => (GET, "/users/role")
  | GetUser | GetUserAgain => (GET, "/users/jane@example.com")
  | GetUsers => (GET, "/users")
  | GetAgentsAll | GetAgentsAllAgain => (GET, "/agents/all")
  | PostUsers => (POST, "/users")
  | PatchUser => (PATCH, "/users/jane@example.com")
  | PutMakeAdmin => (PUT, "/make-admin")
  | PostAgents => (POST, "/agents")
  | GetAgents => (GET, "/agents")
  | PatchAgentStatus => (PATCH, "/agents/7/status")
  | DeleteAgent => (DELETE, "/agents/7")
  | GetAll => (GET, "/all")
  | PatchAssign => (PATCH, "/assign/7")
  | GetApplicationsAssigned => (GET, "/applications/assigned/jane@example.com")
  | PatchApplicationsAssign => (PATCH, "/applications/assign/7")
  | PatchReject => (PATCH, "/applications/reject/7")
  | PostApplications => (POST, "/applications")
  | PatchApplicationStatus => (PATCH, "/applications/7/status")
  | GetApplications => (GET, "/applications")
  | GetApplicationsAll => (GET, "/applications/all")
  | GetApplication => (GET, "/applications/7")
  | DeleteApplication => (DELETE, "/applications/7")
  | PostCreatePaymentIntent => (POST, "/create-payment-intent")
  | PostPaymentsSave => (POST, "/payments/save")
  | GetPayments => (GET, "/payments")
  | GetPaymentsAll => (GET, "/payments/all")
  | PostBlogs => (POST, "/blogs")
  | GetBlogs => (GET, "/blogs")
  | GetBlog => (GET, "/blogs/7")
  | DeleteBlog => (DELETE, "/blogs/7")
  | GetBlogsLatest => (GET, "/blogs/latest")
  | GetAdminStats => (GET, "/admin-stats")
  | PostSubscribe => (POST, "/subscribe")
  end.

Definition shadowed (e : endpoint) : bool :=
  match e with
  | GetUserAgain | GetAgentsAllAgain | GetBlogsLatest => true
  | _ => false
  end.

End Router.

(** ** Further observations *)

(** The part of a token up to its first space. *)
Definition first_segment (t : string) : string := hd EmptyString (split_space t).

Definition no_space (t : string) : bool :=
  string_forallb (fun c => negb (Ascii.eqb c " "%char)) t.

#[global] Instance coll_eq_dec : EqDecision coll.
Proof. solve_decision. Defined.

(** The collections whose documents a route of the full server can write. *)
Definition written_by (rt : Full.route) : list coll :=
  match rt with
  | Full.PostUsers => [Users]
  | Full.PostAgents | Full.PatchAgentStatus | Full.DeleteAgent => [Agents]
  | Full.PatchAssign | Full.PatchReject | Full.PostApplications
  | Full.PatchApplicationStatus | Full.DeleteApplication => [Applications]
  | Full.PostBlogs | Full.DeleteBlog => [Blogs]
  | Full.PostSubscribe => [NewsletterSubscribers]
  | Full.GetPolicy | Full.GetAll | Full.GetApplicationsAll | Full.GetApplication
  | Full.GetBlogs | Full.GetBlog => []
  end.

Definition written_by_more (rt : FullRest.route) : list coll :=
  match rt with
  | FullRest.PutMakeAdmin | FullRest.PatchUser => [Users]
  | FullRest.PatchApplicationsAssign => [Applications]
  | FullRest.PostPolicies | FullRest.PatchPolicy | FullRest.DeletePolicy => [Policies]
  | FullRest.GetUsersRole | FullRest.GetApplicationsAssigned
  | FullRest.GetApplications => []
  end.

(** No two documents of a collection share an [_id]. *)
Definition ids_unique (l : list doc) : Prop :=
  NoDup (map (fun d : doc => d !! "_id") l).


(** The publication instant of a blog that has one. *)
Definition published (d : doc) : N :=
  match field d "publishDate" with
  | VDate t => t
  | _ => 0%N
  end.

Definition dated (d : doc) : Prop := exists t, d !! "publishDate" = Some (VDate t).

(** ** Further sample data *)

Module Scenario.

(** jane's application after it was assigned to jane herself as agent. *)
Definition assigned : Db :=
  snd (Full.handle Sample.idp Full.PatchAssign
         (incoming Sample.bob (fresh_hex 0)
            {[ "agentEmail" := VStr "jane@example.com" ]} 2000)
         Sample.with_application).

Definition claims_jane : doc :=
  <["email" := VStr "jane@example.com"]> {[ "name" := VStr "Jane Doe" ]}.
Definition claims_bob : doc := {[ "email" := VStr "bob@example.com" ]}.
Definition claims_root : doc :=
  <["email" := VStr "root@example.com"]> {[ "role" := VStr "admin" ]}.

(** The application jane created in [Sample.with_application]. *)
Definition stored_application : doc :=
  <["_id" := VOid (fresh_hex 0)]>
  (<["applicationDate" := VDate 1000]>
  (<["status" := VStr "pending"]>
  (<["userEmail" := VStr "jane@example.com"]> Sample.jane_application))).

Definition assigned_application : doc :=
  <["assignedAgent" := VStr "jane@example.com"]>
  (<["status" := VStr "Assigned"]> stored_application).

(** The store with amy's blog after jane has published one too. *)
Definition two_blogs : Db :=
  snd (Full.handle Sample.idp Full.PostBlogs
         (incoming Sample.jane "" Sample.honest_blog 3000) Sample.with_blog).

(** A catalogue with one policy. *)
Definition catalogue : Db :=
  snd (serve [] FullRest.post_policies
         (incoming None "" {[ "title" := VStr "Term Life" ]} 10) empty_db).

End Scenario.

(** * Properties *)

(** ** Reasoning about handlers *)

Lemma bind_ok {A B} (m : M A) (k : A -> M B) s a s' :
  m s = Ok a s' -> bind m k s = k a s'.
Proof. unfold bind. intros ->. reflexivity. Qed.

Lemma bind_throw {A B} (m : M A) (k : A -> M B) s s' :
  m s = Throw s' -> bind m k s = Throw s'.
Proof. unfold bind. intros ->. reflexivity. Qed.

Lemma try_ok {A} (m h : M A) s a s' :
  m s = Ok a s' -> try_catch m h s = Ok a s'.
Proof. unfold try_catch. intros ->. reflexivity. Qed.

Lemma try_throw {A} (m h : M A) s s' :
  m s = Throw s' -> try_catch m h s = h s'.
Proof. unfold try_catch. intros ->. reflexivity. Qed.

Lemma serve_ok ms h r s resp s' :
  run_chain ms h r s = Ok resp s' -> serve ms h r s = (Some resp, s').
Proof. unfold serve. intros ->. reflexivity. Qed.

Lemma chain_respond m ms h r s resp s' :
  m r s = Ok (Respond resp) s' -> run_chain (m :: ms) h r s = Ok resp s'.
Proof. intros H. cbn [run_chain]. rewrite (bind_ok _ _ _ _ _ H). reflexivity. Qed.

Lemma chain_next m ms h r s r' s' :
  m r s = Ok (Next r') s' -> run_chain (m :: ms) h r s = run_chain ms h r' s'.
Proof. intros H. cbn [run_chain]. rewrite (bind_ok _ _ _ _ _ H). reflexivity. Qed.

(** *** The token middleware *)

Section TokenGuards.
Variable verifyIdToken : value -> option doc.

Lemma verifyToken_bad r s :
  bad_credential verifyIdToken (authorization r) ->
  exists m, verifyToken verifyIdToken r s = Ok (Respond (mkResponse 401 (message m))) s.
Proof.
  unfold bad_credential, verifyToken.
  destruct (authorization r) as [h|]; [|eauto].
  destruct (startsWith "Bearer " h); [|eauto].
  intros [?| ->]; [discriminate|eauto].
Qed.

Lemma verifyToken_good r s h u :
  authorization r = Some h -> startsWith "Bearer " h = true ->
  verifyIdToken (second_segment h) = Some u ->
  verifyToken verifyIdToken r s = Ok (Next (set_user u r)) s.
Proof. unfold verifyToken. intros -> -> ->. reflexivity. Qed.




End TokenGuards.




(** *** Collection operations, online and offline *)

Lemma findOne_online c q s :
  online s = true -> findOne c q s = Ok (List.find (matches q) (get_coll c s)) s.
Proof. unfold findOne, bind, guard_online. intros ->. reflexivity. Qed.

Lemma findOne_offline c q s : online s = false -> findOne c q s = Throw s.
Proof. unfold findOne, bind, guard_online. intros ->. reflexivity. Qed.




Lemma updateOne_offline c q upd b s :
  online s = false -> updateOne c q upd b s = Throw s.
Proof. unfold updateOne, bind, guard_online. intros ->. reflexivity. Qed.

Lemma deleteOne_offline c q s : online s = false -> deleteOne c q s = Throw s.
Proof. unfold deleteOne, bind, guard_online. intros ->. reflexivity. Qed.

(** *** The role guards *)

Lemma strict_ne_str a b : a <> b -> strict_ne (VStr a) (VStr b) = true.
Proof.
  intros H. unfold strict_ne, strict_eq.
  destruct (String.eqb_spec a b); [contradiction|reflexivity].
Qed.

Lemma verifyRole_denied role denied crashed r s u :
  user r = Some u -> online s = true ->
  match user_record_of u s with
  | Some d => strict_ne (field d "role") (VStr role) = true
  | None => True
  end ->
  verifyRole role denied crashed r s = Ok (Respond (mkResponse 403 (message denied))) s.
Proof.
  intros Hu Hon Hrole. unfold verifyRole, user_claim. rewrite Hu.
  apply try_ok. unfold bind at 1. cbn [ret].
  rewrite (bind_ok _ _ _ _ _ (findOne_online Users _ s Hon)).
  unfold user_record_of in Hrole. cbn [get_coll].
  destruct (List.find _ (users s)) as [d|]; [|reflexivity].
  rewrite Hrole. reflexivity.
Qed.

Lemma verifyRole_granted role denied crashed r s u d :
  user r = Some u -> online s = true ->
  user_record_of u s = Some d -> field d "role" = VStr role ->
  verifyRole role denied crashed r s = Ok (Next r) s.
Proof.
  intros Hu Hon Hrec Hrole. unfold verifyRole, user_claim. rewrite Hu.
  apply try_ok. unfold bind at 1. cbn [ret].
  rewrite (bind_ok _ _ _ _ _ (findOne_online Users _ s Hon)).
  unfold user_record_of in Hrec. cbn [get_coll]. rewrite Hrec, Hrole.
  unfold strict_ne, strict_eq. rewrite String.eqb_refl. reflexivity.
Qed.


(** A request that passed [verifyToken] and is stopped by a role guard. *)
Lemma token_then_role_denied verify role denied crashed ms h r s u :
  authenticates verify (authorization r) u -> online s = true ->
  match user_record_of u s with
  | Some d => strict_ne (field d "role") (VStr role) = true
  | None => True
  end ->
  serve (verifyToken verify :: verifyRole role denied crashed :: ms) h r s
  = (Some (mkResponse 403 (message denied)), s).
Proof.
  intros (hd & Hhd & Hpre & Hver) Hon Hrole. apply serve_ok.
  rewrite (chain_next _ _ _ _ _ _ _ (verifyToken_good verify r s hd u Hhd Hpre Hver)).
  eapply chain_respond. eapply verifyRole_denied; eauto.
Qed.

(** C2. Role gates are equality tests, not a hierarchy: with a valid token
    whose user record has role [admin], every agent-only route answers 403
    and leaves the store as it was; with role [agent], every admin-only route
    does. *)
Theorem role_gates_are_disjoint
    (verify : value -> option doc) (rt : Full.route) (r : request) (s : Db)
    (u d : doc) :
  authenticates verify (authorization r) u ->
  online s = true ->
  user_record_of u s = Some d ->
  (Full.guards verify rt = [verifyToken verify; verifyAgent] ->
   field d "role" = VStr "admin" ->
   Full.handle verify rt r s
   = (Some (mkResponse 403 (message "Forbidden: Agent access required")), s))
  /\ (Full.guards verify rt = [verifyToken verify; verifyAdmin] ->
      field d "role" = VStr "agent" ->
      Full.handle verify rt r s
      = (Some (mkResponse 403 (message "Forbidden: Admin access required")), s)).
Proof.
  intros Hauth Hon Hrec. unfold Full.handle.
  split; intros -> Hrole; unfold verifyAgent, verifyAdmin;
    (eapply token_then_role_denied; [exact Hauth|exact Hon|]);
    rewrite Hrec, Hrole; apply strict_ne_str; discriminate.
Qed.

(** Witness for C2: root (admin) on the agent-only [POST /blogs], and jane
    (agent) on the admin-only [GET /applications/all]. *)
Lemma role_gates_are_disjoint_witness :
  Full.handle Sample.idp Full.PostBlogs
    (incoming (Some "Bearer root-token") "" ∅ 5) Sample.staffed
  = (Some (mkResponse 403 (message "Forbidden: Agent access required")), Sample.staffed)
  /\ Full.handle Sample.idp Full.GetApplicationsAll
       (incoming Sample.jane "" ∅ 5) Sample.staffed
     = (Some (mkResponse 403 (message "Forbidden: Admin access required")), Sample.staffed).
Proof.
  split.
  - refine (proj1 (role_gates_are_disjoint Sample.idp Full.PostBlogs
             (incoming (Some "Bearer root-token") "" ∅ 5) Sample.staffed
             (<["email" := VStr "root@example.com"]> {[ "role" := VStr "admin" ]})
             (Sample.user_record "root@example.com" "admin") _ _ _) _ _).
    + exists "Bearer root-token". repeat split; reflexivity.
    + reflexivity.
    + vm_compute. reflexivity.
    + reflexivity.
    + vm_compute. reflexivity.
  - refine (proj2 (role_gates_are_disjoint Sample.idp Full.GetApplicationsAll
             (incoming Sample.jane "" ∅ 5) Sample.staffed
             (<["email" := VStr "jane@example.com"]> {[ "name" := VStr "Jane Doe" ]})
             (Sample.user_record "jane@example.com" "agent") _ _ _) _ _).
    + exists "Bearer jane-token". repeat split; reflexivity.
    + reflexivity.
    + vm_compute. reflexivity.
    + reflexivity.
    + vm_compute. reflexivity.
Defined.

(** *** Identifier coercion: [GET /policies/:id] *)

Lemma get_policy_malformed (r : request) (s : Db) :
  new_ObjectId (param r) = None ->
  Full.get_policy r s = Ok (mkResponse 500 (message "Failed to fetch policy")) s.
Proof.
  intros Hbad. unfold Full.get_policy.
  erewrite try_throw; [reflexivity|].
  apply bind_throw. rewrite Hbad. reflexivity.
Qed.

Lemma get_policy_absent (r : request) (s : Db) (oid : value) :
  new_ObjectId (param r) = Some oid -> online s = true ->
  List.find (matches [("_id", oid)]) (policies s) = None ->
  Full.get_policy r s = Ok (mkResponse 404 (message "Policy not found")) s.
Proof.
  intros Hid Hon Hnone. unfold Full.get_policy. apply try_ok.
  rewrite Hid. unfold lift_opt, bind at 1, ret at 1.
  rewrite (bind_ok _ _ _ _ _ (findOne_online Policies _ s Hon)).
  cbn [get_coll]. rewrite Hnone. reflexivity.
Qed.

(** C6 (as amended). A path identifier that is not a 24-digit hex string makes
    the coercion throw, and [GET /policies/:id] answers 500 "Failed to fetch
    policy" in every variant of the server, with the store untouched; 404 is
    the answer for a well-formed identifier with no record. *)
Theorem malformed_policy_id_is_server_error
    (verify : value -> option doc) (r : request) (s : Db) :
  (new_ObjectId (param r) = None ->
     Full.handle verify Full.GetPolicy r s
     = (Some (mkResponse 500 (message "Failed to fetch policy")), s)
     /\ Basic.handle verify Basic.GetPolicy r s
        = (Some (mkResponse 500 (message "Failed to fetch policy")), s)
     /\ Legacy.handle Legacy.get_policy r s
        = (Some (mkResponse 500 (message "Failed to fetch policy")), s))
  /\ (forall oid, new_ObjectId (param r) = Some oid -> online s = true ->
        List.find (matches [("_id", oid)]) (policies s) = None ->
        Full.handle verify Full.GetPolicy r s
        = (Some (mkResponse 404 (message "Policy not found")), s)).
Proof.
  split.
  - intros Hbad. repeat split; apply serve_ok; cbn [run_chain Full.guards
      Full.handler_of Basic.guards Basic.handler_of];
      exact (get_policy_malformed r s Hbad).
  - intros oid Hid Hon Hnone. apply serve_ok.
    cbn [run_chain Full.guards Full.handler_of].
    exact (get_policy_absent r s oid Hid Hon Hnone).
Qed.

(** Witness for C6: the identifier ["abc"], and a well-formed identifier that
    names no policy. *)
Lemma malformed_policy_id_is_server_error_witness :
  Full.handle Sample.idp Full.GetPolicy (incoming None "abc" ∅ 0) Sample.staffed
  = (Some (mkResponse 500 (message "Failed to fetch policy")), Sample.staffed)
  /\ Full.handle Sample.idp Full.GetPolicy
       (incoming None "0123456789abcdef01234567" ∅ 0) Sample.staffed
     = (Some (mkResponse 404 (message "Policy not found")), Sample.staffed).
Proof.
  split.
  - apply (malformed_policy_id_is_server_error Sample.idp
             (incoming None "abc" ∅ 0) Sample.staffed).
    reflexivity.
  - apply (proj2 (malformed_policy_id_is_server_error Sample.idp
             (incoming None "0123456789abcdef01234567" ∅ 0) Sample.staffed)
             (VOid "0123456789abcdef01234567")); reflexivity.
Defined.

(** Counterexample to C6 as stated: [GET /policies/abc] is answered 500, which
    is not the status of [NotFound], in the full server and in [index.js]. *)
Lemma malformed_policy_id_not_404 :
  new_ObjectId "abc" = None
  /\ Full.handle Sample.idp Full.GetPolicy (incoming None "abc" ∅ 0) Sample.staffed
     = (Some (mkResponse 500 (message "Failed to fetch policy")), Sample.staffed)
  /\ Basic.handle Sample.idp Basic.GetPolicy (incoming None "abc" ∅ 0) Sample.staffed
     = (Some (mkResponse 500 (message "Failed to fetch policy")), Sample.staffed)
  /\ 500 <> class_status NotFound.
Proof. repeat split; try (vm_compute; reflexivity). discriminate. Qed.

(** *** Role resolution without a user record *)

(** [GET /blogs] reads [user.role] without testing [user]: for a subject with
    no record the access throws and the answer is 500. *)
Lemma get_blogs_without_record (r : request) (s : Db) (u : doc) :
  user r = Some u -> online s = true -> user_record_of u s = None ->
  Full.get_blogs r s = Ok (mkResponse 500 (message "Failed to fetch blogs")) s.
Proof.
  intros Hu Hon Hnone. unfold Full.get_blogs, user_claim. rewrite Hu.
  erewrite try_throw; [reflexivity|].
  unfold bind at 1, ret at 1.
  rewrite (bind_ok _ _ _ _ _ (findOne_online Users _ s Hon)).
  unfold user_record_of in Hnone. cbn [get_coll]. rewrite Hnone.
  reflexivity.
Qed.

(** C3 (the code at the failing input). bob holds a valid token and has no
    user record. The role guards treat him as a plain user (403, store
    unchanged), but the authenticated [GET /blogs] listing fails with 500
    instead of resolving his role to [user]. *)
Theorem get_blogs_fails_without_user_record :
  authenticates Sample.idp Sample.bob {[ "email" := VStr "bob@example.com" ]}
  /\ user_record_of {[ "email" := VStr "bob@example.com" ]} Sample.staffed = None
  /\ Full.handle Sample.idp Full.GetApplicationsAll
       (incoming Sample.bob "" ∅ 7) Sample.staffed
     = (Some (mkResponse 403 (message "Forbidden: Admin access required")),
        Sample.staffed)
  /\ Full.handle Sample.idp Full.GetBlogs
       (incoming Sample.bob "" ∅ 7) Sample.staffed
     = (Some (mkResponse 500 (message "Failed to fetch blogs")), Sample.staffed).
Proof.
  split; [exists "Bearer bob-token"; repeat split; reflexivity|].
  repeat split; vm_compute; reflexivity.
Qed.

(** *** Stepping through a handler *)

Lemma bind_ret {A B} (a : A) (k : A -> M B) s : bind (ret a) k s = k a s.
Proof. reflexivity. Qed.

Lemma bind_lift_some {A B} (a : A) (k : A -> M B) s :
  bind (lift_opt (Some a)) k s = k a s.
Proof. reflexivity. Qed.


Lemma bind_user_claim {B} (r : request) (u : doc) (k : string) (f : value -> M B) s :
  user r = Some u -> bind (user_claim r k) f s = f (field u k) s.
Proof. unfold user_claim. intros ->. reflexivity. Qed.

Lemma bind_findOne {B} c q (f : option doc -> M B) s :
  online s = true ->
  bind (findOne c q) f s = f (List.find (matches q) (get_coll c s)) s.
Proof. intros Hon. apply bind_ok, findOne_online, Hon. Qed.

Lemma serve_token verify ms h r s u :
  authenticates verify (authorization r) u ->
  serve (verifyToken verify :: ms) h r s = serve ms h (set_user u r) s.
Proof.
  intros (hd & Hhd & Hpre & Hver). unfold serve.
  rewrite (chain_next _ _ _ _ _ _ _ (verifyToken_good verify r s hd u Hhd Hpre Hver)).
  reflexivity.
Qed.

Lemma serve_role_granted role denied crashed ms h r s u d :
  user r = Some u -> online s = true ->
  user_record_of u s = Some d -> field d "role" = VStr role ->
  serve (verifyRole role denied crashed :: ms) h r s = serve ms h r s.
Proof.
  intros Hu Hon Hrec Hrole. unfold serve.
  rewrite (chain_next _ _ _ _ _ _ _
             (verifyRole_granted role denied crashed r s u d Hu Hon Hrec Hrole)).
  reflexivity.
Qed.

(** *** [split_first], [find] and the collection updates *)

Lemma split_first_spec p l pre x post :
  split_first p l = Some (pre, x, post) ->
  l = pre ++ x :: post /\ p x = true /\ List.find p l = Some x
  /\ List.forallb (fun d => negb (p d)) pre = true.
Proof.
  revert pre. induction l as [|d l IH]; intros pre; cbn [split_first List.find].
  - discriminate.
  - destruct (p d) eqn:Hp.
    + intros [= <- <- <-]. auto.
    + destruct (split_first p l) as [[[pre' x'] post']|]; [|discriminate].
      intros [= <- <- <-]. destruct (IH pre' eq_refl) as (-> & Hx & Hf & Hall).
      cbn [List.forallb]. rewrite Hp, Hall. auto.
Qed.

Lemma split_first_none p l :
  split_first p l = None <-> List.find p l = None.
Proof.
  induction l as [|d l IH]; cbn [split_first List.find]; [tauto|].
  destruct (p d); [split; discriminate|].
  destruct (split_first p l) as [[[pre x] post]|].
  - split; [discriminate|]. intros H. apply IH in H. discriminate.
  - split; [intros _; apply IH; reflexivity|reflexivity].
Qed.

Lemma find_split_first p l x :
  List.find p l = Some x -> exists pre post, split_first p l = Some (pre, x, post).
Proof.
  intros Hf. destruct (split_first p l) as [[[pre y] post]|] eqn:Hs.
  - destruct (split_first_spec _ _ _ _ _ Hs) as (_ & _ & Hy & _).
    rewrite Hf in Hy. injection Hy as ->. eauto.
  - apply split_first_none in Hs. congruence.
Qed.

Lemma deleteOne_online c q s :
  online s = true ->
  deleteOne c q s =
  match split_first (matches q) (get_coll c s) with
  | Some (pre, _, post) => Ok 1 (set_coll c (pre ++ post) s)
  | None => Ok 0 s
  end.
Proof.
  unfold deleteOne, bind, guard_online, get_docs, put_docs, ret. intros ->.
  destruct (split_first _ _) as [[[pre x] post]|]; reflexivity.
Qed.

(** *** Ownership on the delete routes *)

Lemma delete_application_denied (r : request) (s : Db) (u a : doc) (oid : value) :
  user r = Some u -> online s = true ->
  new_ObjectId (param r) = Some oid ->
  List.find (matches [("_id", oid)]) (applications s) = Some a ->
  strict_ne (field a "userEmail") (field u "email") = true ->
  strict_ne (field u "role") (VStr "admin") = true ->
  Full.delete_application r s = Ok (mkResponse 403 (message "Forbidden")) s.
Proof.
  intros Hu Hon Hid Hfind Hother Hrole. unfold Full.delete_application.
  apply try_ok. rewrite Hid, bind_lift_some, (bind_findOne _ _ _ _ Hon).
  cbn [get_coll]. rewrite Hfind. unfold Full.not_owner_nor_admin.
  erewrite bind_ok with (a := true) (s' := s); [reflexivity|].
  rewrite (bind_user_claim _ _ _ _ _ Hu), Hother,
    (bind_user_claim _ _ _ _ _ Hu), Hrole.
  reflexivity.
Qed.

Lemma delete_application_allowed (r : request) (s : Db) (u a : doc) (oid : value) :
  user r = Some u -> online s = true ->
  new_ObjectId (param r) = Some oid ->
  List.find (matches [("_id", oid)]) (applications s) = Some a ->
  strict_ne (field a "userEmail") (field u "email")
  && strict_ne (field u "role") (VStr "admin") = false ->
  exists pre post,
    applications s = pre ++ a :: post
    /\ Full.delete_application r s
       = Ok (mkResponse 200 (JDoc {[ "success" := VBool true ]}))
            (set_coll Applications (pre ++ post) s).
Proof.
  intros Hu Hon Hid Hfind Hown.
  destruct (find_split_first _ _ _ Hfind) as (pre & post & Hsplit).
  exists pre, post. split; [apply (split_first_spec _ _ _ _ _ Hsplit)|].
  unfold Full.delete_application.
  apply try_ok. rewrite Hid, bind_lift_some, (bind_findOne _ _ _ _ Hon).
  cbn [get_coll]. rewrite Hfind. unfold Full.not_owner_nor_admin.
  erewrite bind_ok with (a := false) (s' := s).
  2:{ rewrite (bind_user_claim _ _ _ _ _ Hu).
      destruct (strict_ne (field a "userEmail") (field u "email")); [|reflexivity].
      rewrite (bind_user_claim _ _ _ _ _ Hu). cbn [andb] in Hown.
      rewrite Hown. reflexivity. }
  rewrite bind_lift_some.
  erewrite bind_ok; [|rewrite (deleteOne_online _ _ _ Hon); cbn [get_coll];
                      rewrite Hsplit; reflexivity].
  reflexivity.
Qed.

Lemma delete_blog_denied (r : request) (s : Db) (u b : doc) (oid : value) :
  user r = Some u -> online s = true ->
  new_ObjectId (param r) = Some oid ->
  List.find (matches [("_id", oid)]) (blogs s) = Some b ->
  strict_ne (field b "authorEmail") (field u "email") = true ->
  Full.delete_blog r s
  = Ok (mkResponse 403 (message "Forbidden: Cannot delete others' blogs")) s.
Proof.
  intros Hu Hon Hid Hfind Hother. unfold Full.delete_blog.
  apply try_ok. rewrite Hid, bind_lift_some, (bind_findOne _ _ _ _ Hon).
  cbn [get_coll]. rewrite Hfind, (bind_user_claim _ _ _ _ _ Hu), Hother.
  reflexivity.
Qed.

Lemma strict_ne_false a b : strict_ne a b = false -> strict_eq a b = true.
Proof. unfold strict_ne. destruct (strict_eq a b); [reflexivity|discriminate]. Qed.

Lemma strict_eq_str v s : strict_eq v (VStr s) = true -> v = VStr s.
Proof.
  destruct v; cbn [strict_eq]; try discriminate.
  intros H. apply String.eqb_eq in H. congruence.
Qed.

Lemma serve_nil h r s :
  serve [] h r s = match h r s with
                   | Ok resp s' => (Some resp, s')
                   | Throw s' => (None, s')
                   end.
Proof. reflexivity. Qed.

(** C4 (as amended). The creator-or-admin test guards the delete routes of the
    full server. On [DELETE /applications/:id], for an existing record, a
    caller whose token email differs from the record's [userEmail] and whose
    token carries no [admin] role is answered 403 with the store unchanged,
    a 200 answer implies one of the two, and for a creator or admin the record
    is removed. On [DELETE /blogs/:id], behind
    the agent gate, a caller who is not the blog's author is answered 403 with
    the store unchanged, and a 200 answer implies authorship. *)
Theorem delete_requires_owner_or_admin
    (verify : value -> option doc) (r : request) (s : Db) (u : doc) (oid : value) :
  authenticates verify (authorization r) u ->
  online s = true ->
  new_ObjectId (param r) = Some oid ->
  (forall a, List.find (matches [("_id", oid)]) (applications s) = Some a ->
     (strict_ne (field a "userEmail") (field u "email") = true ->
      strict_ne (field u "role") (VStr "admin") = true ->
      Full.handle verify Full.DeleteApplication r s
      = (Some (mkResponse 403 (message "Forbidden")), s))
     /\ (forall resp s',
           Full.handle verify Full.DeleteApplication r s = (Some resp, s') ->
           status resp = 200 ->
           strict_eq (field a "userEmail") (field u "email") = true
           \/ strict_eq (field u "role") (VStr "admin") = true)
     /\ (strict_ne (field a "userEmail") (field u "email")
         && strict_ne (field u "role") (VStr "admin") = false ->
         exists pre post,
           applications s = pre ++ a :: post
           /\ Full.handle verify Full.DeleteApplication r s
              = (Some (mkResponse 200 (JDoc {[ "success" := VBool true ]})),
                 set_coll Applications (pre ++ post) s)))
  /\ (forall b, List.find (matches [("_id", oid)]) (blogs s) = Some b ->
        (strict_ne (field b "authorEmail") (field u "email") = true ->
         exists m, Full.handle verify Full.DeleteBlog r s
                   = (Some (mkResponse 403 (message m)), s))
        /\ (forall resp s',
              Full.handle verify Full.DeleteBlog r s = (Some resp, s') ->
              status resp = 200 ->
              strict_eq (field b "authorEmail") (field u "email") = true)).
Proof.
  intros Hauth Hon Hid. unfold Full.handle.
  cbn [Full.guards Full.handler_of].
  rewrite !(serve_token _ _ _ _ _ _ Hauth).
  assert (Hu : user (set_user u r) = Some u) by reflexivity.
  assert (Hid' : new_ObjectId (param (set_user u r)) = Some oid) by exact Hid.
  split.
  - intros a Hfind. rewrite serve_nil. split; [|split].
    + intros Hother Hrole.
      rewrite (delete_application_denied _ _ _ _ _ Hu Hon Hid' Hfind Hother Hrole).
      reflexivity.
    + intros resp s' Hres Hok.
      destruct (strict_ne (field a "userEmail") (field u "email")) eqn:Hother;
        [|left; apply strict_ne_false, Hother].
      destruct (strict_ne (field u "role") (VStr "admin")) eqn:Hrole;
        [|right; apply strict_ne_false, Hrole].
      rewrite (delete_application_denied _ _ _ _ _ Hu Hon Hid' Hfind Hother Hrole)
        in Hres.
      injection Hres as <- <-. discriminate Hok.
    + intros Hown.
      destruct (delete_application_allowed _ _ _ _ _ Hu Hon Hid' Hfind Hown)
        as (pre & post & Hl & Hdel).
      exists pre, post. split; [exact Hl|]. rewrite Hdel. reflexivity.
  - intros b Hfind.
    assert (Hcases :
      (exists m, serve [verifyAgent] Full.delete_blog (set_user u r) s
                 = (Some (mkResponse 403 (message m)), s))
      \/ serve [verifyAgent] Full.delete_blog (set_user u r) s
         = serve [] Full.delete_blog (set_user u r) s).
    { destruct (user_record_of u s) as [d|] eqn:Hrec.
      - destruct (strict_ne (field d "role") (VStr "agent")) eqn:Hrole.
        + left. eexists. apply serve_ok. eapply chain_respond.
          eapply verifyRole_denied; eauto. rewrite Hrec. exact Hrole.
        + right. eapply serve_role_granted; eauto.
          apply strict_eq_str, strict_ne_false, Hrole.
      - left. eexists. apply serve_ok. eapply chain_respond.
        eapply verifyRole_denied; eauto. rewrite Hrec. exact I. }
    split.
    + intros Hother. destruct Hcases as [Hdenied | ->]; [exact Hdenied|].
      rewrite serve_nil,
        (delete_blog_denied _ _ _ _ _ Hu Hon Hid' Hfind Hother).
      eauto.
    + intros resp s' Hres Hok.
      destruct Hcases as [[m Hdenied] | Hgranted].
      * rewrite Hdenied in Hres. injection Hres as <- <-. discriminate Hok.
      * destruct (strict_ne (field b "authorEmail") (field u "email")) eqn:Hother;
          [|apply strict_ne_false, Hother].
        rewrite Hgranted, serve_nil,
          (delete_blog_denied _ _ _ _ _ Hu Hon Hid' Hfind Hother) in Hres.
        injection Hres as <- <-. discriminate Hok.
Qed.

(** Witness for C4: bob on jane's application, jane on amy's blog. *)
Lemma delete_requires_owner_or_admin_witness :
  Full.handle Sample.idp Full.DeleteApplication
    (incoming Sample.bob (fresh_hex 0) ∅ 2000) Sample.with_application
  = (Some (mkResponse 403 (message "Forbidden")), Sample.with_application)
  /\ exists m, Full.handle Sample.idp Full.DeleteBlog
                 (incoming Sample.jane "00000000000000000000b109" ∅ 2000)
                 Sample.with_blog
               = (Some (mkResponse 403 (message m)), Sample.with_blog).
Proof.
  split.
  - refine (proj1 (proj1 (delete_requires_owner_or_admin Sample.idp
             (incoming Sample.bob (fresh_hex 0) ∅ 2000) Sample.with_application
             {[ "email" := VStr "bob@example.com" ]} (VOid (fresh_hex 0)) _ _ _)
             (<["_id" := VOid (fresh_hex 0)]>
              (<["applicationDate" := VDate 1000]>
              (<["status" := VStr "pending"]>
              (<["userEmail" := VStr "jane@example.com"]> Sample.jane_application))))
             _) _ _).
    + exists "Bearer bob-token". repeat split; reflexivity.
    + reflexivity.
    + reflexivity.
    + vm_compute. reflexivity.
    + vm_compute. reflexivity.
    + vm_compute. reflexivity.
  - refine (proj1 (proj2 (delete_requires_owner_or_admin Sample.idp
             (incoming Sample.jane "00000000000000000000b109" ∅ 2000)
             Sample.with_blog
             (<["email" := VStr "jane@example.com"]> {[ "name" := VStr "Jane Doe" ]})
             (VOid "00000000000000000000b109") _ _ _)
             Sample.amy_blog _) _).
    + exists "Bearer jane-token". repeat split; reflexivity.
    + reflexivity.
    + reflexivity.
    + vm_compute. reflexivity.
    + vm_compute. reflexivity.
Defined.

(** Counterexample to C4 as stated: [PATCH /assign/:id] has no ownership
    test. bob, who neither created jane's application nor is an admin,
    rewrites it and is answered 200. *)
Lemma stranger_mutates_application :
  let r := incoming Sample.bob (fresh_hex 0)
             {[ "agentEmail" := VStr "bob@example.com" ]} 2000 in
  let out := Full.handle Sample.idp Full.PatchAssign r Sample.with_application in
  (exists a, applications Sample.with_application = [a]
             /\ a !! "_id" = Some (VOid (fresh_hex 0))
             /\ a !! "userEmail" = Some (VStr "jane@example.com")
             /\ a !! "assignedAgent" = None)
  /\ authenticates Sample.idp Sample.bob {[ "email" := VStr "bob@example.com" ]}
  /\ user_record_of {[ "email" := VStr "bob@example.com" ]} Sample.with_application = None
  /\ option_map status (fst out) = Some 200
  /\ (exists a', applications (snd out) = [a']
                 /\ a' !! "assignedAgent" = Some (VStr "bob@example.com")
                 /\ a' !! "status" = Some (VStr "Assigned")).
Proof.
  cbv zeta. split; [|split; [|split; [|split]]].
  - eexists. split; [vm_compute; reflexivity|]. repeat split; vm_compute; reflexivity.
  - exists "Bearer bob-token". repeat split; reflexivity.
  - vm_compute. reflexivity.
  - vm_compute. reflexivity.
  - eexists. split; [vm_compute; reflexivity|]. split; vm_compute; reflexivity.
Qed.

(** *** Generated identifiers are well-formed *)

Lemma hex_digit_lower n : lower_hex_digit (hex_digit n).
Proof.
  unfold hex_digit.
  assert (Hlt : (N.to_nat (n mod 16) < 16)%nat).
  { pose proof (N.mod_upper_bound n 16). lia. }
  revert Hlt. generalize (N.to_nat (n mod 16)). intros k Hk.
  do 16 (destruct k as [|k]; [split; vm_compute; reflexivity|]).
  lia.
Qed.

Lemma hex_fixed_length len n acc :
  String.length (hex_fixed len n acc) = (len + String.length acc)%nat.
Proof.
  revert n acc. induction len as [|len IH]; intros n acc; cbn [hex_fixed].
  - reflexivity.
  - rewrite IH. cbn [String.length]. lia.
Qed.

Lemma hex_fixed_digits len n acc :
  string_forallb is_hex_digit acc = true -> string_map lower_hex acc = acc ->
  string_forallb is_hex_digit (hex_fixed len n acc) = true
  /\ string_map lower_hex (hex_fixed len n acc) = hex_fixed len n acc.
Proof.
  revert n acc. induction len as [|len IH]; intros n acc Hd Hl; cbn [hex_fixed].
  - auto.
  - destruct (hex_digit_lower n) as [Hh Hlow].
    apply IH; cbn [string_forallb string_map].
    + rewrite Hh, Hd. reflexivity.
    + rewrite Hlow, Hl. reflexivity.
Qed.

Lemma new_ObjectId_fresh n : new_ObjectId (fresh_hex n) = Some (VOid (fresh_hex n)).
Proof.
  unfold new_ObjectId, fresh_hex.
  destruct (hex_fixed_digits 24 n EmptyString eq_refl eq_refl) as [Hd Hl].
  rewrite hex_fixed_length, Hd, Hl. reflexivity.
Qed.

(** *** Documents *)

Lemma field_insert_eq (d : doc) k v : field (<[k := v]> d) k = v.
Proof. unfold field. rewrite lookup_insert_eq. reflexivity. Qed.

Lemma field_insert_ne (d : doc) k k' v :
  k <> k' -> field (<[k := v]> d) k' = field d k'.
Proof. intros H. unfold field. rewrite lookup_insert_ne by exact H. reflexivity. Qed.


Lemma nullish_bson v : is_nullish (bson v) = is_nullish v.
Proof. destruct v; reflexivity. Qed.

Lemma bson_not_nullish v : is_nullish v = false -> bson v = v.
Proof. destruct v; try reflexivity; discriminate. Qed.

Lemma lookup_bson_doc (d : doc) k : bson_doc d !! k = bson <$> (d !! k).
Proof. unfold bson_doc. apply lookup_fmap. Qed.

Lemma nullish_field_bson_doc (d : doc) k :
  is_nullish (field (bson_doc d) k) = is_nullish (field d k).
Proof.
  unfold field. rewrite lookup_bson_doc.
  destruct (d !! k) as [v|]; cbn; [apply nullish_bson|reflexivity].
Qed.

Lemma truthy_not_nullish v : truthy v = true -> is_nullish v = false.
Proof. destruct v; cbn; congruence. Qed.

(** *** Inserting and finding again *)

Lemma get_coll_bump c s : get_coll c (bump_oid s) = get_coll c s.
Proof. destruct c; reflexivity. Qed.

Lemma get_set_coll c l s : get_coll c (set_coll c l s) = l.
Proof. destruct c; reflexivity. Qed.

Lemma online_set_coll c l s : online (set_coll c l s) = online s.
Proof. destruct c; reflexivity. Qed.


Lemma store_new_generated c (d : doc) s :
  fresh_in c s ->
  store_new c true d s
  = Ok (VOid (fresh_hex (next_oid s)))
       (set_coll c (get_coll c s ++ [<["_id" := VOid (fresh_hex (next_oid s))]> d])
                 (bump_oid s)).
Proof.
  intros Hfresh. unfold store_new.
  unfold bind, take_oid, ret, get_docs, put_docs.
  rewrite field_insert_eq, get_coll_bump, Hfresh. reflexivity.
Qed.

Lemma insertOne_generated c (d : doc) s :
  online s = true -> is_nullish (field d "_id") = true -> fresh_in c s ->
  insertOne c d s
  = Ok (VOid (fresh_hex (next_oid s)))
       (set_coll c (get_coll c s
                    ++ [<["_id" := VOid (fresh_hex (next_oid s))]> (bson_doc d)])
                 (bump_oid s)).
Proof.
  intros Hon Hnull Hfresh. unfold insertOne, guard_online.
  unfold bind at 1. rewrite Hon, nullish_field_bson_doc, Hnull.
  apply store_new_generated. exact Hfresh.
Qed.

Lemma matches_id (id : value) (d : doc) :
  is_nullish id = false ->
  matches [("_id", id)] d = bool_decide (d !! "_id" = Some id).
Proof.
  intros Hid. unfold matches, match_cond. cbn [forallb fst snd].
  rewrite Hid. apply andb_true_r.
Qed.

Lemma find_appended (id : value) (l : list doc) (d : doc) :
  is_nullish id = false -> has_id id l = false -> d !! "_id" = Some id ->
  List.find (matches [("_id", id)]) (l ++ [d]) = Some d.
Proof.
  intros Hid Hfresh Hd. induction l as [|x l IH]; cbn [app List.find].
  - rewrite (matches_id _ _ Hid), bool_decide_eq_true_2 by exact Hd. reflexivity.
  - cbn [has_id existsb] in Hfresh. apply orb_false_iff in Hfresh as [Hx Hl].
    rewrite (matches_id _ _ Hid), Hx. apply IH, Hl.
Qed.

(** *** Creating an application and fetching it back *)

Ltac doc_lookup :=
  repeat first
    [ rewrite lookup_insert_eq
    | rewrite lookup_insert_ne by (first [discriminate | congruence])
    | rewrite lookup_bson_doc
    | rewrite field_insert_eq
    | rewrite field_insert_ne by (first [discriminate | congruence]) ].

Lemma post_applications_created (r : request) (s : Db) (u : doc) :
  user r = Some u -> online s = true ->
  is_nullish (field (body r) "_id") = true -> fresh_in Applications s ->
  Full.post_applications r s
  = Ok (mkResponse 201 (JDoc {[ "insertedId" := VOid (fresh_hex (next_oid s)) ]}))
       (set_coll Applications
          (applications s
           ++ [<["_id" := VOid (fresh_hex (next_oid s))]>
               (bson_doc (stamped_application (body r) (field u "email") (now r)))])
          (bump_oid s)).
Proof.
  intros Hu Hon Hnull Hfresh. unfold Full.post_applications. apply try_ok.
  rewrite (bind_user_claim _ _ _ _ _ Hu).
  erewrite bind_ok; [reflexivity|].
  apply insertOne_generated; [exact Hon| |exact Hfresh].
  unfold stamped_application. doc_lookup. exact Hnull.
Qed.

Lemma get_application_owner (r : request) (s : Db) (u a : doc) (oid : value) (e : string) :
  user r = Some u -> online s = true ->
  new_ObjectId (param r) = Some oid ->
  List.find (matches [("_id", oid)]) (applications s) = Some a ->
  field u "email" = VStr e -> field a "userEmail" = VStr e ->
  Full.get_application r s = Ok (mkResponse 200 (JDoc a)) s.
Proof.
  intros Hu Hon Hid Hfind He Ha. unfold Full.get_application. apply try_ok.
  rewrite Hid, bind_lift_some, (bind_findOne _ _ _ _ Hon).
  cbn [get_coll]. rewrite Hfind. unfold Full.not_owner_nor_admin.
  erewrite bind_ok with (a := false) (s' := s); [reflexivity|].
  rewrite (bind_user_claim _ _ _ _ _ Hu), He, Ha.
  unfold strict_ne, strict_eq. rewrite String.eqb_refl. reflexivity.
Qed.

Lemma basic_post_applications_created (r : request) (s : Db) :
  online s = true ->
  is_nullish (field (body r) "_id") = true -> fresh_in Applications s ->
  Basic.post_applications r s
  = Ok (mkResponse 200 (JDoc {[ "insertedId" := VOid (fresh_hex (next_oid s)) ]}))
       (set_coll Applications
          (applications s
           ++ [<["_id" := VOid (fresh_hex (next_oid s))]> (bson_doc (body r))])
          (bump_oid s)).
Proof.
  intros Hon Hnull Hfresh. unfold Basic.post_applications. apply try_ok.
  erewrite bind_ok; [reflexivity|].
  apply insertOne_generated; assumption.
Qed.

Lemma basic_get_application_found (r : request) (s : Db) (a : doc) (oid : value) :
  online s = true -> new_ObjectId (param r) = Some oid ->
  List.find (matches [("_id", oid)]) (applications s) = Some a ->
  Basic.get_application r s = Ok (mkResponse 200 (JDoc a)) s.
Proof.
  intros Hon Hid Hfind. unfold Basic.get_application. apply try_ok.
  rewrite Hid, bind_lift_some, (bind_findOne _ _ _ _ Hon).
  cbn [get_coll]. rewrite Hfind. reflexivity.
Qed.

(** C7 (as amended). In the full server, an authenticated [POST /applications]
    whose body carries no [_id] is answered 201 with a generated identifier,
    and fetching that identifier with the same credential returns the stored
    record: [status] is "pending", [applicationDate] is the server clock,
    [userEmail] is the token's email, and every other submitted field is as
    submitted. In [index.js] the same round trip returns the body as it was
    submitted plus [_id]: no status and no timestamp are assigned. *)
Theorem application_round_trip
    (verify : value -> option doc) (r : request) (s : Db) (u : doc) (e : string) :
  authenticates verify (authorization r) u ->
  field u "email" = VStr e ->
  online s = true ->
  is_nullish (field (body r) "_id") = true ->
  fresh_in Applications s ->
  exists id,
    id_text id = fresh_hex (next_oid s)
    /\ (exists s1 a,
          Full.handle verify Full.PostApplications r s
          = (Some (mkResponse 201 (JDoc {[ "insertedId" := id ]})), s1)
          /\ (forall b t,
                Full.handle verify Full.GetApplication
                  (incoming (authorization r) (id_text id) b t) s1
                = (Some (mkResponse 200 (JDoc a)), s1))
          /\ a !! "status" = Some (VStr "pending")
          /\ a !! "applicationDate" = Some (VDate (now r))
          /\ a !! "userEmail" = Some (VStr e)
          /\ a !! "_id" = Some id
          /\ (forall k, k <> "status" -> k <> "applicationDate" ->
                        k <> "userEmail" -> k <> "_id" ->
                        a !! k = bson <$> (body r !! k)))
    /\ (exists s1 a,
          Basic.handle verify Basic.PostApplications r s
          = (Some (mkResponse 200 (JDoc {[ "insertedId" := id ]})), s1)
          /\ (forall b t,
                Basic.handle verify Basic.GetApplication
                  (incoming (authorization r) (id_text id) b t) s1
                = (Some (mkResponse 200 (JDoc a)), s1))
          /\ a = <["_id" := id]> (bson_doc (body r))).
Proof.
  intros Hauth He Hon Hnull Hfresh.
  set (id := VOid (fresh_hex (next_oid s))).
  assert (Hid : forall b t,
    new_ObjectId (param (set_user u (incoming (authorization r) (id_text id) b t)))
    = Some id) by (intros; apply new_ObjectId_fresh).
  exists id. split; [reflexivity|]. split.
  - set (a := <["_id" := id]>
              (bson_doc (stamped_application (body r) (field u "email") (now r)))).
    exists (set_coll Applications (applications s ++ [a]) (bump_oid s)), a.
    split; [|split].
    + unfold Full.handle. cbn [Full.guards Full.handler_of].
      rewrite (serve_token _ _ _ _ _ _ Hauth), serve_nil.
      rewrite (post_applications_created (set_user u r) s u eq_refl Hon Hnull Hfresh).
      reflexivity.
    + intros b t. unfold Full.handle. cbn [Full.guards Full.handler_of].
      rewrite (serve_token verify _ _ (incoming (authorization r) (id_text id) b t) _ u Hauth),
      serve_nil.
      erewrite get_application_owner; [reflexivity|reflexivity| |apply Hid| |exact He|].
      * rewrite online_set_coll. exact Hon.
      * cbn [applications set_coll]. apply find_appended; [reflexivity|exact Hfresh|].
        subst a. doc_lookup. reflexivity.
      * subst a. unfold stamped_application, field. doc_lookup.
        unfold field in He. cbn. rewrite He. reflexivity.
    + subst a. unfold stamped_application. repeat split; doc_lookup; try reflexivity.
      * rewrite He. reflexivity.
      * intros k H1 H2 H3 H4. doc_lookup. reflexivity.
  - exists (set_coll Applications
              (applications s ++ [<["_id" := id]> (bson_doc (body r))]) (bump_oid s)),
           (<["_id" := id]> (bson_doc (body r))).
    split; [|split; [|reflexivity]].
    + unfold Basic.handle. cbn [Basic.guards Basic.handler_of].
      rewrite (serve_token _ _ _ _ _ _ Hauth), serve_nil.
      rewrite (basic_post_applications_created (set_user u r) s Hon Hnull Hfresh).
      reflexivity.
    + intros b t. unfold Basic.handle. cbn [Basic.guards Basic.handler_of].
      rewrite (serve_token verify _ _ (incoming (authorization r) (id_text id) b t) _ u Hauth),
      serve_nil.
      erewrite basic_get_application_found; [reflexivity| |apply Hid|].
      * rewrite online_set_coll. exact Hon.
      * cbn [applications set_coll]. apply find_appended; [reflexivity|exact Hfresh|].
        doc_lookup. reflexivity.
Qed.

(** Witness for C7: the scenario of the specification, jane applying for
    policy X. *)
Lemma application_round_trip_witness :
  exists id s1 a,
    Full.handle Sample.idp Full.PostApplications
      (incoming Sample.jane "" Sample.jane_application 1000) Sample.staffed
    = (Some (mkResponse 201 (JDoc {[ "insertedId" := id ]})), s1)
    /\ Full.handle Sample.idp Full.GetApplication
         (incoming Sample.jane (id_text id) ∅ 1001) s1
       = (Some (mkResponse 200 (JDoc a)), s1)
    /\ a !! "status" = Some (VStr "pending")
    /\ a !! "applicationDate" = Some (VDate 1000)
    /\ a !! "policyId" = Some (VStr "X")
    /\ a !! "aname" = Some (VStr "Jane Doe").
Proof.
  destruct (application_round_trip Sample.idp
              (incoming Sample.jane "" Sample.jane_application 1000)
              Sample.staffed
              (<["email" := VStr "jane@example.com"]> {[ "name" := VStr "Jane Doe" ]})
              "jane@example.com")
    as (id & _ & (s1 & a & Hpost & Hget & Hst & Hdate & _ & _ & Hrest) & _).
  - exists "Bearer jane-token". repeat split; reflexivity.
  - reflexivity.
  - reflexivity.
  - reflexivity.
  - reflexivity.
  - exists id, s1, a. split; [exact Hpost|]. split; [apply Hget|].
    split; [exact Hst|]. split; [exact Hdate|].
    split; rewrite Hrest by discriminate; reflexivity.
Defined.

(** Counterexample to C7 as stated: in [index.js] the record fetched back has
    no status and no timestamp; and in the full server a submitted [status]
    does not come back as submitted. *)
Lemma round_trip_without_pending_status :
  let post := Basic.handle Sample.idp Basic.PostApplications
                (incoming Sample.jane "" Sample.jane_application 1000)
                Sample.staffed in
  let full := Full.handle Sample.idp Full.PostApplications
                (incoming Sample.jane "" {[ "status" := VStr "approved" ]} 1000)
                Sample.staffed in
  (fst post = Some (mkResponse 200 (JDoc {[ "insertedId" := VOid (fresh_hex 0) ]}))
   /\ exists a, Basic.handle Sample.idp Basic.GetApplication
                  (incoming Sample.jane (fresh_hex 0) ∅ 1001) (snd post)
                = (Some (mkResponse 200 (JDoc a)), snd post)
                /\ a !! "status" = None
                /\ a !! "applicationDate" = None)
  /\ (fst full = Some (mkResponse 201 (JDoc {[ "insertedId" := VOid (fresh_hex 0) ]}))
      /\ exists a, Full.handle Sample.idp Full.GetApplication
                     (incoming Sample.jane (fresh_hex 0) ∅ 1001) (snd full)
                   = (Some (mkResponse 200 (JDoc a)), snd full)
                   /\ a !! "status" = Some (VStr "pending")
                   /\ a !! "status" <> Some (VStr "approved")).
Proof.
  cbv zeta. split; (split; [vm_compute; reflexivity|]);
    eexists; (split; [vm_compute; reflexivity|]); split; vm_compute;
    first [reflexivity | discriminate].
Qed.

(** *** The profile upsert *)

Lemma serve_after ms h r s : snd (serve ms h r s) = after (run_chain ms h r s).
Proof. unfold serve. destruct (run_chain ms h r s); reflexivity. Qed.

Lemma set_coll_twice c l l' s : set_coll c l (set_coll c l' s) = set_coll c l s.
Proof. destruct c; reflexivity. Qed.

Lemma matches_single (k : string) (v : value) (d : doc) :
  is_nullish v = false ->
  matches [(k, v)] d = bool_decide (d !! k = Some v).
Proof.
  intros Hv. unfold matches, match_cond. cbn [forallb fst snd].
  rewrite Hv. apply andb_true_r.
Qed.

Lemma find_none_forallb {A} (p : A -> bool) l :
  List.find p l = None -> forallb (fun d => negb (p d)) l = true.
Proof.
  induction l as [|x l IH]; cbn [List.find forallb]; [reflexivity|].
  destruct (p x); [discriminate|]. exact IH.
Qed.

Lemma split_first_hit p pre x post :
  forallb (fun d => negb (p d)) pre = true -> p x = true ->
  split_first p (pre ++ x :: post) = Some (pre, x, post).
Proof.
  intros Hpre Hx. induction pre as [|y pre IH]; cbn [app split_first].
  - rewrite Hx. reflexivity.
  - cbn [forallb] in Hpre. apply andb_true_iff in Hpre as [Hy Hpre].
    apply negb_true_iff in Hy. rewrite Hy, (IH Hpre). reflexivity.
Qed.

Lemma updateOne_found c q upd b s pre old post :
  online s = true ->
  split_first (matches q) (get_coll c s) = Some (pre, old, post) ->
  updateOne c q upd b s =
  if bool_decide (apply_set upd old !! "_id" = old !! "_id")
  then Ok (mkUpdate 1 (if bool_decide (apply_set upd old = old) then 0 else 1) 0 VNull)
          (set_coll c (pre ++ apply_set upd old :: post) s)
  else Throw s.
Proof.
  intros Hon Hsplit. unfold updateOne, guard_online, bind, get_docs.
  rewrite Hon, Hsplit. destruct (bool_decide _); reflexivity.
Qed.

Lemma updateOne_upsert c q upd s :
  online s = true ->
  split_first (matches q) (get_coll c s) = None ->
  updateOne c q upd true s =
  bind (store_new c
          (bool_decide (apply_set upd (bson_doc (list_to_map q)) !! "_id" = None))
          (apply_set upd (bson_doc (list_to_map q))))
       (fun id => ret (mkUpdate 0 0 1 id)) s.
Proof.
  intros Hon Hsplit. unfold updateOne, guard_online, get_docs.
  unfold bind at 1. rewrite Hon. unfold bind at 1. rewrite Hsplit. reflexivity.
Qed.

Lemma apply_set_idem (upd old : doc) :
  apply_set upd (apply_set upd old) = apply_set upd old.
Proof.
  unfold apply_set. rewrite (assoc_L (∪)), (idemp_L (∪)). reflexivity.
Qed.

Lemma apply_set_lookup (upd old : doc) k v :
  upd !! k = Some v -> apply_set upd old !! k = Some (bson v).
Proof.
  intros H. unfold apply_set. apply lookup_union_Some_l.
  rewrite lookup_bson_doc, H. reflexivity.
Qed.

Lemma apply_set_lookup_none (upd old : doc) k :
  upd !! k = None -> apply_set upd old !! k = old !! k.
Proof.
  intros H. unfold apply_set. apply lookup_union_r.
  rewrite lookup_bson_doc, H. reflexivity.
Qed.

(** Applying the same [$set] to a freshly upserted document changes nothing,
    provided it leaves [_id] alone. *)
Lemma apply_set_upserted (upd base : doc) (id : value) :
  let d := <["_id" := id]> (apply_set upd base) in
  apply_set upd d !! "_id" = d !! "_id" -> apply_set upd d = d.
Proof.
  intros d Hid. apply map_eq. intros k.
  destruct (decide (k = "_id")) as [->|Hk]; [exact Hid|].
  subst d. unfold apply_set in *.
  rewrite lookup_union, lookup_insert_ne by congruence.
  rewrite lookup_union.
  destruct (bson_doc upd !! k), (base !! k); reflexivity.
Qed.

Lemma field_truthy_lookup (d : doc) k :
  truthy (field d k) = true -> d !! k = Some (field d k).
Proof.
  unfold field. destruct (d !! k); [reflexivity|discriminate].
Qed.

Section Upsert.
Variables (upd : doc) (e : value).
Hypothesis e_not_nullish : is_nullish e = false.
Hypothesis upd_email : upd !! "email" = Some e.

Let q : query := [("email", e)].

Lemma upserted_matches (old : doc) : matches q (apply_set upd old) = true.
Proof.
  unfold q. rewrite (matches_single _ _ _ e_not_nullish).
  apply bool_decide_eq_true_2.
  rewrite (apply_set_lookup _ _ _ _ upd_email), (bson_not_nullish _ e_not_nullish).
  reflexivity.
Qed.

Lemma upserted_matches_id (old : doc) (id : value) :
  matches q (<["_id" := id]> (apply_set upd old)) = true.
Proof.
  unfold q. rewrite (matches_single _ _ _ e_not_nullish).
  apply bool_decide_eq_true_2. rewrite lookup_insert_ne by discriminate.
  rewrite (apply_set_lookup _ _ _ _ upd_email), (bson_not_nullish _ e_not_nullish).
  reflexivity.
Qed.

(** Running the upsert a second time leaves the store of the first run. *)
Lemma upsert_after_idem (s : Db) :
  fresh_in Users s ->
  after (updateOne Users q upd true (after (updateOne Users q upd true s)))
  = after (updateOne Users q upd true s).
Proof.
  intros Hfresh.
  destruct (online s) eqn:Hon;
    [|rewrite (updateOne_offline _ _ _ _ _ Hon); cbn [after];
      rewrite (updateOne_offline _ _ _ _ _ Hon); reflexivity].
  destruct (split_first (matches q) (get_coll Users s)) as [[[pre old] post]|] eqn:Hs.
  - rewrite (updateOne_found _ _ _ _ _ _ _ _ Hon Hs).
    destruct (bool_decide (apply_set upd old !! "_id" = old !! "_id")) eqn:Hid;
      cbn [after].
    + destruct (split_first_spec _ _ _ _ _ Hs) as (_ & _ & _ & Hpre).
      erewrite updateOne_found;
        [|rewrite online_set_coll; exact Hon
         |rewrite get_set_coll; apply split_first_hit;
          [exact Hpre|apply upserted_matches]].
      rewrite apply_set_idem, bool_decide_eq_true_2 by reflexivity.
      cbn [after]. apply set_coll_twice.
    + rewrite (updateOne_found _ _ _ _ _ _ _ _ Hon Hs), Hid. reflexivity.
  - pose proof Hs as Hnone. apply split_first_none, find_none_forallb in Hnone.
    rewrite (updateOne_upsert _ _ _ _ Hon Hs).
    set (base := bson_doc (list_to_map q)).
    unfold store_new.
    destruct (bool_decide (apply_set upd base !! "_id" = None)) eqn:Hnull.
    + unfold bind, take_oid, ret, get_docs, put_docs.
      rewrite field_insert_eq, get_coll_bump. unfold fresh_in in Hfresh.
      rewrite Hfresh. cbn [after].
      set (d := <["_id" := VOid (fresh_hex (next_oid s))]> (apply_set upd base)).
      erewrite updateOne_found;
        [|rewrite online_set_coll; exact Hon
         |rewrite get_set_coll; apply split_first_hit;
          [exact Hnone|apply upserted_matches_id]].
      destruct (bool_decide (apply_set upd d !! "_id" = d !! "_id")) eqn:Hid;
        [|reflexivity].
      apply bool_decide_eq_true_1 in Hid.
      pose proof (apply_set_upserted upd base _ Hid) as Hsame. fold d in Hsame.
      rewrite Hsame. cbn [after].
      apply set_coll_twice.
    + unfold bind, ret, get_docs, put_docs.
      destruct (has_id (field (apply_set upd base) "_id") (get_coll Users s)) eqn:Hdup;
        cbn [after].
      * rewrite (updateOne_upsert _ _ _ _ Hon Hs). fold base. unfold store_new.
        rewrite Hnull. unfold bind, ret, get_docs. rewrite Hdup. reflexivity.
      * erewrite updateOne_found;
          [|rewrite online_set_coll; exact Hon
           |rewrite get_set_coll; apply split_first_hit;
            [exact Hnone|apply upserted_matches]].
        rewrite apply_set_idem, bool_decide_eq_true_2 by reflexivity.
        cbn [after]. apply set_coll_twice.
Qed.
End Upsert.

Lemma records_with_matches k v l :
  is_nullish v = false -> records_with k v l = List.filter (matches [(k, v)]) l.
Proof.
  intros Hv. unfold records_with. induction l as [|d l IH]; cbn [List.filter].
  - reflexivity.
  - rewrite (matches_single _ _ _ Hv), IH. reflexivity.
Qed.

Lemma filter_none {A} (p : A -> bool) l :
  forallb (fun d => negb (p d)) l = true -> List.filter p l = [].
Proof.
  induction l as [|x l IH]; cbn [forallb List.filter]; [reflexivity|].
  intros H. apply andb_true_iff in H as [Hx Hl].
  apply negb_true_iff in Hx. rewrite Hx. apply IH, Hl.
Qed.


Section UpsertOnce.
Variables (upd : doc) (e : value).
Hypothesis e_not_nullish : is_nullish e = false.
Hypothesis upd_email : upd !! "email" = Some e.
Hypothesis upd_no_id : upd !! "_id" = None.

(** With at most one record for the email beforehand, the upsert leaves
    exactly one, and it carries the submitted fields. *)
Lemma upsert_once_records (s : Db) :
  online s = true -> fresh_in Users s ->
  (length (records_with "email" e (users s)) <= 1)%nat ->
  exists d,
    records_with "email" e (users (after (updateOne Users [("email", e)] upd true s)))
    = [d]
    /\ forall k v, upd !! k = Some v -> d !! k = Some (bson v).
Proof.
  intros Hon Hfresh Hone.
  rewrite !(records_with_matches _ _ _ e_not_nullish) in *.
  set (q := [("email", e)]) in *.
  destruct (split_first (matches q) (get_coll Users s)) as [[[pre old] post]|] eqn:Hs.
  - rewrite (updateOne_found _ _ _ _ _ _ _ _ Hon Hs).
    rewrite bool_decide_eq_true_2 by (apply apply_set_lookup_none, upd_no_id).
    cbn [after]. exists (apply_set upd old).
    destruct (split_first_spec _ _ _ _ _ Hs) as (Hl & Hold & _ & Hpre).
    cbn [get_coll] in Hl. rewrite Hl in Hone.
    rewrite List.filter_app in Hone. cbn [List.filter] in Hone.
    rewrite Hold, (filter_none _ _ Hpre) in Hone. cbn [app length] in Hone.
    assert (Hpost : List.filter (matches q) post = [])
      by (destruct (List.filter (matches q) post); [reflexivity|cbn in Hone; lia]).
    split; [|intros k v Hk; apply apply_set_lookup, Hk].
    replace (users (set_coll Users (pre ++ apply_set upd old :: post) s))
      with (pre ++ apply_set upd old :: post) by reflexivity.
    rewrite List.filter_app. cbn [List.filter].
    rewrite (filter_none _ _ Hpre), Hpost.
    unfold q. rewrite (upserted_matches upd e e_not_nullish upd_email).
    reflexivity.
  - pose proof Hs as Hnone. apply split_first_none, find_none_forallb in Hnone.
    rewrite (updateOne_upsert _ _ _ _ Hon Hs).
    set (base := bson_doc (list_to_map q)).
    assert (Hnull : apply_set upd base !! "_id" = None).
    { rewrite (apply_set_lookup_none _ _ _ upd_no_id).
      subst base q. rewrite lookup_bson_doc. cbn [list_to_map foldr fst snd].
      rewrite lookup_insert_ne by discriminate. rewrite lookup_empty. reflexivity. }
    rewrite (bool_decide_eq_true_2 _ Hnull).
    rewrite (bind_ok _ _ _ _ _ (store_new_generated _ _ _ Hfresh)).
    cbn [ret after].
    set (d := <["_id" := VOid (fresh_hex (next_oid s))]> (apply_set upd base)).
    exists d. split.
    + replace (users (set_coll Users (get_coll Users s ++ [d]) (bump_oid s)))
        with (get_coll Users s ++ [d]) by reflexivity.
      rewrite List.filter_app. cbn [List.filter].
      rewrite (filter_none _ _ Hnone).
      unfold d, q. rewrite (upserted_matches_id upd e e_not_nullish upd_email).
      reflexivity.
    + intros k v Hk. unfold d.
      rewrite lookup_insert_ne by (intros <-; congruence).
      apply apply_set_lookup, Hk.
Qed.
End UpsertOnce.

Lemma after_try_reply (m : M response) code j s :
  after (try_catch m (reply code j) s) = after (m s).
Proof. unfold try_catch. destruct (m s); reflexivity. Qed.

Lemma after_bind_reply {A} (m : M A) code j s :
  after (bind m (fun _ => reply code j) s) = after (m s).
Proof. unfold bind. destruct (m s); reflexivity. Qed.

Lemma post_users_invalid (r : request) (s : Db) :
  Full.falsy (field (body r) "email") || Full.falsy (field (body r) "name") = true ->
  Full.post_users r s = Ok (mkResponse 400 (message "Name and Email are required")) s.
Proof. unfold Full.post_users. intros ->. reflexivity. Qed.

Lemma default_role_email (b : doc) :
  field (with_default_role b) "email" = field b "email".
Proof.
  unfold with_default_role. destruct (Full.falsy (field b "role")); [|reflexivity].
  apply field_insert_ne. discriminate.
Qed.

Lemma post_users_valid (r : request) (s : Db) :
  Full.falsy (field (body r) "email") || Full.falsy (field (body r) "name") = false ->
  after (Full.post_users r s)
  = after (updateOne Users [("email", field (body r) "email")]
             (with_default_role (body r)) true s).
Proof.
  intros Hvalid. unfold Full.post_users. rewrite Hvalid, after_try_reply.
  rewrite after_bind_reply. fold (with_default_role (body r)).
  rewrite default_role_email. reflexivity.
Qed.

(** C8 (as amended). In the full server [POST /users] is an upsert keyed by
    email: a second submission of the same body leaves the store of the first
    one, and for a body with name and email and no [_id], on a store with at
    most one record for that email, exactly one record for the email remains,
    carrying the submitted fields (with role "user" when none was given). *)
Theorem profile_upsert_idempotent
    (verify : value -> option doc) (r : request) (s : Db) :
  let once := snd (Full.handle verify Full.PostUsers r s) in
  let twice := snd (Full.handle verify Full.PostUsers r once) in
  fresh_in Users s ->
  twice = once
  /\ (truthy (field (body r) "email") = true ->
      truthy (field (body r) "name") = true ->
      body r !! "_id" = None ->
      online s = true ->
      (length (records_with "email" (field (body r) "email") (users s)) <= 1)%nat ->
      exists d,
        records_with "email" (field (body r) "email") (users twice) = [d]
        /\ d !! "role" = Some (js_or (field (body r) "role") (VStr "user"))
        /\ forall k v, k <> "role" -> body r !! k = Some v -> d !! k = Some (bson v)).
Proof.
  intros once twice Hfresh.
  assert (Hidem : twice = once).
  { subst once twice. unfold Full.handle. cbn [Full.guards Full.handler_of].
    rewrite !serve_after. cbn [run_chain].
    destruct (Full.falsy (field (body r) "email") || Full.falsy (field (body r) "name"))
      eqn:Hvalid.
    - rewrite (post_users_invalid r s Hvalid). cbn [after].
      rewrite (post_users_invalid r s Hvalid). reflexivity.
    - rewrite !(post_users_valid _ _ Hvalid).
      apply orb_false_iff in Hvalid as [Hemail _].
      apply negb_false_iff in Hemail.
      apply upsert_after_idem; [apply truthy_not_nullish, Hemail| |exact Hfresh].
      rewrite <- default_role_email.
      apply field_truthy_lookup. rewrite default_role_email. exact Hemail. }
  split; [exact Hidem|].
  intros Hemail Hname Hnoid Hon Hone. rewrite Hidem. subst once.
  unfold Full.handle. cbn [Full.guards Full.handler_of].
  rewrite serve_after. cbn [run_chain].
  rewrite post_users_valid
    by (unfold Full.falsy; rewrite Hemail, Hname; reflexivity).
  assert (Hupd : with_default_role (body r) !! "email" = Some (field (body r) "email")).
  { rewrite <- default_role_email. apply field_truthy_lookup.
    rewrite default_role_email. exact Hemail. }
  assert (Hupd_id : with_default_role (body r) !! "_id" = None).
  { unfold with_default_role. destruct (Full.falsy _); [|exact Hnoid].
    rewrite lookup_insert_ne by discriminate. exact Hnoid. }
  destruct (upsert_once_records _ _ (truthy_not_nullish _ Hemail) Hupd Hupd_id
              s Hon Hfresh Hone) as (d & Hd & Hfields).
  exists d. split; [exact Hd|]. split.
  - unfold js_or, with_default_role, Full.falsy in *.
    destruct (truthy (field (body r) "role")) eqn:Hrole; cbn [negb] in Hfields.
    + rewrite (Hfields "role" _ (field_truthy_lookup _ _ Hrole)).
      rewrite (bson_not_nullish _ (truthy_not_nullish _ Hrole)). reflexivity.
    + rewrite (Hfields "role" (VStr "user")); [reflexivity|].
      apply lookup_insert_eq.
  - intros k v Hk Hbody. apply Hfields.
    unfold with_default_role. destruct (Full.falsy _); [|exact Hbody].
    rewrite lookup_insert_ne by congruence. exact Hbody.
Qed.

(** Witness for C8: jane's profile submitted twice to an empty store. *)
Lemma profile_upsert_idempotent_witness :
  let r := incoming None "" Sample.jane_profile 0 in
  let once := snd (Full.handle Sample.idp Full.PostUsers r empty_db) in
  let twice := snd (Full.handle Sample.idp Full.PostUsers r once) in
  twice = once
  /\ exists d,
       records_with "email" (VStr "jane@example.com") (users twice) = [d]
       /\ d !! "role" = Some (VStr "user")
       /\ d !! "name" = Some (VStr "Jane Doe").
Proof.
  cbv zeta.
  destruct (profile_upsert_idempotent Sample.idp
              (incoming None "" Sample.jane_profile 0) empty_db)
    as [Hidem Hone]; [reflexivity|].
  split; [exact Hidem|].
  destruct Hone as (d & Hd & Hrole & Hfields);
    [reflexivity|reflexivity|reflexivity|reflexivity|vm_compute; lia|].
  exists d. split; [exact Hd|]. split; [exact Hrole|].
  apply (Hfields "name" (VStr "Jane Doe")); [discriminate|reflexivity].
Defined.

(** Counterexample to C8 as stated: [POST /users] of the first variant is a
    plain insert, and the same profile submitted twice is stored twice. *)
Lemma legacy_profile_inserted_twice :
  let r := incoming None "" Sample.jane_profile 0 in
  let once := snd (Legacy.handle Legacy.post_users r empty_db) in
  let twice := snd (Legacy.handle Legacy.post_users r once) in
  length (records_with "email" (VStr "jane@example.com") (users once)) = 1%nat
  /\ length (records_with "email" (VStr "jane@example.com") (users twice)) = 2%nat
  /\ twice <> once.
Proof.
  cbv zeta. split; [vm_compute; reflexivity|]. split; [vm_compute; reflexivity|].
  intros H. apply (f_equal (fun s => length (users s))) in H.
  vm_compute in H. discriminate H.
Qed.

(** *** Inverting a chain *)

Lemma serve_token_inv verify ms h r s resp s' :
  serve (verifyToken verify :: ms) h r s = (Some resp, s') ->
  (status resp = 401 /\ s' = s)
  \/ exists u, authenticates verify (authorization r) u
               /\ serve ms h (set_user u r) s = (Some resp, s').
Proof.
  unfold serve at 1. cbn [run_chain]. unfold bind, verifyToken, authenticates.
  destruct (authorization r) as [hd|]; cbn [respond ret];
    [|intros [= <- <-]; left; auto].
  destruct (startsWith "Bearer " hd) eqn:Hpre; cbn [respond ret];
    [|intros [= <- <-]; left; auto].
  destruct (verify (second_segment hd)) as [u|] eqn:Hver; cbn [respond ret];
    [|intros [= <- <-]; left; auto].
  intros H. right. exists u. split; [eauto|exact H].
Qed.

Lemma verifyRole_cases role denied crashed r s :
  verifyRole role denied crashed r s = Ok (Respond (mkResponse 403 (message denied))) s
  \/ verifyRole role denied crashed r s
     = Ok (Respond (mkResponse 500 (message crashed))) s
  \/ verifyRole role denied crashed r s = Ok (Next r) s.
Proof.
  unfold verifyRole, user_claim, try_catch.
  destruct (user r) as [u|]; [|right; left; reflexivity].
  rewrite bind_ret.
  destruct (online s) eqn:Hon.
  - rewrite (bind_findOne _ _ _ _ Hon).
    destruct (List.find _ _) as [d|]; [|left; reflexivity].
    destruct (strict_ne _ _); [left|right; right]; reflexivity.
  - rewrite (bind_throw _ _ _ _ (findOne_offline _ _ _ Hon)).
    right; left; reflexivity.
Qed.

Lemma serve_role_inv role denied crashed ms h r s resp s' :
  serve (verifyRole role denied crashed :: ms) h r s = (Some resp, s') ->
  ((status resp = 403 \/ status resp = 500) /\ s' = s)
  \/ serve ms h r s = (Some resp, s').
Proof.
  unfold serve at 1. cbn [run_chain]. unfold bind.
  destruct (verifyRole_cases role denied crashed r s) as [-> | [-> | ->]];
    cbn [ret].
  - intros [= <- <-]. left. auto.
  - intros [= <- <-]. left. auto.
  - intros H. right. exact H.
Qed.

Lemma insertOne_inv c (d : doc) s id s' :
  insertOne c d s = Ok id s' ->
  exists d', get_coll c s' = get_coll c s ++ [d']
             /\ (forall k, k <> "_id" -> d' !! k = bson <$> (d !! k)).
Proof.
  unfold insertOne, guard_online, store_new, bind, take_oid, ret, get_docs,
    put_docs, throw.
  destruct (online s); [|discriminate].
  destruct (is_nullish (field (bson_doc d) "_id")); cbn beta iota.
  - rewrite get_coll_bump. destruct (has_id _ _); [discriminate|].
    intros [= <- <-]. eexists. rewrite get_set_coll.
    split; [reflexivity|]. intros k Hk.
    rewrite lookup_insert_ne by congruence. apply lookup_bson_doc.
  - destruct (has_id _ _); [discriminate|].
    intros [= <- <-]. eexists. rewrite get_set_coll.
    split; [reflexivity|]. intros k Hk. apply lookup_bson_doc.
Qed.

(** *** Authorship of a stored blog *)

Lemma full_post_blogs_stored verify r s resp s' :
  Full.handle verify Full.PostBlogs r s = (Some resp, s') ->
  status resp = 201 ->
  exists u d,
    authenticates verify (authorization r) u
    /\ blogs s' = blogs s ++ [d]
    /\ d !! "authorEmail" = Some (bson (field u "email"))
    /\ d !! "authorName" = Some (bson (js_or (field u "name") (field u "email")))
    /\ d !! "publishDate" = Some (VDate (now r))
    /\ (forall k, k <> "_id" -> k <> "authorEmail" -> k <> "authorName" ->
                  k <> "publishDate" -> d !! k = bson <$> (body r !! k)).
Proof.
  unfold Full.handle. cbn [Full.guards Full.handler_of]. intros Hrun Hok.
  apply serve_token_inv in Hrun as [[H401 _] | (u & Hauth & Hrun)]; [congruence|].
  apply serve_role_inv in Hrun as [[[H|H] _] | Hrun]; [congruence|congruence|].
  rewrite serve_nil in Hrun. unfold Full.post_blogs, try_catch in Hrun.
  rewrite (bind_user_claim _ u) in Hrun by reflexivity.
  rewrite (bind_user_claim _ u) in Hrun by reflexivity.
  unfold bind in Hrun. cbn [now set_user body] in Hrun.
  destruct (insertOne Blogs _ s) as [id s1|s1] eqn:Hins; cbn [reply ret] in Hrun;
    injection Hrun as <- <-; [|discriminate Hok].
  destruct (insertOne_inv _ _ _ _ _ Hins) as (d & Hd & Hfields).
  exists u, d. split; [exact Hauth|]. split; [exact Hd|].
  split; [|split; [|split]];
    [rewrite Hfields by discriminate; doc_lookup; reflexivity ..|].
  intros k H1 H2 H3 H4. rewrite Hfields by exact H1.
  rewrite !lookup_insert_ne by congruence. reflexivity.
Qed.

Lemma basic_post_blogs_stored verify r s resp s' :
  Basic.handle verify Basic.PostBlogs r s = (Some resp, s') ->
  status resp = 200 ->
  exists u d,
    authenticates verify (authorization r) u
    /\ blogs s' = blogs s ++ [d]
    /\ d !! "author"
       = Some (bson (js_or (js_or (field u "name") (field u "email"))
                           (VStr "Unknown Author")))
    /\ d !! "publishDate" = Some (VDate (now r))
    /\ (forall k, k <> "_id" -> k <> "author" -> k <> "publishDate" ->
                  d !! k = bson <$> (body r !! k)).
Proof.
  unfold Basic.handle. cbn [Basic.guards Basic.handler_of]. intros Hrun Hok.
  apply serve_token_inv in Hrun as [[H401 _] | (u & Hauth & Hrun)]; [congruence|].
  rewrite serve_nil in Hrun. unfold Basic.post_blogs, try_catch in Hrun.
  rewrite (bind_user_claim _ u) in Hrun by reflexivity.
  rewrite (bind_user_claim _ u) in Hrun by reflexivity.
  unfold bind in Hrun. cbn [now set_user body] in Hrun.
  destruct (insertOne Blogs _ s) as [id s1|s1] eqn:Hins; cbn [reply ret] in Hrun;
    injection Hrun as <- <-; [|discriminate Hok].
  destruct (insertOne_inv _ _ _ _ _ Hins) as (d & Hd & Hfields).
  exists u, d. split; [exact Hauth|]. split; [exact Hd|].
  split; [|split];
    [rewrite Hfields by discriminate; doc_lookup; reflexivity ..|].
  intros k H1 H2 H3. rewrite Hfields by exact H1.
  rewrite !lookup_insert_ne by congruence. reflexivity.
Qed.

Lemma authenticates_unique verify auth u1 u2 :
  authenticates verify auth u1 -> authenticates verify auth u2 -> u1 = u2.
Proof. intros (h1 & -> & _ & H1) (h2 & [= <-] & _ & H2). congruence. Qed.

(** C9 (as amended). A created blog carries the fields the server sets, and
    every other field as the body has it. In the full server the server sets
    [authorEmail] (the token's email), [authorName] (the token's name, or else
    its email) and [publishDate] (the clock); in [index.js] it sets [author]
    (the token's name, else email, else "Unknown Author") and [publishDate].
    Two requests that present the same credential at the same time store the
    same values in these fields, whatever their bodies say. Every other field
    of the body, apart from [_id], is stored as submitted: a body field
    [author] in the full server, and body fields [authorEmail] and
    [authorName] in [index.js], reach the store unchanged. *)
Theorem blog_author_from_token
    (verify : value -> option doc) (r1 r2 : request) (s : Db)
    (resp1 resp2 : response) (s1 s2 : Db) :
  authorization r1 = authorization r2 -> now r1 = now r2 ->
  (Full.handle verify Full.PostBlogs r1 s = (Some resp1, s1) -> status resp1 = 201 ->
   Full.handle verify Full.PostBlogs r2 s = (Some resp2, s2) -> status resp2 = 201 ->
   exists u d1 d2,
     authenticates verify (authorization r1) u
     /\ blogs s1 = blogs s ++ [d1] /\ blogs s2 = blogs s ++ [d2]
     /\ d1 !! "authorEmail" = Some (bson (field u "email"))
     /\ d1 !! "authorName" = Some (bson (js_or (field u "name") (field u "email")))
     /\ d1 !! "publishDate" = Some (VDate (now r1))
     /\ d2 !! "authorEmail" = d1 !! "authorEmail"
     /\ d2 !! "authorName" = d1 !! "authorName"
     /\ d2 !! "publishDate" = d1 !! "publishDate"
     /\ (forall k, k <> "_id" -> k <> "authorEmail" -> k <> "authorName" ->
                   k <> "publishDate" ->
                   d1 !! k = bson <$> (body r1 !! k)
                   /\ d2 !! k = bson <$> (body r2 !! k)))
  /\ (Basic.handle verify Basic.PostBlogs r1 s = (Some resp1, s1) -> status resp1 = 200 ->
      Basic.handle verify Basic.PostBlogs r2 s = (Some resp2, s2) -> status resp2 = 200 ->
      exists u d1 d2,
        authenticates verify (authorization r1) u
        /\ blogs s1 = blogs s ++ [d1] /\ blogs s2 = blogs s ++ [d2]
        /\ d1 !! "author"
           = Some (bson (js_or (js_or (field u "name") (field u "email"))
                               (VStr "Unknown Author")))
        /\ d1 !! "publishDate" = Some (VDate (now r1))
        /\ d2 !! "author" = d1 !! "author"
        /\ d2 !! "publishDate" = d1 !! "publishDate"
        /\ (forall k, k <> "_id" -> k <> "author" -> k <> "publishDate" ->
                      d1 !! k = bson <$> (body r1 !! k)
                      /\ d2 !! k = bson <$> (body r2 !! k))).
Proof.
  intros Hauth Hnow. split; intros H1 Hok1 H2 Hok2.
  - destruct (full_post_blogs_stored _ _ _ _ _ H1 Hok1)
      as (u & d1 & Hu & Hd1 & He1 & Hn1 & Hp1 & Hrest1).
    destruct (full_post_blogs_stored _ _ _ _ _ H2 Hok2)
      as (u' & d2 & Hu' & Hd2 & He2 & Hn2 & Hp2 & Hrest2).
    rewrite <- Hauth in Hu'. rewrite (authenticates_unique _ _ _ _ Hu' Hu) in *.
    exists u, d1, d2. rewrite He1, Hn1, Hp1, He2, Hn2, Hp2, Hnow. auto 12.
  - destruct (basic_post_blogs_stored _ _ _ _ _ H1 Hok1)
      as (u & d1 & Hu & Hd1 & Ha1 & Hp1 & Hrest1).
    destruct (basic_post_blogs_stored _ _ _ _ _ H2 Hok2)
      as (u' & d2 & Hu' & Hd2 & Ha2 & Hp2 & Hrest2).
    rewrite <- Hauth in Hu'. rewrite (authenticates_unique _ _ _ _ Hu' Hu) in *.
    exists u, d1, d2. rewrite Ha1, Hp1, Ha2, Hp2, Hnow. auto 12.
Qed.

(** Witness for C9: jane submits a blog, once honestly and once with author
    fields that name amy; in both stored blogs the fields the server sets
    name jane. *)
Lemma blog_author_from_token_witness :
  let r1 := incoming Sample.jane "" Sample.honest_blog 3000 in
  let r2 := incoming Sample.jane "" Sample.spoofed_blog 3000 in
  (exists d1 d2,
     blogs (snd (Full.handle Sample.idp Full.PostBlogs r1 Sample.staffed)) = [d1]
     /\ blogs (snd (Full.handle Sample.idp Full.PostBlogs r2 Sample.staffed)) = [d2]
     /\ d1 !! "authorEmail" = Some (VStr "jane@example.com")
     /\ d2 !! "authorEmail" = Some (VStr "jane@example.com")
     /\ d2 !! "authorName" = Some (VStr "Jane Doe")
     /\ d2 !! "publishDate" = Some (VDate 3000))
  /\ (exists d1 d2,
        blogs (snd (Basic.handle Sample.idp Basic.PostBlogs r1 Sample.staffed)) = [d1]
        /\ blogs (snd (Basic.handle Sample.idp Basic.PostBlogs r2 Sample.staffed)) = [d2]
        /\ d1 !! "author" = Some (VStr "Jane Doe")
        /\ d2 !! "author" = Some (VStr "Jane Doe")).
Proof.
  cbv zeta. split.
  - destruct (proj1 (blog_author_from_token Sample.idp
               (incoming Sample.jane "" Sample.honest_blog 3000)
               (incoming Sample.jane "" Sample.spoofed_blog 3000)
               Sample.staffed
               (mkResponse 201 (JDoc (<["success" := VBool true]>
                                      {[ "insertedId" := VOid (fresh_hex 0) ]})))
               (mkResponse 201 (JDoc (<["success" := VBool true]>
                                      {[ "insertedId" := VOid (fresh_hex 0) ]})))
               (snd (Full.handle Sample.idp Full.PostBlogs
                       (incoming Sample.jane "" Sample.honest_blog 3000) Sample.staffed))
               (snd (Full.handle Sample.idp Full.PostBlogs
                       (incoming Sample.jane "" Sample.spoofed_blog 3000) Sample.staffed))
               eq_refl eq_refl))
      as (u & d1 & d2 & Hu & Hd1 & Hd2 & He1 & Hn1 & Hp1 & He2 & Hn2 & Hp2 & _).
    + vm_compute. reflexivity.
    + reflexivity.
    + vm_compute. reflexivity.
    + reflexivity.
    + assert (Hjane : authenticates Sample.idp
                (authorization (incoming Sample.jane "" Sample.honest_blog 3000))
                (<["email" := VStr "jane@example.com"]> {[ "name" := VStr "Jane Doe" ]}))
        by (exists "Bearer jane-token"; repeat split; reflexivity).
      rewrite (authenticates_unique _ _ _ _ Hu Hjane) in *.
      exists d1, d2. rewrite Hd1, Hd2, He2, Hn2, Hp2, He1, Hn1, Hp1.
      repeat split; reflexivity.
  - destruct (proj2 (blog_author_from_token Sample.idp
               (incoming Sample.jane "" Sample.honest_blog 3000)
               (incoming Sample.jane "" Sample.spoofed_blog 3000)
               Sample.staffed
               (mkResponse 200 (JDoc {[ "insertedId" := VOid (fresh_hex 0) ]}))
               (mkResponse 200 (JDoc {[ "insertedId" := VOid (fresh_hex 0) ]}))
               (snd (Basic.handle Sample.idp Basic.PostBlogs
                       (incoming Sample.jane "" Sample.honest_blog 3000) Sample.staffed))
               (snd (Basic.handle Sample.idp Basic.PostBlogs
                       (incoming Sample.jane "" Sample.spoofed_blog 3000) Sample.staffed))
               eq_refl eq_refl))
      as (u & d1 & d2 & Hu & Hd1 & Hd2 & Ha1 & Hp1 & Ha2 & Hp2 & _).
    + vm_compute. reflexivity.
    + reflexivity.
    + vm_compute. reflexivity.
    + reflexivity.
    + assert (Hjane : authenticates Sample.idp
                (authorization (incoming Sample.jane "" Sample.honest_blog 3000))
                (<["email" := VStr "jane@example.com"]> {[ "name" := VStr "Jane Doe" ]}))
        by (exists "Bearer jane-token"; repeat split; reflexivity).
      rewrite (authenticates_unique _ _ _ _ Hu Hjane) in *.
      exists d1, d2. rewrite Hd1, Hd2, Ha2, Ha1.
      repeat split; reflexivity.
Defined.

(** Counterexample to C9 as stated: two requests of jane at the same time
    whose bodies differ only in author fields and [publishDate] store blogs
    that differ in an author field. The full server keeps the body's [author];
    [index.js] keeps the body's [authorEmail] and [authorName]. *)
Lemma body_author_fields_are_stored :
  let r1 := incoming Sample.jane "" Sample.honest_blog 3000 in
  let r2 := incoming Sample.jane "" Sample.spoofed_blog 3000 in
  (exists d1 d2,
     blogs (snd (Full.handle Sample.idp Full.PostBlogs r1 Sample.staffed)) = [d1]
     /\ blogs (snd (Full.handle Sample.idp Full.PostBlogs r2 Sample.staffed)) = [d2]
     /\ d1 !! "author" = None
     /\ d2 !! "author" = Some (VStr "Amy"))
  /\ (exists d1 d2,
        blogs (snd (Basic.handle Sample.idp Basic.PostBlogs r1 Sample.staffed)) = [d1]
        /\ blogs (snd (Basic.handle Sample.idp Basic.PostBlogs r2 Sample.staffed)) = [d2]
        /\ d1 !! "authorEmail" = None
        /\ d2 !! "authorEmail" = Some (VStr "amy@example.com")
        /\ d1 !! "authorName" = None
        /\ d2 !! "authorName" = Some (VStr "Amy")).
Proof.
  cbv zeta. split; do 2 eexists; (split; [vm_compute; reflexivity|]);
    (split; [vm_compute; reflexivity|]); repeat split; vm_compute; reflexivity.
Qed.

(** *** What a handler can answer *)












(** *** Conflicts and dependency failures *)








(** *** The agent-status invariant *)

Section Preservation.
Variable Inv : Db -> Prop.

Lemma preserves_ret {A} (a : A) : preserves Inv (ret a).
Proof. intros s H. exact H. Qed.

Lemma preserves_throw {A} : preserves Inv (@throw A).
Proof. intros s H. exact H. Qed.

Lemma preserves_bind {A B} (m : M A) (k : A -> M B) :
  preserves Inv m -> (forall a, preserves Inv (k a)) -> preserves Inv (bind m k).
Proof.
  intros Hm Hk s H. unfold bind. specialize (Hm s H).
  destruct (m s) as [a s1|s1]; cbn [after] in *; [apply Hk|]; exact Hm.
Qed.

Lemma preserves_try {A} (m h : M A) :
  preserves Inv m -> preserves Inv h -> preserves Inv (try_catch m h).
Proof.
  intros Hm Hh s H. unfold try_catch. specialize (Hm s H).
  destruct (m s) as [a s1|s1]; cbn [after] in *; [|apply Hh]; exact Hm.
Qed.

Lemma preserves_lift_opt {A} (o : option A) : preserves Inv (lift_opt o).
Proof. destruct o; [apply preserves_ret|apply preserves_throw]. Qed.

Lemma preserves_user_claim r k : preserves Inv (user_claim r k).
Proof.
  unfold user_claim. destruct (user r); [apply preserves_ret|apply preserves_throw].
Qed.

Lemma preserves_guard_online : preserves Inv guard_online.
Proof. intros s H. unfold guard_online. destruct (online s); exact H. Qed.

Lemma preserves_findOne c q : preserves Inv (findOne c q).
Proof.
  intros s H. unfold findOne, bind, guard_online, get_docs, ret.
  destruct (online s); exact H.
Qed.

Lemma preserves_find c q : preserves Inv (find c q).
Proof.
  intros s H. unfold find, bind, guard_online, get_docs, ret.
  destruct (online s); exact H.
Qed.
End Preservation.


Lemma agents_ok_set_coll c l s :
  (c = Agents -> Forall agent_status_ok l) -> agents_ok s -> agents_ok (set_coll c l s).
Proof.
  intros Hl Hs. unfold agents_ok.
  destruct c; try exact Hs. apply Hl. reflexivity.
Qed.

Lemma agent_status_ok_bson (d : doc) : agent_status_ok d -> agent_status_ok (bson_doc d).
Proof.
  unfold agent_status_ok. rewrite lookup_bson_doc.
  intros [H|[H|H]]; rewrite H; cbn; auto.
Qed.

Lemma agent_status_ok_id (d : doc) id :
  agent_status_ok d -> agent_status_ok (<["_id" := id]> d).
Proof.
  unfold agent_status_ok. rewrite lookup_insert_ne by discriminate. auto.
Qed.

Lemma agent_status_ok_set (upd old : doc) :
  agent_status_ok upd -> agent_status_ok (apply_set upd old).
Proof.
  unfold agent_status_ok.
  intros [H|[H|H]]; rewrite (apply_set_lookup _ _ _ _ H); cbn; auto.
Qed.

Lemma store_new_keeps_agents c generate (d : doc) :
  (c = Agents -> agent_status_ok d) ->
  preserves agents_ok (store_new c generate d).
Proof.
  intros Hd s Hs. unfold store_new, bind, take_oid, ret, get_docs, put_docs, throw.
  destruct generate; cbn beta iota.
  - destruct (has_id _ _); cbn [after]; [exact Hs|].
    apply agents_ok_set_coll; [|exact Hs].
    intros ->. apply Forall_app. split; [exact Hs|].
    constructor; [|constructor]. apply agent_status_ok_id, Hd. reflexivity.
  - destruct (has_id _ _); cbn [after]; [exact Hs|].
    apply agents_ok_set_coll; [|exact Hs].
    intros ->. apply Forall_app. split; [exact Hs|].
    constructor; [|constructor]. apply Hd. reflexivity.
Qed.

Lemma insertOne_keeps_agents c (d : doc) :
  (c = Agents -> agent_status_ok d) -> preserves agents_ok (insertOne c d).
Proof.
  intros Hd. unfold insertOne. apply preserves_bind.
  - apply preserves_guard_online.
  - intros _. apply store_new_keeps_agents.
    intros Hc. apply agent_status_ok_bson, Hd, Hc.
Qed.

Lemma updateOne_keeps_agents c q (upd : doc) b :
  (c = Agents -> agent_status_ok upd) -> preserves agents_ok (updateOne c q upd b).
Proof.
  intros Hupd s Hs.
  destruct (online s) eqn:Hon;
    [|rewrite (updateOne_offline _ _ _ _ _ Hon); exact Hs].
  destruct (split_first (matches q) (get_coll c s)) as [[[pre old] post]|] eqn:Hsplit.
  - rewrite (updateOne_found _ _ _ _ _ _ _ _ Hon Hsplit).
    destruct (bool_decide _); cbn [after]; [|exact Hs].
    apply agents_ok_set_coll; [|exact Hs]. intros ->.
    destruct (split_first_spec _ _ _ _ _ Hsplit) as (Hl & _).
    cbn [get_coll] in Hl. unfold agents_ok in Hs. rewrite Hl in Hs.
    apply Forall_app in Hs as [Hpre Hpost]. apply Forall_cons in Hpost as [_ Hpost].
    apply Forall_app. split; [exact Hpre|].
    constructor; [|exact Hpost]. apply agent_status_ok_set, Hupd. reflexivity.
  - destruct b.
    + rewrite (updateOne_upsert _ _ _ _ Hon Hsplit).
      apply preserves_bind; [|intros; apply preserves_ret|exact Hs].
      apply store_new_keeps_agents. intros Hc. apply agent_status_ok_set, Hupd, Hc.
    + unfold updateOne, guard_online, bind, get_docs. rewrite Hon, Hsplit. exact Hs.
Qed.

Lemma deleteOne_keeps_agents c q : preserves agents_ok (deleteOne c q).
Proof.
  intros s Hs.
  destruct (online s) eqn:Hon;
    [|rewrite (deleteOne_offline _ _ _ Hon); exact Hs].
  rewrite (deleteOne_online _ _ _ Hon).
  destruct (split_first (matches q) (get_coll c s)) as [[[pre old] post]|] eqn:Hsplit;
    cbn [after]; [|exact Hs].
  apply agents_ok_set_coll; [|exact Hs]. intros ->.
  destruct (split_first_spec _ _ _ _ _ Hsplit) as (Hl & _).
  cbn [get_coll] in Hl. unfold agents_ok in Hs. rewrite Hl in Hs.
  apply Forall_app in Hs as [Hpre Hpost]. apply Forall_cons in Hpost as [_ Hpost].
  apply Forall_app. split; assumption.
Qed.

Lemma valid_status_ok (v : value) :
  Full.valid_status v = true -> agent_status_ok {[ "status" := v ]}.
Proof.
  unfold Full.valid_status, agent_status_ok. destruct v; try discriminate.
  cbn [existsb]. rewrite lookup_singleton_eq.
  destruct (String.eqb_spec s "approved") as [->|_]; [auto|].
  destruct (String.eqb_spec s "pending") as [->|_]; [auto|].
  destruct (String.eqb_spec s "disapproved") as [->|_]; [auto|].
  discriminate.
Qed.

Ltac preserves_tac :=
  repeat first
    [ apply preserves_try
    | apply preserves_ret
    | apply preserves_throw
    | apply preserves_lift_opt
    | apply preserves_user_claim
    | apply preserves_findOne
    | apply preserves_find
    | apply deleteOne_keeps_agents
    | apply insertOne_keeps_agents; first [discriminate | intros _]
    | apply updateOne_keeps_agents; first [discriminate | intros _]
    | apply preserves_bind; [|intros ?]
    | match goal with
      | |- preserves _ (if negb (Full.valid_status ?v) then _ else _) =>
          destruct (Full.valid_status v) eqn:?; cbn [negb]
      | |- preserves _ (match ?x with _ => _ end) => destruct x
      end ].

Lemma handlers_keep_agents (rt : Full.route) (r : request) :
  preserves agents_ok (Full.handler_of rt r).
Proof.
  destruct rt; cbn [Full.handler_of];
    unfold Full.get_policy, Full.post_users, Full.post_agents,
      Full.patch_agent_status, Full.delete_agent, Full.get_all, Full.patch_assign,
      Full.patch_reject, Full.post_applications, Full.patch_application_status,
      Full.get_applications_all, Full.get_application, Full.delete_application,
      Full.post_blogs, Full.get_blogs, Full.get_blog, Full.delete_blog,
      Full.post_subscribe, Full.not_owner_nor_admin, reply;
    cbv zeta; preserves_tac.
  - left. doc_lookup. reflexivity.
  - apply valid_status_ok. assumption.
Qed.

Lemma guards_keep (Inv : Db -> Prop) verify (rt : Full.route) :
  Forall (fun m : middleware => forall r, preserves Inv (m r)) (Full.guards verify rt).
Proof.
  assert (Htoken : forall r, preserves Inv (verifyToken verify r)).
  { intros r s H. unfold verifyToken, respond, ret.
    destruct (authorization r) as [h|]; [|exact H].
    destruct (startsWith _ h); [|exact H].
    destruct (verify _); exact H. }
  assert (Hjwt : forall r, preserves Inv (verifyJWT verify r)).
  { intros r s H. unfold verifyJWT, respond, ret.
    destruct (authorization r) as [h|]; [|exact H].
    destruct (truthy _); [|exact H].
    destruct (verify _); exact H. }
  assert (Hrole : forall role denied crashed r,
            preserves Inv (verifyRole role denied crashed r)).
  { intros role denied crashed r s H.
    destruct (verifyRole_cases role denied crashed r s) as [-> | [-> | ->]]; exact H. }
  destruct rt; cbn [Full.guards]; repeat constructor; auto;
    intros r; apply Hrole.
Qed.

Lemma chain_keeps (Inv : Db -> Prop) ms h :
  Forall (fun m : middleware => forall r, preserves Inv (m r)) ms ->
  (forall r, preserves Inv (h r)) ->
  forall r, preserves Inv (run_chain ms h r).
Proof.
  intros Hms Hh. induction Hms as [|m ms Hm _ IH]; intros r; cbn [run_chain].
  - apply Hh.
  - apply preserves_bind; [apply Hm|].
    intros [resp|r']; [apply preserves_ret|apply IH].
Qed.

Lemma findOne_inv c q s o s' : findOne c q s = Ok o s' -> s' = s.
Proof.
  unfold findOne, bind, guard_online, get_docs, ret.
  destruct (online s); [|discriminate]. intros [= _ <-]. reflexivity.
Qed.

Lemma post_agents_created (r : request) (s : Db) (u : doc) resp s' :
  user r = Some u ->
  Full.post_agents r s = Ok resp s' -> status resp = 201%nat ->
  exists d, agents s' = agents s ++ [d] /\ d !! "status" = Some (VStr "pending").
Proof.
  intros Hu. unfold Full.post_agents, try_catch.
  destruct (_ || _); [intros [= <- <-]; discriminate|].
  unfold bind at 1.
  destruct (findOne Agents _ s) as [existing s1|s1] eqn:Hfind;
    [|intros [= <- <-]; discriminate].
  apply findOne_inv in Hfind as ->.
  destruct existing; [intros [= <- <-]; discriminate|].
  cbv zeta. rewrite (bind_user_claim _ _ _ _ _ Hu). unfold bind.
  destruct (insertOne Agents _ s) as [id s1|s1] eqn:Hins;
    intros [= <- <-]; [intros _|discriminate].
  destruct (insertOne_inv _ _ _ _ _ Hins) as (d & Hd & Hfields).
  exists d. split; [exact Hd|].
  rewrite Hfields by discriminate. doc_lookup. reflexivity.
Qed.

Lemma patch_agent_status_invalid (r : request) (s : Db) :
  Full.valid_status (field (body r) "status") = false ->
  Full.patch_agent_status r s
  = Ok (mkResponse 400 (failure "Invalid status value")) s.
Proof. unfold Full.patch_agent_status. intros ->. reflexivity. Qed.

(** C10. The status of an agent record stays within "pending", "approved" and
    "disapproved": a created agent request is stored with status "pending"; a
    status update with any other value is answered 400 and leaves the store
    as it was; and no embedded route of the full server takes a store whose
    agent records all satisfy the invariant to one that breaks it. *)
Theorem agent_status_invariant
    (verify : value -> option doc) (r : request) (s : Db) :
  (forall resp s',
     Full.handle verify Full.PostAgents r s = (Some resp, s') ->
     status resp = 201%nat ->
     exists d, agents s' = agents s ++ [d] /\ d !! "status" = Some (VStr "pending"))
  /\ (Full.valid_status (field (body r) "status") = false ->
      Full.handle verify Full.PatchAgentStatus r s
      = (Some (mkResponse 400 (failure "Invalid status value")), s))
  /\ (forall rt, agents_ok s -> agents_ok (snd (Full.handle verify rt r s))).
Proof.
  split; [|split].
  - intros resp s' Hrun Hok. unfold Full.handle in Hrun.
    cbn [Full.guards Full.handler_of] in Hrun.
    apply serve_token_inv in Hrun as [[H401 _] | (u & _ & Hrun)]; [congruence|].
    rewrite serve_nil in Hrun.
    destruct (Full.post_agents (set_user u r) s) as [resp1 s1|s1] eqn:Hpost;
      [|discriminate].
    injection Hrun as <- <-.
    exact (post_agents_created (set_user u r) s u _ _ eq_refl Hpost Hok).
  - intros Hbad. unfold Full.handle. cbn [Full.guards Full.handler_of].
    rewrite serve_nil, (patch_agent_status_invalid r s Hbad). reflexivity.
  - intros rt Hs. unfold Full.handle. rewrite serve_after.
    apply chain_keeps; [apply guards_keep| |exact Hs].
    intros r'. apply handlers_keep_agents.
Qed.

(** Witness for C10: bob's agent request on the staffed store, then an update
    of it to the status "banned". *)
Lemma agent_status_invariant_witness :
  (exists d, agents Sample.requested = [d] /\ d !! "status" = Some (VStr "pending"))
  /\ Full.handle Sample.idp Full.PatchAgentStatus
       (incoming None (fresh_hex 0) {[ "status" := VStr "banned" ]} 30)
       Sample.requested
     = (Some (mkResponse 400 (failure "Invalid status value")), Sample.requested)
  /\ agents_ok (snd (Full.handle Sample.idp Full.PatchAgentStatus
                       (incoming None (fresh_hex 0) {[ "status" := VStr "approved" ]} 30)
                       Sample.requested)).
Proof.
  split; [|split].
  - apply (proj1 (agent_status_invariant Sample.idp
             (incoming Sample.bob "" Sample.agent_request 20) Sample.staffed)
             (mkResponse 201 (JDoc (<["success" := VBool true]>
                                   (<["message" := VStr "Agent request submitted"]>
                                   {[ "insertedId" := VOid (fresh_hex 0) ]}))))
             Sample.requested).
    + vm_compute. reflexivity.
    + reflexivity.
  - apply (proj1 (proj2 (agent_status_invariant Sample.idp
             (incoming None (fresh_hex 0) {[ "status" := VStr "banned" ]} 30)
             Sample.requested))).
    reflexivity.
  - apply (proj2 (proj2 (agent_status_invariant Sample.idp
             (incoming None (fresh_hex 0) {[ "status" := VStr "approved" ]} 30)
             Sample.requested))).
    unfold agents_ok. replace (agents Sample.requested)
      with [<["_id" := VOid (fresh_hex 0)]>
            (<["requestedBy" := VStr "bob@example.com"]>
            (<["created_at" := VDate 20]>
            (<["status" := VStr "pending"]> Sample.agent_request)))]
      by (vm_compute; reflexivity).
    constructor; [|constructor]. left. vm_compute. reflexivity.
Defined.

(** * Further properties of the code *)

(** ** Extracting the bearer token *)

Lemma split_space_cons_nonempty s : split_space s <> [].
Proof.
  induction s as [|c s IH]; cbn [split_space]; [discriminate|].
  destruct (Ascii.eqb c " "%char); [discriminate|].
  destruct (split_space s); [contradiction|discriminate].
Qed.

Lemma split_space_bearer t :
  split_space ("Bearer " ++ t)%string = "Bearer" :: split_space t.
Proof. reflexivity. Qed.

Lemma split_space_no_space t : no_space t = true -> split_space t = [t].
Proof.
  unfold no_space. induction t as [|c t IH]; cbn [split_space string_forallb];
    [reflexivity|].
  intros H. apply andb_true_iff in H as [Hc Ht].
  apply negb_true_iff in Hc. rewrite Hc, (IH Ht). reflexivity.
Qed.

Lemma second_segment_bearer t :
  second_segment ("Bearer " ++ t)%string = VStr (first_segment t).
Proof.
  unfold second_segment, first_segment. rewrite split_space_bearer.
  cbn [nth_error]. pose proof (split_space_cons_nonempty t) as Hne.
  destruct (split_space t) as [|w ws]; [contradiction|reflexivity].
Qed.

(** X1. [verifyToken] hands the identity provider the text between
    ["Bearer "] and the next space, and nothing after it: a header
    ["Bearer " ++ t] is let through with the claims the provider returns for
    that first segment, and answered 401 when the provider rejects it. For a
    token without spaces the first segment is the token itself. *)
Theorem verifyToken_verifies_first_segment
    (verify : value -> option doc) (r : request) (s : Db) (t : string) :
  authorization r = Some ("Bearer " ++ t)%string ->
  verifyToken verify r s
  = match verify (VStr (first_segment t)) with
    | Some u => Ok (Next (set_user u r)) s
    | None => Ok (Respond (mkResponse 401 (message "Unauthorized, invalid token"))) s
    end
  /\ (no_space t = true -> first_segment t = t).
Proof.
  intros Hauth. split.
  - unfold verifyToken. rewrite Hauth.
    replace (startsWith "Bearer " ("Bearer " ++ t)%string) with true
      by (unfold startsWith; cbn; destruct t; reflexivity).
    rewrite second_segment_bearer.
    destruct (verify (VStr (first_segment t))); reflexivity.
  - intros Hns. unfold first_segment. rewrite (split_space_no_space _ Hns).
    reflexivity.
Qed.

(** Witness for X1: jane's token followed by a space and more text is
    verified as jane's token. *)
Lemma verifyToken_verifies_first_segment_witness :
  verifyToken Sample.idp
    (incoming (Some "Bearer jane-token and more") "" ∅ 0) Sample.staffed
  = Ok (Next (set_user
               (<["email" := VStr "jane@example.com"]> {[ "name" := VStr "Jane Doe" ]})
               (incoming (Some "Bearer jane-token and more") "" ∅ 0)))
       Sample.staffed.
Proof.
  exact (proj1 (verifyToken_verifies_first_segment Sample.idp
           (incoming (Some "Bearer jane-token and more") "" ∅ 0)
           Sample.staffed "jane-token and more" eq_refl)).
Defined.

(** ** The role gate, in both directions *)

Lemma strict_ne_other v role : v <> VStr role -> strict_ne v (VStr role) = true.
Proof.
  intros H. unfold strict_ne, strict_eq. destruct v; try reflexivity.
  destruct (String.eqb_spec s role); [congruence|reflexivity].
Qed.

(** X2. A role gate lets a request through exactly when the stored role is
    the required string. With a valid token and a reachable store, a route
    behind [verifyToken] and a role gate runs its handler (with [req.user]
    set) when the caller's user record has that role, and answers 403 with
    the store unchanged in every other case: no record, no role field, or any
    other role value. *)
Theorem role_gate_is_exact
    (verify : value -> option doc) (rt : Full.route) (r : request) (s : Db)
    (u : doc) (role denied crashed : string) :
  authenticates verify (authorization r) u ->
  online s = true ->
  Full.guards verify rt = [verifyToken verify; verifyRole role denied crashed] ->
  (forall d, user_record_of u s = Some d -> field d "role" = VStr role ->
     Full.handle verify rt r s = serve [] (Full.handler_of rt) (set_user u r) s)
  /\ ((forall d, user_record_of u s = Some d -> field d "role" <> VStr role) ->
      Full.handle verify rt r s = (Some (mkResponse 403 (message denied)), s)).
Proof.
  intros Hauth Hon Hguards. unfold Full.handle. rewrite Hguards. split.
  - intros d Hrec Hrole. rewrite (serve_token _ _ _ _ _ _ Hauth).
    eapply serve_role_granted; eauto; reflexivity.
  - intros Hother. eapply token_then_role_denied; eauto.
    destruct (user_record_of u s) as [d|] eqn:Hrec; [|exact I].
    apply strict_ne_other, (Hother d eq_refl).
Qed.

(** Witness for X2: jane, an agent, reaches the agent-only blog deletion, and
    bob, who has no user record, is stopped by the admin gate. *)
Lemma role_gate_is_exact_witness :
  Full.handle Sample.idp Full.DeleteBlog
    (incoming Sample.jane "00000000000000000000b109" ∅ 5) Sample.with_blog
  = serve [] Full.delete_blog
      (set_user (<["email" := VStr "jane@example.com"]> {[ "name" := VStr "Jane Doe" ]})
                (incoming Sample.jane "00000000000000000000b109" ∅ 5))
      Sample.with_blog
  /\ Full.handle Sample.idp Full.PatchReject
       (incoming Sample.bob "00000000000000000000b109" ∅ 5) Sample.with_blog
     = (Some (mkResponse 403 (message "Forbidden: Admin access required")),
        Sample.with_blog).
Proof.
  split.
  - refine (proj1 (role_gate_is_exact Sample.idp Full.DeleteBlog
             (incoming Sample.jane "00000000000000000000b109" ∅ 5) Sample.with_blog
             (<["email" := VStr "jane@example.com"]> {[ "name" := VStr "Jane Doe" ]})
             "agent" "Forbidden: Agent access required"
             "Server error during agent verification" _ _ _)
             (Sample.user_record "jane@example.com" "agent") _ _).
    + exists "Bearer jane-token". repeat split; reflexivity.
    + reflexivity.
    + reflexivity.
    + vm_compute. reflexivity.
    + vm_compute. reflexivity.
  - refine (proj2 (role_gate_is_exact Sample.idp Full.PatchReject
             (incoming Sample.bob "00000000000000000000b109" ∅ 5) Sample.with_blog
             {[ "email" := VStr "bob@example.com" ]}
             "admin" "Forbidden: Admin access required"
             "Server error during admin verification" _ _ _) _).
    + exists "Bearer bob-token". repeat split; reflexivity.
    + reflexivity.
    + reflexivity.
    + intros d Hd. vm_compute in Hd. discriminate Hd.
Defined.

(** ** Reading an application *)

Lemma get_application_denied (r : request) (s : Db) (u a : doc) (oid : value) :
  user r = Some u -> online s = true ->
  new_ObjectId (param r) = Some oid ->
  List.find (matches [("_id", oid)]) (applications s) = Some a ->
  strict_ne (field a "userEmail") (field u "email") = true ->
  strict_ne (field u "role") (VStr "admin") = true ->
  Full.get_application r s = Ok (mkResponse 403 (message "Forbidden")) s.
Proof.
  intros Hu Hon Hid Hfind Hother Hrole. unfold Full.get_application.
  apply try_ok. rewrite Hid, bind_lift_some, (bind_findOne _ _ _ _ Hon).
  cbn [get_coll]. rewrite Hfind. unfold Full.not_owner_nor_admin.
  erewrite bind_ok with (a := true) (s' := s); [reflexivity|].
  rewrite (bind_user_claim _ _ _ _ _ Hu), Hother,
    (bind_user_claim _ _ _ _ _ Hu), Hrole.
  reflexivity.
Qed.

Lemma get_application_allowed (r : request) (s : Db) (u a : doc) (oid : value) :
  user r = Some u -> online s = true ->
  new_ObjectId (param r) = Some oid ->
  List.find (matches [("_id", oid)]) (applications s) = Some a ->
  strict_ne (field a "userEmail") (field u "email")
  && strict_ne (field u "role") (VStr "admin") = false ->
  Full.get_application r s = Ok (mkResponse 200 (JDoc a)) s.
Proof.
  intros Hu Hon Hid Hfind Hown. unfold Full.get_application.
  apply try_ok. rewrite Hid, bind_lift_some, (bind_findOne _ _ _ _ Hon).
  cbn [get_coll]. rewrite Hfind. unfold Full.not_owner_nor_admin.
  erewrite bind_ok with (a := false) (s' := s); [reflexivity|].
  rewrite (bind_user_claim _ _ _ _ _ Hu).
  destruct (strict_ne (field a "userEmail") (field u "email")); [|reflexivity].
  rewrite (bind_user_claim _ _ _ _ _ Hu). cbn [andb] in Hown.
  rewrite Hown. reflexivity.
Qed.

(** X3. [GET /applications/:id] of the full server discloses an application
    only to its creator or to a token with the [admin] role claim: for an
    existing record, any other authenticated caller is answered 403, and the
    creator or an admin receives the stored record itself. The store is never
    changed. *)
Theorem application_read_is_owner_or_admin
    (verify : value -> option doc) (r : request) (s : Db) (u a : doc) (oid : value) :
  authenticates verify (authorization r) u ->
  online s = true ->
  new_ObjectId (param r) = Some oid ->
  List.find (matches [("_id", oid)]) (applications s) = Some a ->
  (strict_ne (field a "userEmail") (field u "email") = true ->
   strict_ne (field u "role") (VStr "admin") = true ->
   Full.handle verify Full.GetApplication r s
   = (Some (mkResponse 403 (message "Forbidden")), s))
  /\ (strict_ne (field a "userEmail") (field u "email")
      && strict_ne (field u "role") (VStr "admin") = false ->
      Full.handle verify Full.GetApplication r s
      = (Some (mkResponse 200 (JDoc a)), s)).
Proof.
  intros Hauth Hon Hid Hfind. unfold Full.handle.
  cbn [Full.guards Full.handler_of].
  rewrite (serve_token _ _ _ _ _ _ Hauth), serve_nil.
  split.
  - intros Hother Hrole.
    rewrite (get_application_denied (set_user u r) s u a oid eq_refl Hon Hid Hfind
               Hother Hrole).
    reflexivity.
  - intros Hown.
    rewrite (get_application_allowed (set_user u r) s u a oid eq_refl Hon Hid Hfind
               Hown).
    reflexivity.
Qed.

(** Witness for X3: bob asks for jane's application. *)
Lemma application_read_is_owner_or_admin_witness :
  Full.handle Sample.idp Full.GetApplication
    (incoming Sample.bob (fresh_hex 0) ∅ 2000) Sample.with_application
  = (Some (mkResponse 403 (message "Forbidden")), Sample.with_application).
Proof.
  refine (proj1 (application_read_is_owner_or_admin Sample.idp
           (incoming Sample.bob (fresh_hex 0) ∅ 2000) Sample.with_application
           {[ "email" := VStr "bob@example.com" ]}
           (<["_id" := VOid (fresh_hex 0)]>
            (<["applicationDate" := VDate 1000]>
            (<["status" := VStr "pending"]>
            (<["userEmail" := VStr "jane@example.com"]> Sample.jane_application))))
           (VOid (fresh_hex 0)) _ _ _ _) _ _).
  - exists "Bearer bob-token". repeat split; reflexivity.
  - reflexivity.
  - reflexivity.
  - vm_compute. reflexivity.
  - vm_compute. reflexivity.
  - vm_compute. reflexivity.
Defined.

(** ** Changing the status of an agent request *)

Lemma set_coll_same c s : set_coll c (get_coll c s) s = s.
Proof. destruct s, c; reflexivity. Qed.

Lemma apply_set_singleton (k : string) (v : value) (old : doc) :
  apply_set {[ k := v ]} old = <[k := bson v]> old.
Proof.
  unfold apply_set, bson_doc. rewrite map_fmap_singleton.
  symmetry. apply insert_union_singleton_l.
Qed.

Lemma insert_same_iff (k : string) (v : value) (d : doc) :
  <[k := v]> d = d <-> d !! k = Some v.
Proof.
  split.
  - intros H. rewrite <- H. apply lookup_insert_eq.
  - apply insert_id.
Qed.

(** [updateOne(q, { $set: { k: v } })] on a store where [q] finds [old]. *)
Lemma updateOne_field c q (k : string) (v : value) s pre old post :
  online s = true -> k <> "_id" ->
  split_first (matches q) (get_coll c s) = Some (pre, old, post) ->
  updateOne c q {[ k := v ]} false s
  = Ok (mkUpdate 1 (if bool_decide (old !! k = Some (bson v)) then 0 else 1) 0 VNull)
       (set_coll c (pre ++ <[k := bson v]> old :: post) s).
Proof.
  intros Hon Hk Hsplit.
  rewrite (updateOne_found _ _ _ _ _ _ _ _ Hon Hsplit), apply_set_singleton.
  rewrite bool_decide_eq_true_2 by (apply lookup_insert_ne; congruence).
  rewrite (bool_decide_ext _ _ (insert_same_iff k (bson v) old)). reflexivity.
Qed.

(** X4. [PATCH /agents/:id/status] reports success by [modifiedCount]: for an
    existing agent request and a valid status, the status is replaced and the
    answer is 200 when it differs from the stored one, and the answer is 404
    "Agent not found", with the store unchanged, when the request already has
    that status. *)
Theorem agent_status_update
    (verify : value -> option doc) (r : request) (s : Db)
    (oid : value) (a : doc) (st : string) :
  new_ObjectId (param r) = Some oid ->
  online s = true ->
  field (body r) "status" = VStr st ->
  Full.valid_status (VStr st) = true ->
  List.find (matches [("_id", oid)]) (agents s) = Some a ->
  (a !! "status" = Some (VStr st) ->
   Full.handle verify Full.PatchAgentStatus r s
   = (Some (mkResponse 404 (failure "Agent not found")), s))
  /\ (a !! "status" <> Some (VStr st) ->
      exists pre post,
        agents s = pre ++ a :: post
        /\ Full.handle verify Full.PatchAgentStatus r s
           = (Some (mkResponse 200 (success "Agent status updated")),
              set_coll Agents (pre ++ <["status" := VStr st]> a :: post) s)).
Proof.
  intros Hid Hon Hst Hvalid Hfind.
  destruct (find_split_first _ _ _ Hfind) as (pre & post & Hsplit).
  destruct (split_first_spec _ _ _ _ _ Hsplit) as (Hl & _).
  assert (Hrun : Full.patch_agent_status r s
    = Ok (if bool_decide (a !! "status" = Some (VStr st))
          then mkResponse 404 (failure "Agent not found")
          else mkResponse 200 (success "Agent status updated"))
         (set_coll Agents (pre ++ <["status" := VStr st]> a :: post) s)).
  { unfold Full.patch_agent_status. apply try_ok.
    rewrite Hst, Hvalid. cbn [negb]. rewrite Hid, bind_lift_some.
    erewrite bind_ok;
      [|apply (updateOne_field Agents _ "status" (VStr st) s pre a post Hon);
        [discriminate|exact Hsplit]].
    cbn [modifiedCount bson]. destruct (bool_decide _); reflexivity. }
  unfold Full.handle. cbn [Full.guards Full.handler_of]. rewrite serve_nil, Hrun.
  split.
  - intros Hsame. rewrite bool_decide_eq_true_2 by exact Hsame.
    rewrite (insert_id _ _ _ Hsame). cbn [get_coll] in Hl. rewrite <- Hl.
    change (agents s) with (get_coll Agents s). rewrite set_coll_same. reflexivity.
  - intros Hdiff. exists pre, post. split; [exact Hl|].
    rewrite bool_decide_eq_false_2 by exact Hdiff. reflexivity.
Qed.

(** Witness for X4: bob's pending request is set to "pending" again, then to
    "approved". *)
Lemma agent_status_update_witness :
  Full.handle Sample.idp Full.PatchAgentStatus
    (incoming None (fresh_hex 0) {[ "status" := VStr "pending" ]} 30) Sample.requested
  = (Some (mkResponse 404 (failure "Agent not found")), Sample.requested)
  /\ exists a',
       fst (Full.handle Sample.idp Full.PatchAgentStatus
              (incoming None (fresh_hex 0) {[ "status" := VStr "approved" ]} 30)
              Sample.requested)
       = Some (mkResponse 200 (success "Agent status updated"))
       /\ agents (snd (Full.handle Sample.idp Full.PatchAgentStatus
                         (incoming None (fresh_hex 0) {[ "status" := VStr "approved" ]} 30)
                         Sample.requested)) = [a']
       /\ a' !! "status" = Some (VStr "approved").
Proof.
  set (a := <["_id" := VOid (fresh_hex 0)]>
            (<["requestedBy" := VStr "bob@example.com"]>
            (<["created_at" := VDate 20]>
            (<["status" := VStr "pending"]> Sample.agent_request)))).
  assert (Hfind : List.find (matches [("_id", VOid (fresh_hex 0))])
                    (agents Sample.requested) = Some a)
    by (vm_compute; reflexivity).
  pose (r1 := incoming None (fresh_hex 0) {[ "status" := VStr "pending" ]} 30).
  pose (r2 := incoming None (fresh_hex 0) {[ "status" := VStr "approved" ]} 30).
  assert (Hst1 : field (body r1) "status" = VStr "pending")
    by (vm_compute; reflexivity).
  assert (Hst2 : field (body r2) "status" = VStr "approved")
    by (vm_compute; reflexivity).
  split.
  - apply (proj1 (agent_status_update Sample.idp r1 Sample.requested
             (VOid (fresh_hex 0)) a "pending" eq_refl eq_refl Hst1 eq_refl Hfind)).
    vm_compute. reflexivity.
  - destruct (proj2 (agent_status_update Sample.idp r2 Sample.requested
             (VOid (fresh_hex 0)) a "approved" eq_refl eq_refl Hst2 eq_refl Hfind))
      as (pre & post & Hl & Hrun).
    + vm_compute. discriminate.
    + exists (<["status" := VStr "approved"]> a). fold r2. rewrite Hrun. cbn [fst snd].
      split; [reflexivity|].
      assert (Hpp : pre = [] /\ post = []).
      { assert (Hlen : length (agents Sample.requested) = 1%nat)
          by (vm_compute; reflexivity).
        rewrite Hl, length_app in Hlen. cbn [length] in Hlen.
        destruct pre, post; cbn [length] in Hlen; try lia. auto. }
      destruct Hpp as [-> ->]. split; [reflexivity|apply lookup_insert_eq].
Defined.

(** ** Changing the status of an application *)

Lemma serve_token_role verify role denied crashed h r s u d :
  authenticates verify (authorization r) u -> online s = true ->
  user_record_of u s = Some d -> field d "role" = VStr role ->
  serve [verifyToken verify; verifyRole role denied crashed] h r s
  = serve [] h (set_user u r) s.
Proof.
  intros Hauth Hon Hrec Hrole. rewrite (serve_token _ _ _ _ _ _ Hauth).
  eapply serve_role_granted; eauto; reflexivity.
Qed.


Lemma find_none_Forall {A} (p : A -> bool) l :
  Forall (fun x => p x = false) l -> List.find p l = None.
Proof.
  induction 1 as [|x l Hx _ IH]; cbn [List.find]; [reflexivity|].
  rewrite Hx. exact IH.
Qed.





(** ** Rejecting an application *)

Lemma apply_set_two (k1 k2 : string) (v1 v2 : value) (old : doc) :
  apply_set (<[k1 := v1]> {[ k2 := v2 ]}) old
  = <[k1 := bson v1]> (<[k2 := bson v2]> old).
Proof.
  unfold apply_set, bson_doc. rewrite fmap_insert, map_fmap_singleton.
  rewrite <- insert_union_l. f_equal. symmetry. apply insert_union_singleton_l.
Qed.

Lemma patch_reject_found (r : request) (s : Db) (oid : value) pre a post :
  online s = true -> new_ObjectId (param r) = Some oid ->
  split_first (matches [("_id", oid)]) (applications s) = Some (pre, a, post) ->
  exists m,
    Full.patch_reject r s
    = Ok (mkResponse 200
            (JDoc (<["success" := VBool true]>
                  (<["message" := VStr "Application rejected"]>
                  {[ "modifiedCount" := VNum (Z.of_nat m) ]}))))
         (set_coll Applications
            (pre ++ <["status" := VStr "Rejected"]>
                      (<["rejectedAt" := VDate (now r)]> a) :: post) s).
Proof.
  intros Hon Hid Hsplit. unfold Full.patch_reject.
  eexists. apply try_ok. rewrite Hid, bind_lift_some.
  unfold bind at 1.
  rewrite (updateOne_found Applications _ _ false s pre a post Hon Hsplit).
  rewrite apply_set_two. cbn [bson].
  rewrite bool_decide_eq_true_2
    by (rewrite !lookup_insert_ne by discriminate; reflexivity).
  cbn [matchedCount modifiedCount Nat.eqb]. reflexivity.
Qed.

Lemma patch_reject_absent (r : request) (s : Db) (oid : value) :
  online s = true -> new_ObjectId (param r) = Some oid ->
  List.find (matches [("_id", oid)]) (applications s) = None ->
  Full.patch_reject r s = Ok (mkResponse 404 (message "Application not found")) s.
Proof.
  intros Hon Hid Hnone. unfold Full.patch_reject.
  apply try_ok. rewrite Hid, bind_lift_some.
  apply split_first_none in Hnone.
  erewrite bind_ok with (a := mkUpdate 0 0 0 VNull) (s' := s); [reflexivity|].
  unfold updateOne, guard_online, bind, get_docs. rewrite Hon. cbn [get_coll].
  rewrite Hnone. reflexivity.
Qed.

(** X6. [PATCH /applications/reject/:id] does not look at the current state of
    the application: for an admin and an existing record the answer is 200 and
    the record gets status "Rejected" and [rejectedAt] set to the server
    clock, all its other fields and all other records staying as they were,
    whatever its status was (also when it was rejected or paid before); for
    an identifier without record the answer is 404 and the store is
    unchanged. *)
Theorem reject_overwrites_any_status
    (verify : value -> option doc) (r : request) (s : Db) (u d : doc) (oid : value) :
  authenticates verify (authorization r) u ->
  online s = true ->
  user_record_of u s = Some d -> field d "role" = VStr "admin" ->
  new_ObjectId (param r) = Some oid ->
  (forall a, List.find (matches [("_id", oid)]) (applications s) = Some a ->
     exists pre post resp,
       applications s = pre ++ a :: post
       /\ status resp = 200%nat
       /\ Full.handle verify Full.PatchReject r s
          = (Some resp,
             set_coll Applications
               (pre ++ <["status" := VStr "Rejected"]>
                         (<["rejectedAt" := VDate (now r)]> a) :: post) s))
  /\ (List.find (matches [("_id", oid)]) (applications s) = None ->
      Full.handle verify Full.PatchReject r s
      = (Some (mkResponse 404 (message "Application not found")), s)).
Proof.
  intros Hauth Hon Hrec Hrole Hid.
  unfold Full.handle. cbn [Full.guards Full.handler_of]. unfold verifyAdmin.
  rewrite (serve_token_role _ _ _ _ _ _ _ _ _ Hauth Hon Hrec Hrole), serve_nil.
  split.
  - intros a Hfind.
    destruct (find_split_first _ _ _ Hfind) as (pre & post & Hsplit).
    destruct (split_first_spec _ _ _ _ _ Hsplit) as (Hl & _).
    destruct (patch_reject_found (set_user u r) s oid pre a post Hon Hid Hsplit)
      as (m & Hrun).
    exists pre, post. eexists. split; [exact Hl|]. rewrite Hrun.
    split; [|reflexivity]. reflexivity.
  - intros Hnone.
    rewrite (patch_reject_absent (set_user u r) s oid Hon Hid Hnone). reflexivity.
Qed.

(** Witness for X6: root rejects jane's application, which was assigned
    before. *)
Lemma reject_overwrites_any_status_witness :
  exists pre post resp,
    applications Scenario.assigned = pre ++ Scenario.assigned_application :: post
    /\ status resp = 200%nat
    /\ Full.handle Sample.idp Full.PatchReject
         (incoming (Some "Bearer root-token") (fresh_hex 0) ∅ 2200) Scenario.assigned
       = (Some resp,
          set_coll Applications
            (pre ++ <["status" := VStr "Rejected"]>
                      (<["rejectedAt" := VDate 2200]> Scenario.assigned_application)
                 :: post) Scenario.assigned).
Proof.
  refine (proj1 (reject_overwrites_any_status Sample.idp
           (incoming (Some "Bearer root-token") (fresh_hex 0) ∅ 2200)
           Scenario.assigned Scenario.claims_root
           (Sample.user_record "root@example.com" "admin") (VOid (fresh_hex 0))
           _ _ _ _ _) Scenario.assigned_application _).
  - exists "Bearer root-token". repeat split; reflexivity.
  - reflexivity.
  - vm_compute. reflexivity.
  - vm_compute. reflexivity.
  - reflexivity.
  - vm_compute. reflexivity.
Defined.

(** ** Deleting an application in [index.js] *)

(** X7. [DELETE /applications/:id] of [index.js] makes no ownership test: for
    any caller with a valid token, whoever created the application, an
    existing record is removed and the answer is 200; an identifier without
    record is answered 404 with the store unchanged. *)
Theorem basic_delete_has_no_owner_test
    (verify : value -> option doc) (r : request) (s : Db) (u : doc) (oid : value) :
  authenticates verify (authorization r) u ->
  online s = true ->
  new_ObjectId (param r) = Some oid ->
  (forall a, List.find (matches [("_id", oid)]) (applications s) = Some a ->
     exists pre post,
       applications s = pre ++ a :: post
       /\ Basic.handle verify Basic.DeleteApplication r s
          = (Some (mkResponse 200 (JDoc {[ "success" := VBool true ]})),
             set_coll Applications (pre ++ post) s))
  /\ (List.find (matches [("_id", oid)]) (applications s) = None ->
      Basic.handle verify Basic.DeleteApplication r s
      = (Some (mkResponse 404 (failure "Application not found")), s)).
Proof.
  intros Hauth Hon Hid.
  unfold Basic.handle. cbn [Basic.guards Basic.handler_of].
  rewrite (serve_token _ _ _ _ _ _ Hauth), serve_nil.
  unfold Basic.delete_application, try_catch.
  change (param (set_user u r)) with (param r). rewrite Hid, bind_lift_some.
  unfold bind. rewrite (deleteOne_online _ _ _ Hon). cbn [get_coll].
  split.
  - intros a Hfind.
    destruct (find_split_first _ _ _ Hfind) as (pre & post & Hsplit).
    destruct (split_first_spec _ _ _ _ _ Hsplit) as (Hl & _).
    exists pre, post. split; [exact Hl|]. rewrite Hsplit. reflexivity.
  - intros Hnone. apply split_first_none in Hnone. rewrite Hnone. reflexivity.
Qed.

(** Witness for X7: bob deletes jane's application. *)
Lemma basic_delete_has_no_owner_test_witness :
  exists pre post,
    applications Sample.with_application = pre ++ Scenario.stored_application :: post
    /\ Basic.handle Sample.idp Basic.DeleteApplication
         (incoming Sample.bob (fresh_hex 0) ∅ 2300) Sample.with_application
       = (Some (mkResponse 200 (JDoc {[ "success" := VBool true ]})),
          set_coll Applications (pre ++ post) Sample.with_application).
Proof.
  refine (proj1 (basic_delete_has_no_owner_test Sample.idp
           (incoming Sample.bob (fresh_hex 0) ∅ 2300) Sample.with_application
           Scenario.claims_bob (VOid (fresh_hex 0)) _ _ _)
           Scenario.stored_application _).
  - exists "Bearer bob-token". repeat split; reflexivity.
  - reflexivity.
  - reflexivity.
  - vm_compute. reflexivity.
Defined.

(** ** Which routes let an exception escape *)












(** ** What a route writes *)

Lemma get_set_coll_other c c' l s : c <> c' -> get_coll c (set_coll c' l s) = get_coll c s.
Proof. destruct c, c'; intros H; try reflexivity; contradiction. Qed.

Section Frame.
Variables (c0 : coll) (s0 : Db).

(** Collection [c0] holds what it held in [s0]. *)
Let same : Db -> Prop := fun s => get_coll c0 s = get_coll c0 s0.

Lemma store_new_frame c generate (d : doc) :
  c0 <> c -> preserves same (store_new c generate d).
Proof.
  intros Hc s Hs. unfold same in *.
  unfold store_new, bind, take_oid, ret, get_docs, put_docs, throw.
  destruct generate; cbn beta iota; destruct (has_id _ _); cbn [after];
    rewrite ?get_set_coll_other, ?get_coll_bump by exact Hc; exact Hs.
Qed.

Lemma insertOne_frame c (d : doc) : c0 <> c -> preserves same (insertOne c d).
Proof.
  intros Hc. unfold insertOne. apply preserves_bind.
  - apply preserves_guard_online.
  - intros _. apply store_new_frame, Hc.
Qed.

Lemma updateOne_frame c q (upd : doc) b :
  c0 <> c -> preserves same (updateOne c q upd b).
Proof.
  intros Hc s Hs. unfold same in *.
  destruct (online s) eqn:Hon;
    [|rewrite (updateOne_offline _ _ _ _ _ Hon); exact Hs].
  destruct (split_first (matches q) (get_coll c s)) as [[[pre old] post]|] eqn:Hsplit.
  - rewrite (updateOne_found _ _ _ _ _ _ _ _ Hon Hsplit).
    destruct (bool_decide _); cbn [after]; [|exact Hs].
    rewrite get_set_coll_other by exact Hc. exact Hs.
  - destruct b.
    + rewrite (updateOne_upsert _ _ _ _ Hon Hsplit).
      apply preserves_bind; [|intros; apply preserves_ret|exact Hs].
      apply store_new_frame, Hc.
    + unfold updateOne, guard_online, bind, get_docs. rewrite Hon, Hsplit. exact Hs.
Qed.

Lemma deleteOne_frame c q : c0 <> c -> preserves same (deleteOne c q).
Proof.
  intros Hc s Hs. unfold same in *.
  destruct (online s) eqn:Hon;
    [|rewrite (deleteOne_offline _ _ _ Hon); exact Hs].
  rewrite (deleteOne_online _ _ _ Hon).
  destruct (split_first _ _) as [[[pre old] post]|]; cbn [after]; [|exact Hs].
  rewrite get_set_coll_other by exact Hc. exact Hs.
Qed.

Ltac frame_tac Hnot :=
  repeat first
    [ apply preserves_try
    | apply preserves_ret
    | apply preserves_throw
    | apply preserves_lift_opt
    | apply preserves_user_claim
    | apply preserves_findOne
    | apply preserves_find
    | apply insertOne_frame; intros ->; apply Hnot; cbn; tauto
    | apply updateOne_frame; intros ->; apply Hnot; cbn; tauto
    | apply deleteOne_frame; intros ->; apply Hnot; cbn; tauto
    | apply preserves_bind; [|intros ?]
    | match goal with
      | |- preserves _ (match ?x with _ => _ end) => destruct x
      end ].

Lemma handlers_frame (rt : Full.route) (r : request) :
  ~ In c0 (written_by rt) -> preserves same (Full.handler_of rt r).
Proof.
  intros Hnot.
  destruct rt; cbn [Full.handler_of written_by] in *;
    unfold Full.get_policy, Full.post_users, Full.post_agents,
      Full.patch_agent_status, Full.delete_agent, Full.get_all, Full.patch_assign,
      Full.patch_reject, Full.post_applications, Full.patch_application_status,
      Full.get_applications_all, Full.get_application, Full.delete_application,
      Full.post_blogs, Full.get_blogs, Full.get_blog, Full.delete_blog,
      Full.post_subscribe, Full.not_owner_nor_admin, reply;
    cbv zeta; frame_tac Hnot.
Qed.
Lemma more_handlers_frame describe query (rt : FullRest.route) (r : request) :
  ~ In c0 (written_by_more rt) ->
  preserves same (FullRest.handler_of describe query rt r).
Proof.
  intros Hnot.
  destruct rt; cbn [FullRest.handler_of written_by_more] in *;
    unfold FullRest.put_make_admin, FullRest.patch_user, FullRest.get_users_role,
      FullRest.get_applications_assigned, FullRest.patch_applications_assign,
      FullRest.get_applications, FullRest.post_policies, FullRest.patch_policy,
      FullRest.delete_policy, reply;
    cbv zeta; frame_tac Hnot.
Qed.
End Frame.

Ltac reads_tac :=
  repeat first
    [ apply preserves_try
    | apply preserves_ret
    | apply preserves_throw
    | apply preserves_lift_opt
    | apply preserves_user_claim
    | apply preserves_findOne
    | apply preserves_find
    | apply preserves_bind; [|intros ?]
    | match goal with
      | |- preserves _ (match ?x with _ => _ end) => destruct x
      end ].

Lemma readers_keep (Inv : Db -> Prop) (rt : Full.route) (r : request) :
  written_by rt = [] -> preserves Inv (Full.handler_of rt r).
Proof.
  destruct rt; cbn [written_by]; try discriminate; intros _;
    cbn [Full.handler_of];
    unfold Full.get_policy, Full.get_all, Full.get_applications_all,
      Full.get_application, Full.get_blogs, Full.get_blog,
      Full.not_owner_nor_admin, reply;
    cbv zeta; reads_tac.
Qed.

Lemma more_readers_keep (Inv : Db -> Prop) describe query
    (rt : FullRest.route) (r : request) :
  written_by_more rt = [] ->
  preserves Inv (FullRest.handler_of describe query rt r).
Proof.
  destruct rt; cbn [written_by_more]; try discriminate; intros _;
    cbn [FullRest.handler_of];
    unfold FullRest.get_users_role, FullRest.get_applications_assigned,
      FullRest.get_applications, reply;
    cbv zeta; reads_tac.
Qed.

Lemma more_guards_keep (Inv : Db -> Prop) verify (rt : FullRest.route) :
  Forall (fun m : middleware => forall r, preserves Inv (m r))
         (FullRest.guards verify rt).
Proof.
  destruct rt; cbn [FullRest.guards];
    first [apply Forall_nil_2 | exact (guards_keep Inv verify Full.PostAgents)].
Qed.

(** X9. The write footprint of the twenty-seven routes of the full server
    modelled here. Whatever the request, and whether or not it passes the
    guards, a route changes no collection outside its footprint: the users
    collection is changed by [POST /users], [PATCH /users/:email] and
    [PUT /make-admin] and by no other of these routes; agents by the three
    agent routes; applications by the six routes that create, assign, reject,
    re-status or delete one; blogs by [POST /blogs] and [DELETE /blogs/:id];
    policies by the three policy writers; subscribers by [POST /subscribe].
    The guards write nothing, and the nine reading routes leave the whole
    store exactly as it was. *)
Theorem write_footprint
    (verify : value -> option doc) (describe : value -> string) (query : doc)
    (r : request) (s : Db) :
  (forall rt c, ~ In c (written_by rt) ->
     get_coll c (snd (Full.handle verify rt r s)) = get_coll c s)
  /\ (forall rt c, ~ In c (written_by_more rt) ->
        get_coll c (snd (FullRest.handle verify describe query rt r s))
        = get_coll c s)
  /\ (forall rt, written_by rt = [] -> snd (Full.handle verify rt r s) = s)
  /\ (forall rt, written_by_more rt = [] ->
        snd (FullRest.handle verify describe query rt r s) = s).
Proof.
  split; [|split; [|split]].
  - intros rt c Hnot. unfold Full.handle. rewrite serve_after.
    apply (chain_keeps (fun s' => get_coll c s' = get_coll c s));
      [apply guards_keep| |reflexivity].
    intros r'. apply handlers_frame, Hnot.
  - intros rt c Hnot. unfold FullRest.handle. rewrite serve_after.
    apply (chain_keeps (fun s' => get_coll c s' = get_coll c s));
      [apply more_guards_keep| |reflexivity].
    intros r'. apply more_handlers_frame, Hnot.
  - intros rt Hread. unfold Full.handle. rewrite serve_after.
    apply (chain_keeps (fun s' => s' = s)); [apply guards_keep| |reflexivity].
    intros r'. apply readers_keep, Hread.
  - intros rt Hread. unfold FullRest.handle. rewrite serve_after.
    apply (chain_keeps (fun s' => s' = s)); [apply more_guards_keep| |reflexivity].
    intros r'. apply more_readers_keep, Hread.
Qed.

(** Witness for X9: creating an application leaves the users collection as it
    was, promoting jane leaves the applications as they were, and listing the
    blogs leaves the store as it was. *)
Lemma write_footprint_witness :
  users Sample.with_application = users Sample.staffed
  /\ applications
       (snd (FullRest.handle Sample.idp (fun _ => "") ∅ FullRest.PutMakeAdmin
               (incoming None "" {[ "email" := VStr "jane@example.com" ]} 1)
               Sample.with_application))
     = applications Sample.with_application
  /\ snd (Full.handle Sample.idp Full.GetBlogs
            (incoming Sample.jane "" ∅ 1) Sample.with_blog) = Sample.with_blog.
Proof.
  split; [|split].
  - apply (proj1 (write_footprint Sample.idp (fun _ => "") ∅
                    (incoming Sample.jane "" Sample.jane_application 1000)
                    Sample.staffed) Full.PostApplications Users).
    cbn. intros [H|[]]. discriminate H.
  - apply (proj1 (proj2 (write_footprint Sample.idp (fun _ => "") ∅
                    (incoming None "" {[ "email" := VStr "jane@example.com" ]} 1)
                    Sample.with_application)) FullRest.PutMakeAdmin Applications).
    cbn. intros [H|[]]. discriminate H.
  - apply (proj1 (proj2 (proj2 (write_footprint Sample.idp (fun _ => "") ∅
                    (incoming Sample.jane "" ∅ 1) Sample.with_blog))) Full.GetBlogs).
    reflexivity.
Defined.

(** ** Deleting, then fetching *)

Lemma find_id_none_after_remove (oid : value) (pre post : list doc) (a : doc) :
  is_nullish oid = false -> a !! "_id" = Some oid ->
  ids_unique (pre ++ a :: post) ->
  List.find (matches [("_id", oid)]) (pre ++ post) = None.
Proof.
  intros Hoid Ha Huniq. apply find_none_Forall. apply Forall_forall.
  intros x Hx. apply list_elem_of_In in Hx.
  rewrite (matches_id _ _ Hoid). apply bool_decide_eq_false_2.
  intros Hxid. unfold ids_unique in Huniq. rewrite map_app in Huniq. cbn [map] in Huniq.
  apply NoDup_ListNoDup in Huniq. apply List.NoDup_remove_2 in Huniq.
  apply Huniq. rewrite <- map_app, Ha, <- Hxid.
  apply (List.in_map (fun d : doc => d !! "_id")), Hx.
Qed.

Lemma found_has_id (oid : value) (l : list doc) (a : doc) :
  is_nullish oid = false ->
  List.find (matches [("_id", oid)]) l = Some a -> a !! "_id" = Some oid.
Proof.
  intros Hoid Hfind. apply List.find_some in Hfind as [_ Hm].
  rewrite (matches_id _ _ Hoid) in Hm. apply bool_decide_eq_true_1 in Hm. exact Hm.
Qed.

Lemma new_ObjectId_not_nullish str oid :
  new_ObjectId str = Some oid -> is_nullish oid = false.
Proof.
  unfold new_ObjectId. destruct (_ && _); [|discriminate].
  intros [= <-]. reflexivity.
Qed.

(** X11. A deleted application is gone: when its creator deletes an
    application of a store whose application identifiers are unique, the
    answer is 200, and every later [GET /applications/:id] for the same
    identifier, by any authenticated caller, is answered 404 "Application not
    found". *)
Theorem deleted_application_is_not_found
    (verify : value -> option doc) (r : request) (s : Db)
    (u a : doc) (e : string) (oid : value) :
  authenticates verify (authorization r) u ->
  field u "email" = VStr e ->
  online s = true ->
  new_ObjectId (param r) = Some oid ->
  List.find (matches [("_id", oid)]) (applications s) = Some a ->
  field a "userEmail" = VStr e ->
  ids_unique (applications s) ->
  exists s',
    Full.handle verify Full.DeleteApplication r s
    = (Some (mkResponse 200 (JDoc {[ "success" := VBool true ]})), s')
    /\ forall r' u',
         authenticates verify (authorization r') u' -> param r' = param r ->
         Full.handle verify Full.GetApplication r' s'
         = (Some (mkResponse 404 (message "Application not found")), s').
Proof.
  intros Hauth He Hon Hid Hfind Hown Huniq.
  pose proof (new_ObjectId_not_nullish _ _ Hid) as Hoid.
  assert (Hdel : strict_ne (field a "userEmail") (field u "email")
                 && strict_ne (field u "role") (VStr "admin") = false).
  { rewrite He, Hown. unfold strict_ne, strict_eq. rewrite String.eqb_refl.
    reflexivity. }
  destruct (delete_application_allowed (set_user u r) s u a oid eq_refl Hon Hid
              Hfind Hdel) as (pre & post & Hl & Hrun).
  exists (set_coll Applications (pre ++ post) s). split.
  - unfold Full.handle. cbn [Full.guards Full.handler_of].
    rewrite (serve_token _ _ _ _ _ _ Hauth), serve_nil, Hrun. reflexivity.
  - intros r' u' Hauth' Hparam. unfold Full.handle.
    cbn [Full.guards Full.handler_of].
    rewrite (serve_token _ _ _ _ _ _ Hauth'), serve_nil.
    unfold Full.get_application. erewrite try_ok; [reflexivity|].
    change (param (set_user u' r')) with (param r').
    rewrite Hparam, Hid, bind_lift_some.
    rewrite bind_findOne by (rewrite online_set_coll; exact Hon).
    rewrite get_set_coll.
    rewrite (find_id_none_after_remove oid pre post a Hoid
               (found_has_id _ _ _ Hoid Hfind)); [reflexivity|].
    rewrite <- Hl. exact Huniq.
Qed.

(** Witness for X11: jane deletes her application; bob then asks for it. *)
Lemma deleted_application_is_not_found_witness :
  exists s',
    Full.handle Sample.idp Full.DeleteApplication
      (incoming Sample.jane (fresh_hex 0) ∅ 2400) Sample.with_application
    = (Some (mkResponse 200 (JDoc {[ "success" := VBool true ]})), s')
    /\ Full.handle Sample.idp Full.GetApplication
         (incoming Sample.bob (fresh_hex 0) ∅ 2401) s'
       = (Some (mkResponse 404 (message "Application not found")), s').
Proof.
  destruct (deleted_application_is_not_found Sample.idp
              (incoming Sample.jane (fresh_hex 0) ∅ 2400) Sample.with_application
              Scenario.claims_jane Scenario.stored_application "jane@example.com"
              (VOid (fresh_hex 0))) as (s' & Hdel & Hget).
  - exists "Bearer jane-token". repeat split; reflexivity.
  - vm_compute. reflexivity.
  - reflexivity.
  - reflexivity.
  - vm_compute. reflexivity.
  - vm_compute. reflexivity.
  - replace (applications Sample.with_application)
      with [Scenario.stored_application] by (vm_compute; reflexivity).
    unfold ids_unique. cbn [map]. apply NoDup_singleton.
  - exists s'. split; [exact Hdel|].
    apply (Hget (incoming Sample.bob (fresh_hex 0) ∅ 2401) Scenario.claims_bob);
      [|reflexivity].
    exists "Bearer bob-token". repeat split; reflexivity.
Defined.

(** ** Listing blogs *)

Lemma find_online c q s :
  online s = true -> find c q s = Ok (List.filter (matches q) (get_coll c s)) s.
Proof. unfold find, bind, guard_online. intros ->. reflexivity. Qed.

Lemma insert_desc_perm k (d : doc) l : Permutation (insert_desc k d l) (d :: l).
Proof.
  induction l as [|x l IH]; cbn [insert_desc]; [reflexivity|].
  destruct (bson_ltb _ _); [|reflexivity].
  rewrite IH. apply perm_swap.
Qed.

Lemma sort_desc_perm k l : Permutation (sort_desc k l) l.
Proof.
  unfold sort_desc. induction l as [|x l IH]; cbn [fold_right]; [reflexivity|].
  rewrite insert_desc_perm, IH. reflexivity.
Qed.

Lemma dated_field (d : doc) : dated d -> field d "publishDate" = VDate (published d).
Proof.
  intros [t Ht]. unfold published, field. rewrite Ht. reflexivity.
Qed.

Lemma insert_desc_sorted (d : doc) l :
  dated d -> Forall dated l ->
  StronglySorted (fun a b => (published b <= published a)%N) l ->
  StronglySorted (fun a b => (published b <= published a)%N)
                 (insert_desc "publishDate" d l).
Proof.
  intros Hd Hl Hs. induction Hs as [|x l Hs IH Hx]; cbn [insert_desc].
  - repeat constructor.
  - apply Forall_cons in Hl as [Hdx Hl].
    rewrite (dated_field _ Hd), (dated_field _ Hdx).
    unfold bson_ltb, bson_leb. destruct (N.leb_spec (published x) (published d)) as [Hle|Hlt];
      cbn [negb].
    + constructor; [constructor; assumption|].
      constructor; [exact Hle|].
      eapply Forall_impl; [exact Hx|]. intros y Hy. cbn beta in *. lia.
    + constructor; [apply IH, Hl|].
      rewrite insert_desc_perm. constructor; [lia|exact Hx].
Qed.

Lemma sort_desc_sorted l :
  Forall dated l ->
  StronglySorted (fun a b => (published b <= published a)%N)
                 (sort_desc "publishDate" l).
Proof.
  unfold sort_desc. induction 1 as [|x l Hx Hl IH]; cbn [fold_right];
    [constructor|].
  apply insert_desc_sorted; [exact Hx| |exact IH].
  fold (sort_desc "publishDate" l). rewrite sort_desc_perm. exact Hl.
Qed.

Lemma Forall_filter_dated (p : doc -> bool) l :
  Forall dated l -> Forall dated (List.filter p l).
Proof.
  induction 1 as [|x l Hx _ IH]; cbn [List.filter]; [constructor|].
  destruct (p x); [constructor; assumption|exact IH].
Qed.

Lemma filter_all {A} (l : list A) : List.filter (fun _ => true) l = l.
Proof. induction l as [|x l IH]; cbn [List.filter]; [|rewrite IH]; reflexivity. Qed.

(** X12. [GET /blogs] of the full server shows an agent the blogs written
    under the agent's own email and nobody else's, and shows every other
    caller with a user record all blogs; no blog is dropped or repeated, and
    blogs with a publication date come latest first. *)
Theorem blog_listing
    (verify : value -> option doc) (r : request) (s : Db) (u d : doc) (e : string) :
  authenticates verify (authorization r) u ->
  field u "email" = VStr e ->
  online s = true ->
  user_record_of u s = Some d ->
  exists l,
    Full.handle verify Full.GetBlogs r s = (Some (mkResponse 200 (JDocs l)), s)
    /\ (field d "role" = VStr "agent" ->
        Permutation l (records_with "authorEmail" (VStr e) (blogs s)))
    /\ (field d "role" <> VStr "agent" -> Permutation l (blogs s))
    /\ (Forall dated (blogs s) ->
        StronglySorted (fun a b => (published b <= published a)%N) l).
Proof.
  intros Hauth He Hon Hrec.
  set (q := if strict_eq (field d "role") (VStr "agent")
            then [("authorEmail", VStr e)] else @nil (string * value)).
  exists (sort_desc "publishDate" (List.filter (matches q) (blogs s))).
  split; [|split; [|split]].
  - unfold Full.handle. cbn [Full.guards Full.handler_of].
    rewrite (serve_token _ _ _ _ _ _ Hauth), serve_nil.
    unfold Full.get_blogs. erewrite try_ok; [reflexivity|].
    rewrite (bind_user_claim _ u) by reflexivity.
    rewrite (bind_findOne _ _ _ _ Hon). cbn [get_coll].
    unfold user_record_of in Hrec. rewrite Hrec, He. cbn [option_map].
    rewrite bind_lift_some. fold q.
    unfold bind. rewrite (find_online _ _ _ Hon). reflexivity.
  - intros Hrole. rewrite sort_desc_perm. subst q. rewrite Hrole.
    unfold strict_eq. rewrite String.eqb_refl.
    rewrite records_with_matches by reflexivity. reflexivity.
  - intros Hrole. rewrite sort_desc_perm. subst q.
    replace (strict_eq (field d "role") (VStr "agent")) with false.
    + unfold matches. cbn [forallb]. rewrite filter_all. reflexivity.
    + symmetry. pose proof (strict_ne_other _ _ Hrole) as Hne.
      unfold strict_ne in Hne. apply negb_true_iff in Hne. exact Hne.
  - intros Hdated. apply sort_desc_sorted, Forall_filter_dated, Hdated.
Qed.

(** Witness for X12: jane, an agent, lists the blogs of a store that holds
    one of hers and one of amy's. *)
Lemma blog_listing_witness :
  exists l,
    Full.handle Sample.idp Full.GetBlogs (incoming Sample.jane "" ∅ 3100)
      Scenario.two_blogs
    = (Some (mkResponse 200 (JDocs l)), Scenario.two_blogs)
    /\ Permutation l
         (records_with "authorEmail" (VStr "jane@example.com")
            (blogs Scenario.two_blogs))
    /\ length l = 1%nat.
Proof.
  destruct (blog_listing Sample.idp (incoming Sample.jane "" ∅ 3100)
              Scenario.two_blogs Scenario.claims_jane
              (Sample.user_record "jane@example.com" "agent") "jane@example.com")
    as (l & Hrun & Hagent & _ & _).
  - exists "Bearer jane-token". repeat split; reflexivity.
  - vm_compute. reflexivity.
  - reflexivity.
  - vm_compute. reflexivity.
  - exists l. split; [exact Hrun|].
    assert (Hperm := Hagent ltac:(vm_compute; reflexivity)).
    split; [exact Hperm|].
    rewrite (Permutation_length Hperm). vm_compute. reflexivity.
Defined.

(** ** The routing table *)

Lemma hit_endpoint m segs e x : Router.hit m segs e = Some x -> fst x = snd e.
Proof.
  unfold Router.hit. destruct (Router.method_eqb _ _); [|discriminate].
  destruct (Router.segments _); [|discriminate].
  destruct (Router.match_segments _ _ _); [|discriminate].
  intros [= <-]. reflexivity.
Qed.

Lemma first_hit_elem m segs l x :
  Router.first_hit m segs l = Some x -> exists e, e ∈ l /\ Router.hit m segs e = Some x.
Proof.
  induction l as [|e l IH]; cbn [Router.first_hit]; [discriminate|].
  destruct (Router.hit m segs e) as [y|] eqn:He.
  - intros [= <-]. exists e. split; [left|exact He].
  - intros H. destruct (IH H) as (e' & Hin & He'). exists e'. split; [right; exact Hin|exact He'].
Qed.

Lemma first_hit_app m segs l1 l2 :
  Router.first_hit m segs (l1 ++ l2)
  = match Router.first_hit m segs l1 with
    | Some x => Some x
    | None => Router.first_hit m segs l2
    end.
Proof.
  induction l1 as [|e l1 IH]; cbn [Router.first_hit app]; [reflexivity|].
  destruct (Router.hit m segs e); [reflexivity|exact IH].
Qed.

Lemma first_hit_some m segs l e :
  e ∈ l -> Router.hit m segs e <> None -> Router.first_hit m segs l <> None.
Proof.
  induction l as [|e' l IH]; [intros H; inversion H|].
  intros Hin Hhit. cbn [Router.first_hit].
  destruct (Router.hit m segs e') eqn:He'; [discriminate|].
  apply elem_of_cons in Hin as [->|Hin]; [congruence|].
  apply IH; assumption.
Qed.

(** A registration that matches only where an earlier one does is never
    reached. *)
Lemma never_reached front back x y m segs p :
  (Router.hit m segs y <> None -> Router.hit m segs x <> None) ->
  x ∈ front ->
  Forall (fun e => snd e <> snd y) front ->
  Forall (fun e => snd e <> snd y) back ->
  Router.first_hit m segs (front ++ y :: back) <> Some (snd y, p).
Proof.
  intros Hsh Hx Hfront Hback Hhit.
  assert (Hno : forall l, Forall (fun e => snd e <> snd y) l ->
                Router.first_hit m segs l <> Some (snd y, p)).
  { intros l Hl H. apply first_hit_elem in H as (e & Hin & He).
    apply hit_endpoint in He. cbn in He.
    rewrite Forall_forall in Hl. apply (Hl e Hin). symmetry. exact He. }
  rewrite first_hit_app in Hhit.
  destruct (Router.first_hit m segs front) as [z|] eqn:Hf.
  - apply (Hno front Hfront). congruence.
  - cbn [Router.first_hit] in Hhit.
    destruct (Router.hit m segs y) as [z|] eqn:Hy.
    + apply (first_hit_some m segs front x Hx); [|exact Hf].
      apply Hsh. discriminate.
    + apply (Hno back Hback). exact Hhit.
Qed.

Lemma same_pattern_hits m segs pat e1 e2 :
  Router.hit m segs (Router.GET, pat, e2) <> None ->
  Router.hit m segs (Router.GET, pat, e1) <> None.
Proof.
  unfold Router.hit. cbn [fst snd].
  destruct (Router.method_eqb m Router.GET); [|congruence].
  destruct (Router.segments pat); [|congruence].
  destruct (Router.match_segments _ _ _); [discriminate|congruence].
Qed.

Lemma string_map_empty f x : string_map f x = "" -> x = "".
Proof. destruct x; [reflexivity|discriminate]. Qed.

Lemma blog_id_takes_latest m segs :
  Router.hit m segs (Router.GET, "/blogs/latest", Router.GetBlogsLatest) <> None ->
  Router.hit m segs (Router.GET, "/blogs/:id", Router.GetBlog) <> None.
Proof.
  unfold Router.hit. cbn [fst snd].
  destruct (Router.method_eqb m Router.GET); [|congruence].
  change (Router.segments "/blogs/latest") with (Some ["blogs"; "latest"]).
  change (Router.segments "/blogs/:id") with (Some ["blogs"; ":id"]).
  destruct segs as [|a [|b [|c rest]]]; cbn [Router.match_segments];
    try congruence.
  - change (Router.is_param "blogs") with false.
    cbn iota. destruct (String.eqb _ (string_map Router.lower a)); congruence.
  - change (Router.is_param "blogs") with false.
    change (Router.is_param "latest") with false.
    change (Router.is_param ":id") with true. cbn iota.
    destruct (String.eqb _ (string_map Router.lower a)); [|congruence].
    destruct (String.eqb (string_map Router.lower "latest") (string_map Router.lower b))
      eqn:Hb; [|congruence].
    destruct (String.eqb_spec b ""); [|discriminate].
    subst b. discriminate.
  - change (Router.is_param "blogs") with false.
    change (Router.is_param "latest") with false. cbn iota.
    destruct (String.eqb _ (string_map Router.lower a)); [|congruence].
    destruct (String.eqb _ (string_map Router.lower b)); congruence.
Qed.

Lemma shadowed_never_dispatched e m path p :
  Router.shadowed e = true -> Router.dispatch m path <> Some (e, p).
Proof.
  unfold Router.dispatch. destruct (Router.segments path) as [segs|]; [|discriminate].
  destruct e; try discriminate; intros _.
  - change Router.routes
      with (firstn 11 Router.routes
            ++ (Router.GET, "/users/:email", Router.GetUserAgain)
               :: skipn 12 Router.routes).
    apply (never_reached _ _ (Router.GET, "/users/:email", Router.GetUser)).
    + apply same_pattern_hits.
    + cbn. set_solver.
    + cbn. repeat first [apply Forall_nil_2 | apply Forall_cons_2]; discriminate.
    + cbn. repeat first [apply Forall_nil_2 | apply Forall_cons_2]; discriminate.
  - change Router.routes
      with (firstn 17 Router.routes
            ++ (Router.GET, "/agents/all", Router.GetAgentsAllAgain)
               :: skipn 18 Router.routes).
    apply (never_reached _ _ (Router.GET, "/agents/all", Router.GetAgentsAll)).
    + apply same_pattern_hits.
    + cbn. set_solver.
    + cbn. repeat first [apply Forall_nil_2 | apply Forall_cons_2]; discriminate.
    + cbn. repeat first [apply Forall_nil_2 | apply Forall_cons_2]; discriminate.
  - change Router.routes
      with (firstn 39 Router.routes
            ++ (Router.GET, "/blogs/latest", Router.GetBlogsLatest)
               :: skipn 40 Router.routes).
    apply (never_reached _ _ (Router.GET, "/blogs/:id", Router.GetBlog)).
    + apply blog_id_takes_latest.
    + cbn. set_solver.
    + cbn. repeat first [apply Forall_nil_2 | apply Forall_cons_2]; discriminate.
    + cbn. repeat first [apply Forall_nil_2 | apply Forall_cons_2]; discriminate.
Qed.

(** X13. Three registrations of the full server are dead code: the second
    [GET /users/:email], the second [GET /agents/all] and [GET /blogs/latest]
    are never chosen for any method and path, because an earlier registration
    matches every path they match; every other registration is chosen for
    some request. *)
Theorem reachable_registrations (e : Router.endpoint) :
  (exists m path p, Router.dispatch m path = Some (e, p))
  <-> Router.shadowed e = false.
Proof.
  split.
  - intros (m & path & p & H).
    destruct (Router.shadowed e) eqn:Hs; [|reflexivity].
    exfalso. exact (shadowed_never_dispatched e m path p Hs H).
  - intros Hs. exists (fst (Router.example e)), (snd (Router.example e)).
    destruct e; try discriminate Hs; eexists; vm_compute; reflexivity.
Qed.

Lemma reachable_registrations_witness :
  exists m path p, Router.dispatch m path = Some (Router.GetBlog, p).
Proof. apply reachable_registrations. reflexivity. Defined.

Lemma string_map_length f x : String.length (string_map f x) = String.length x.
Proof. induction x as [|c x IH]; cbn; [reflexivity|]. rewrite IH. reflexivity. Qed.

(** Whether a pattern matches does not depend on the letter case of the path. *)
Lemma match_segments_case pat :
  forall segs segs' cap cap',
    map (string_map Router.lower) segs = map (string_map Router.lower) segs' ->
    Router.match_segments pat segs cap = None
    <-> Router.match_segments pat segs' cap' = None.
Proof.
  induction pat as [|p pat IH]; intros [|x segs] [|x' segs'] cap cap' Hm;
    try discriminate Hm; cbn [Router.match_segments]; try tauto.
  - split; discriminate.
  - cbn [map] in Hm. injection Hm as Hx Hs.
    destruct (Router.is_param p).
    + destruct (String.eqb_spec x ""), (String.eqb_spec x' ""); try tauto.
      * subst x. symmetry in Hx. apply string_map_empty in Hx. contradiction.
      * subst x'. apply string_map_empty in Hx. contradiction.
      * apply IH, Hs.
    + rewrite Hx. destruct (String.eqb _ _); [apply IH, Hs|tauto].
Qed.

Lemma hit_case m segs segs' e :
  map (string_map Router.lower) segs = map (string_map Router.lower) segs' ->
  fst <$> Router.hit m segs e = fst <$> Router.hit m segs' e.
Proof.
  intros Hm. unfold Router.hit.
  destruct (Router.method_eqb _ _); [|reflexivity].
  destruct (Router.segments _) as [pat|]; [|reflexivity].
  pose proof (match_segments_case pat segs segs' "" "" Hm) as Hiff.
  destruct (Router.match_segments pat segs "") as [x|],
           (Router.match_segments pat segs' "") as [x'|]; try reflexivity.
  - destruct Hiff as [_ H]. discriminate (H eq_refl).
  - destruct Hiff as [H _]. discriminate (H eq_refl).
Qed.

Lemma first_hit_case m segs segs' l :
  map (string_map Router.lower) segs = map (string_map Router.lower) segs' ->
  fst <$> Router.first_hit m segs l = fst <$> Router.first_hit m segs' l.
Proof.
  intros Hm. induction l as [|e l IH]; [reflexivity|].
  cbn [Router.first_hit]. pose proof (hit_case m segs segs' e Hm) as He.
  destruct (Router.hit m segs e), (Router.hit m segs' e);
    try discriminate He; [exact He|exact IH].
Qed.

(** The handler of [GET /blogs/:id] is chosen for two-piece paths only, and
    its parameter is the second piece. *)
Lemma blog_parameter m segs p :
  Router.first_hit m segs Router.routes = Some (Router.GetBlog, p) ->
  exists a, segs = [a; p].
Proof.
  intros H. apply first_hit_elem in H as (e & Hin & He).
  pose proof (hit_endpoint _ _ _ _ He) as Hep. cbn [fst] in Hep.
  unfold Router.routes in Hin.
  repeat (apply elem_of_cons in Hin as [->|Hin]; [try discriminate Hep|]);
    [|inversion Hin].
  clear Hep. unfold Router.hit in He. cbn [fst snd] in He.
  destruct (Router.method_eqb m Router.GET); [|discriminate].
  change (Router.segments "/blogs/:id") with (Some ["blogs"; ":id"]) in He.
  destruct segs as [|a [|b [|c rest]]]; cbn [Router.match_segments] in He;
    change (Router.is_param "blogs") with false in He;
    change (Router.is_param ":id") with true in He; cbn iota in He;
    try discriminate He.
  - destruct (String.eqb _ _); discriminate He.
  - destruct (String.eqb _ (string_map Router.lower a)); [|discriminate He].
    destruct (String.eqb b ""); [discriminate He|].
    injection He as <-. exists a. reflexivity.
  - destruct (String.eqb _ (string_map Router.lower a)); [|discriminate He].
    destruct (String.eqb b ""); discriminate He.
Qed.

(** X14. A request for the latest blogs is read as a request for the blog
    whose identifier is [latest]: [GET /blogs/latest] (in any letter case)
    is dispatched to the handler of [GET /blogs/:id]. Without a valid bearer
    token it is answered 401, and with one it is answered 500 "Failed to
    fetch blog", whatever the store holds; the store is unchanged. *)
Theorem latest_blogs_is_read_as_an_id verify path a b auth bd t s :
  Router.segments path = Some [a; b] ->
  string_map Router.lower a = "blogs" ->
  string_map Router.lower b = "latest" ->
  Router.dispatch Router.GET path = Some (Router.GetBlog, b)
  /\ (bad_credential verify auth ->
      exists m,
        Full.handle verify Full.GetBlog (incoming auth b bd t) s
        = (Some (mkResponse 401 (message m)), s))
  /\ (forall u, authenticates verify auth u ->
        Full.handle verify Full.GetBlog (incoming auth b bd t) s
        = (Some (mkResponse 500 (message "Failed to fetch blog")), s)).
Proof.
  intros Hseg Ha Hb. split; [|split].
  - unfold Router.dispatch. rewrite Hseg.
    assert (Hm : map (string_map Router.lower) [a; b]
                 = map (string_map Router.lower) ["blogs"; "latest"]).
    { cbn [map]. rewrite Ha, Hb. reflexivity. }
    pose proof (first_hit_case Router.GET _ _ Router.routes Hm) as Hf.
    change (fst <$> Router.first_hit Router.GET ["blogs"; "latest"] Router.routes)
      with (Some Router.GetBlog) in Hf.
    destruct (Router.first_hit Router.GET [a; b] Router.routes) as [[e p]|] eqn:Hd;
      [|discriminate Hf].
    injection Hf as ->.
    destruct (blog_parameter _ _ _ Hd) as (a' & [= _ ->]). reflexivity.
  - intros Hbad.
    destruct (verifyToken_bad verify (incoming auth b bd t) s Hbad) as (m & Hm).
    exists m. unfold Full.handle, Full.guards, Full.handler_of.
    apply serve_ok. apply chain_respond with (s' := s). exact Hm.
  - intros u Hauth.
    assert (Hid : new_ObjectId b = None).
    { unfold new_ObjectId.
      rewrite <- (string_map_length Router.lower b), Hb. reflexivity. }
    unfold Full.handle, Full.guards, Full.handler_of.
    rewrite (serve_token verify [] _ (incoming auth b bd t) s u Hauth), serve_nil.
    unfold Full.get_blog. cbn [param set_user incoming].
    rewrite Hid. reflexivity.
Qed.

(** Witness for X14: jane, whose token is valid, asks for the latest blogs and
    gets 500; the same request without a header gets 401. *)
Lemma latest_blogs_is_read_as_an_id_witness :
  Router.dispatch Router.GET "/Blogs/latest/" = Some (Router.GetBlog, "latest")
  /\ Full.handle Sample.idp Full.GetBlog
       (incoming Sample.jane "latest" ∅ 0) Sample.with_blog
     = (Some (mkResponse 500 (message "Failed to fetch blog")), Sample.with_blog)
  /\ exists m,
       Full.handle Sample.idp Full.GetBlog
         (incoming None "latest" ∅ 0) Sample.with_blog
       = (Some (mkResponse 401 (message m)), Sample.with_blog).
Proof.
  split; [|split].
  - apply (proj1 (latest_blogs_is_read_as_an_id Sample.idp "/Blogs/latest/" "Blogs"
                    "latest" None ∅ 0 Sample.with_blog eq_refl eq_refl eq_refl)).
  - apply (proj2 (proj2 (latest_blogs_is_read_as_an_id Sample.idp "/Blogs/latest/"
                           "Blogs" "latest" Sample.jane ∅ 0 Sample.with_blog
                           eq_refl eq_refl eq_refl)) Scenario.claims_jane).
    exists "Bearer jane-token". split; [reflexivity|]. split; vm_compute; reflexivity.
  - apply (proj1 (proj2 (latest_blogs_is_read_as_an_id Sample.idp "/Blogs/latest/"
                           "Blogs" "latest" None ∅ 0 Sample.with_blog
                           eq_refl eq_refl eq_refl))).
    exact I.
Defined.

(** ** Promotion to administrator *)

Lemma find_hit (p : doc -> bool) pre x post :
  forallb (fun d => negb (p d)) pre = true -> p x = true ->
  List.find p (pre ++ x :: post) = Some x.
Proof.
  intros Hpre Hx.
  pose proof (split_first_hit p pre x post Hpre Hx) as H.
  apply split_first_spec in H. tauto.
Qed.

(** Once the first user record of an email carries the role "admin", the
    administrator gate lets the holder of a token for that email through. *)
Lemma admin_gate_after_promotion verify h u e s pre d post bd t :
  authenticates verify (Some h) u -> field u "email" = VStr e ->
  online s = true ->
  split_first (matches [("email", VStr e)]) (users s) = Some (pre, d, post) ->
  Full.handle verify Full.GetApplicationsAll (incoming (Some h) "" bd t)
    (set_coll Users (pre ++ <["role" := VStr "admin"]> d :: post) s)
  = (Some (mkResponse 200 (JDocs (applications s))),
     set_coll Users (pre ++ <["role" := VStr "admin"]> d :: post) s).
Proof.
  intros Hauth He Hon Hsp.
  apply split_first_spec in Hsp as (_ & Hd & _ & Hpre).
  set (s' := set_coll Users _ s).
  assert (Hon' : online s' = true) by (unfold s'; rewrite online_set_coll; exact Hon).
  unfold Full.handle, Full.guards, Full.handler_of, verifyAdmin.
  rewrite (serve_token_role verify "admin" _ _ _ (incoming (Some h) "" bd t) s' u
             (<["role" := VStr "admin"]> d) Hauth Hon').
  - rewrite serve_nil. unfold Full.get_applications_all.
    erewrite try_ok; [reflexivity|].
    erewrite bind_ok; [|apply find_online, Hon'].
    unfold reply, ret. f_equal. f_equal. f_equal.
    unfold s'. rewrite get_set_coll_other by discriminate.
    exact (filter_all (get_coll Applications s)).
  - unfold user_record_of. rewrite He.
    change (users s') with (get_coll Users s'). unfold s'. rewrite get_set_coll.
    apply find_hit; [exact Hpre|].
    rewrite matches_single in * by reflexivity.
    apply bool_decide_eq_true_1 in Hd. apply bool_decide_eq_true_2.
    rewrite lookup_insert_ne by discriminate. exact Hd.
  - unfold field. rewrite lookup_insert_eq. reflexivity.
Qed.

(** X15. [PUT /make-admin] needs no credential: for any request, with or
    without an Authorization header, whose body names the email of a user
    record that is not yet an administrator, the answer is 200 and the record's
    role becomes "admin"; a token holder of that email, refused with 403 by
    the administrator gate before, is let through after. *)
Theorem make_admin_needs_no_credential
    describe verify (auth : option string) b n h u e s d bd t :
  online s = true -> e <> "" ->
  field b "email" = VStr e ->
  authenticates verify (Some h) u -> field u "email" = VStr e ->
  user_record_of u s = Some d -> d !! "role" <> Some (VStr "admin") ->
  exists s',
    serve [] (FullRest.put_make_admin describe) (incoming auth "" b n) s
    = (Some (mkResponse 200 (message (describe (VStr e) ++ " is now an admin."))), s')
    /\ (forall c, c <> Users -> get_coll c s' = get_coll c s)
    /\ (exists d', user_record_of u s' = Some d' /\ field d' "role" = VStr "admin")
    /\ Full.handle verify Full.GetApplicationsAll (incoming (Some h) "" bd t) s
       = (Some (mkResponse 403 (message "Forbidden: Admin access required")), s)
    /\ Full.handle verify Full.GetApplicationsAll (incoming (Some h) "" bd t) s'
       = (Some (mkResponse 200 (JDocs (get_coll Applications s))), s').
Proof.
  intros Hon Hne Hb Hauth He Hrec Hrole.
  unfold user_record_of in Hrec. rewrite He in Hrec.
  destruct (find_split_first _ _ _ Hrec) as (pre & post & Hsp).
  exists (set_coll Users (pre ++ <["role" := VStr "admin"]> d :: post) s).
  split; [|split; [|split; [|split]]].
  - rewrite serve_nil. unfold FullRest.put_make_admin. cbn [body incoming].
    rewrite Hb. unfold Full.falsy. cbn [truthy].
    destruct (String.eqb_spec e ""); [contradiction|]. cbn [negb].
    erewrite try_ok; [reflexivity|].
    unfold bind at 1.
    rewrite (updateOne_field Users _ "role" (VStr "admin") s pre d post Hon)
      by (discriminate || exact Hsp).
    cbn [bson modifiedCount].
    rewrite bool_decide_eq_false_2 by exact Hrole. reflexivity.
  - intros c Hc. apply get_set_coll_other. exact Hc.
  - exists (<["role" := VStr "admin"]> d). split.
    + unfold user_record_of. rewrite He.
      change (users (set_coll Users ?l s)) with l.
      apply split_first_spec in Hsp as (_ & Hd & _ & Hpre).
      apply find_hit; [exact Hpre|].
      rewrite matches_single in * by reflexivity.
      apply bool_decide_eq_true_1 in Hd. apply bool_decide_eq_true_2.
      rewrite lookup_insert_ne by discriminate. exact Hd.
    + unfold field. rewrite lookup_insert_eq. reflexivity.
  - unfold Full.handle, Full.guards, Full.handler_of, verifyAdmin.
    apply (token_then_role_denied verify "admin" _ _ [] _ (incoming (Some h) "" bd t) s u);
      [exact Hauth|exact Hon|].
    unfold user_record_of. rewrite He, Hrec.
    unfold strict_ne, strict_eq, field.
    destruct (d !! "role") as [[| |x|x|x|x|x]|] eqn:Hr; cbn; try reflexivity.
    destruct (String.eqb_spec x "admin"); [subst; contradiction|reflexivity].
  - apply admin_gate_after_promotion with (u := u) (e := e); assumption.
Qed.

Lemma make_admin_needs_no_credential_witness :
  exists s',
    serve [] (FullRest.put_make_admin (fun _ => "jane@example.com"))
      (incoming None "" {[ "email" := VStr "jane@example.com" ]} 5) Sample.staffed
    = (Some (mkResponse 200 (message "jane@example.com is now an admin.")), s')
    /\ (forall c, c <> Users -> get_coll c s' = get_coll c Sample.staffed)
    /\ (exists d', user_record_of Scenario.claims_jane s' = Some d'
                   /\ field d' "role" = VStr "admin")
    /\ Full.handle Sample.idp Full.GetApplicationsAll
         (incoming Sample.jane "" ∅ 6) Sample.staffed
       = (Some (mkResponse 403 (message "Forbidden: Admin access required")),
          Sample.staffed)
    /\ Full.handle Sample.idp Full.GetApplicationsAll (incoming Sample.jane "" ∅ 6) s'
       = (Some (mkResponse 200 (JDocs (get_coll Applications Sample.staffed))), s').
Proof.
  destruct (user_record_of Scenario.claims_jane Sample.staffed) as [d|] eqn:Hd;
    [|vm_compute in Hd; discriminate Hd].
  apply (make_admin_needs_no_credential (fun _ => "jane@example.com") Sample.idp None
           {[ "email" := VStr "jane@example.com" ]} 5 "Bearer jane-token"
           Scenario.claims_jane "jane@example.com" Sample.staffed d ∅ 6).
  - reflexivity.
  - discriminate.
  - vm_compute. reflexivity.
  - exists "Bearer jane-token". split; [reflexivity|].
    split; vm_compute; reflexivity.
  - vm_compute. reflexivity.
  - exact Hd.
  - vm_compute in Hd. injection Hd as <-. vm_compute. discriminate.
Defined.

Lemma strict_ne_spec v x : strict_ne v (VStr x) = true <-> v <> VStr x.
Proof.
  split; [|apply strict_ne_other].
  intros H ->. unfold strict_ne, strict_eq in H.
  rewrite String.eqb_refl in H. discriminate.
Qed.

Lemma admin_gate_before_promotion verify h u e s d bd t :
  authenticates verify (Some h) u -> field u "email" = VStr e ->
  online s = true ->
  user_record_of u s = Some d -> d !! "role" <> Some (VStr "admin") ->
  Full.handle verify Full.GetApplicationsAll (incoming (Some h) "" bd t) s
  = (Some (mkResponse 403 (message "Forbidden: Admin access required")), s).
Proof.
  intros Hauth He Hon Hrec Hrole.
  unfold Full.handle, Full.guards, Full.handler_of, verifyAdmin.
  apply (token_then_role_denied verify "admin" _ _ [] _ (incoming (Some h) "" bd t) s u);
    [exact Hauth|exact Hon|].
  rewrite Hrec. apply strict_ne_spec. unfold field.
  destruct (d !! "role") as [v|]; cbn; [|discriminate].
  intros ->. contradiction.
Qed.

(** X16. [PATCH /users/:email] is refused exactly when the caller is neither
    the owner nor an admin: on a reachable store, a caller with a valid token
    is answered 403 if and only if the token's email differs from the email
    in the path and the token's role claim is not "admin"; a refused request
    leaves the store unchanged. *)
Theorem profile_update_access verify h u e bd t s :
  authenticates verify (Some h) u -> online s = true ->
  exists resp s',
    serve [verifyToken verify] FullRest.patch_user (incoming (Some h) e bd t) s
    = (Some resp, s')
    /\ (status resp = 403
        <-> field u "email" <> VStr e /\ field u "role" <> VStr "admin")
    /\ (status resp = 403 -> s' = s).
Proof.
  intros Hauth Hon.
  rewrite (serve_token verify [] _ (incoming (Some h) e bd t) s u Hauth).
  rewrite serve_nil.
  unfold FullRest.patch_user, try_catch, user_claim.
  cbn [user set_user incoming param body]. unfold bind at 1. unfold ret at 1.
  pose proof (strict_ne_spec (field u "email") e) as Hmail.
  pose proof (strict_ne_spec (field u "role") "admin") as Hrole.
  destruct (strict_ne (field u "email") (VStr e)).
  - unfold bind at 1. unfold bind at 1. unfold ret at 1 2.
    destruct (strict_ne (field u "role") (VStr "admin")).
    + do 2 eexists. split; [reflexivity|]. cbn [status]. split; [|reflexivity].
      split; [intros _|reflexivity]. split; [apply Hmail|apply Hrole]; reflexivity.
    + unfold bind.
      destruct (updateOne Users _ bd false s) as [res s1|s1].
      * destruct (Nat.eqb (modifiedCount res) 1); do 2 eexists;
          (split; [reflexivity|]); cbn [status];
          (split; [|discriminate]); (split; [discriminate|]);
          intros [_ H]; apply Hrole in H; discriminate H.
      * do 2 eexists. split; [reflexivity|]. cbn [status].
        split; [|discriminate]. split; [discriminate|].
        intros [_ H]. apply Hrole in H. discriminate H.
  - unfold bind at 1. unfold ret at 1. unfold bind.
    destruct (updateOne Users _ bd false s) as [res s1|s1].
    + destruct (Nat.eqb (modifiedCount res) 1); do 2 eexists;
        (split; [reflexivity|]); cbn [status];
        (split; [|discriminate]); (split; [discriminate|]);
        intros [H _]; apply Hmail in H; discriminate H.
    + do 2 eexists. split; [reflexivity|]. cbn [status].
      split; [|discriminate]. split; [discriminate|].
      intros [H _]. apply Hmail in H. discriminate H.
Qed.

Lemma profile_update_access_witness :
  exists resp s',
    serve [verifyToken Sample.idp] FullRest.patch_user
      (incoming (Some "Bearer bob-token") "jane@example.com"
         {[ "role" := VStr "admin" ]} 7) Sample.staffed
    = (Some resp, s')
    /\ (status resp = 403
        <-> field Scenario.claims_bob "email" <> VStr "jane@example.com"
            /\ field Scenario.claims_bob "role" <> VStr "admin")
    /\ (status resp = 403 -> s' = Sample.staffed).
Proof.
  apply (profile_update_access Sample.idp "Bearer bob-token" Scenario.claims_bob).
  - exists "Bearer bob-token". split; [reflexivity|]. split; vm_compute; reflexivity.
  - reflexivity.
Defined.

(** X17. The owner of a profile can make itself an administrator:
    [PATCH /users/:email] writes the body as it comes, role included. For a
    caller whose token email is the email in the path and whose user record
    is not an admin yet, the body [{role: "admin"}] is answered 200, and the
    administrator gate, which refused the caller before, lets it through
    after. *)
Theorem owner_can_promote_itself verify h u e s d n bd t :
  online s = true ->
  authenticates verify (Some h) u -> field u "email" = VStr e ->
  user_record_of u s = Some d -> d !! "role" <> Some (VStr "admin") ->
  exists s',
    serve [verifyToken verify] FullRest.patch_user
      (incoming (Some h) e {[ "role" := VStr "admin" ]} n) s
    = (Some (mkResponse 200 (JDoc {[ "success" := VBool true ]})), s')
    /\ (forall c, c <> Users -> get_coll c s' = get_coll c s)
    /\ Full.handle verify Full.GetApplicationsAll (incoming (Some h) "" bd t) s
       = (Some (mkResponse 403 (message "Forbidden: Admin access required")), s)
    /\ Full.handle verify Full.GetApplicationsAll (incoming (Some h) "" bd t) s'
       = (Some (mkResponse 200 (JDocs (get_coll Applications s))), s').
Proof.
  intros Hon Hauth He Hrec Hrole.
  pose proof Hrec as Hfind. unfold user_record_of in Hfind. rewrite He in Hfind.
  destruct (find_split_first _ _ _ Hfind) as (pre & post & Hsp).
  exists (set_coll Users (pre ++ <["role" := VStr "admin"]> d :: post) s).
  split; [|split; [|split]].
  - rewrite (serve_token verify [] _
               (incoming (Some h) e {[ "role" := VStr "admin" ]} n) s u Hauth).
    rewrite serve_nil.
    unfold FullRest.patch_user, try_catch, user_claim.
    cbn [user set_user incoming param body]. unfold bind at 1. unfold ret at 1.
    rewrite He. unfold strict_ne at 1. unfold strict_eq.
    rewrite String.eqb_refl. cbn [negb].
    unfold bind at 1. unfold ret at 1. unfold bind at 1.
    rewrite (updateOne_field Users _ "role" (VStr "admin") s pre d post Hon)
      by (discriminate || exact Hsp).
    cbn [bson modifiedCount].
    rewrite bool_decide_eq_false_2 by exact Hrole. reflexivity.
  - intros c Hc. apply get_set_coll_other. exact Hc.
  - apply admin_gate_before_promotion with (u := u) (e := e) (d := d); assumption.
  - apply admin_gate_after_promotion with (u := u) (e := e); assumption.
Qed.

Lemma owner_can_promote_itself_witness :
  exists s',
    serve [verifyToken Sample.idp] FullRest.patch_user
      (incoming (Some "Bearer jane-token") "jane@example.com"
         {[ "role" := VStr "admin" ]} 7) Sample.staffed
    = (Some (mkResponse 200 (JDoc {[ "success" := VBool true ]})), s')
    /\ (forall c, c <> Users -> get_coll c s' = get_coll c Sample.staffed)
    /\ Full.handle Sample.idp Full.GetApplicationsAll
         (incoming (Some "Bearer jane-token") "" ∅ 8) Sample.staffed
       = (Some (mkResponse 403 (message "Forbidden: Admin access required")),
          Sample.staffed)
    /\ Full.handle Sample.idp Full.GetApplicationsAll
         (incoming (Some "Bearer jane-token") "" ∅ 8) s'
       = (Some (mkResponse 200 (JDocs (get_coll Applications Sample.staffed))), s').
Proof.
  destruct (user_record_of Scenario.claims_jane Sample.staffed) as [d|] eqn:Hd;
    [|vm_compute in Hd; discriminate Hd].
  apply (owner_can_promote_itself Sample.idp "Bearer jane-token" Scenario.claims_jane
           "jane@example.com" Sample.staffed d 7 ∅ 8).
  - reflexivity.
  - exists "Bearer jane-token". split; [reflexivity|]. split; vm_compute; reflexivity.
  - vm_compute. reflexivity.
  - exact Hd.
  - vm_compute in Hd. injection Hd as <-. vm_compute. discriminate.
Defined.

(** ** The role that is reported and the role that is enforced *)

Lemma role_answer_inj (x y : value) (s s' : Db) :
  (Some (mkResponse 200 (JDoc {[ "role" := x ]})), s)
  = (Some (mkResponse 200 (JDoc {[ "role" := y ]})), s') -> x = y.
Proof.
  intros H.
  apply (f_equal (fun p : option response * Db =>
                    match fst p with
                    | Some (mkResponse _ (JDoc m)) => m !! "role"
                    | _ => None
                    end)) in H.
  cbn [fst] in H. rewrite !lookup_singleton_eq in H. congruence.
Qed.

Lemma js_or_default_role v role :
  role <> "user" -> role <> "" ->
  js_or v (VStr "user") = VStr role <-> v = VStr role.
Proof.
  intros Hu Hne. unfold js_or. split.
  - destruct (truthy v); [tauto|]. intros H. injection H as H. congruence.
  - intros ->. cbn [truthy]. destruct (String.eqb_spec role ""); [contradiction|].
    reflexivity.
Qed.

Lemma role_report_iff role denied crashed q r0 r u e s :
  role <> "user" -> role <> "" ->
  online s = true -> user r = Some u -> field u "email" = VStr e -> e <> "" ->
  field q "email" = VStr e ->
  serve [] (FullRest.get_users_role q) r0 s
  = (Some (mkResponse 200 (JDoc {[ "role" := VStr role ]})), s)
  <-> verifyRole role denied crashed r s = Ok (Next r) s.
Proof.
  intros Hru Hrn Hon Hu He Hne Hq.
  rewrite serve_nil.
  unfold FullRest.get_users_role, verifyRole, try_catch, user_claim.
  rewrite Hq, Hu. unfold Full.falsy. cbn [truthy].
  destruct (String.eqb_spec e ""); [contradiction|]. cbn [negb].
  unfold bind at 1 3. unfold ret at 2. rewrite He.
  unfold bind. change (ret (VStr e) s) with (Ok (VStr e) s). cbn beta iota.
  rewrite !(findOne_online Users _ s Hon).
  destruct (List.find (matches [("email", VStr e)]) (get_coll Users s)) as [d|].
  - unfold reply, respond, ret.
    pose proof (js_or_default_role (field d "role") role Hru Hrn) as Hor.
    pose proof (strict_ne_spec (field d "role") role) as Hne'.
    destruct (strict_ne (field d "role") (VStr role)); cbn beta iota.
    + split; [|discriminate]. intros H. apply role_answer_inj in H.
      apply Hor in H. exfalso. apply Hne'; [reflexivity|exact H].
    + split; [reflexivity|]. intros _.
      assert (Hd : field d "role" = VStr role).
      { destruct (decide (field d "role" = VStr role)) as [|Hx]; [assumption|].
        apply Hne' in Hx. discriminate Hx. }
      apply Hor in Hd. rewrite Hd. reflexivity.
  - unfold reply, respond, ret. cbn beta iota. split; discriminate.
Qed.

(** X18. The role [GET /users/role] reports is the role the gates enforce: on
    a reachable store, the route answers [{role: "admin"}] for an email
    exactly when [verifyAdmin] lets a token holder of that email through, and
    [{role: "agent"}] exactly when [verifyAgent] does. The route itself asks
    for no credential. *)
Theorem reported_role_is_enforced_role q r0 r u e s :
  online s = true -> user r = Some u -> field u "email" = VStr e -> e <> "" ->
  field q "email" = VStr e ->
  (serve [] (FullRest.get_users_role q) r0 s
   = (Some (mkResponse 200 (JDoc {[ "role" := VStr "admin" ]})), s)
   <-> verifyAdmin r s = Ok (Next r) s)
  /\ (serve [] (FullRest.get_users_role q) r0 s
      = (Some (mkResponse 200 (JDoc {[ "role" := VStr "agent" ]})), s)
      <-> verifyAgent r s = Ok (Next r) s).
Proof.
  intros Hon Hu He Hne Hq. split.
  - apply role_report_iff with (u := u) (e := e); (discriminate || assumption).
  - apply role_report_iff with (u := u) (e := e); (discriminate || assumption).
Qed.

Lemma reported_role_is_enforced_role_witness :
  (serve [] (FullRest.get_users_role {[ "email" := VStr "jane@example.com" ]})
     (incoming None "" ∅ 0) Sample.staffed
   = (Some (mkResponse 200 (JDoc {[ "role" := VStr "admin" ]})), Sample.staffed)
   <-> verifyAdmin (set_user Scenario.claims_jane (incoming Sample.jane "" ∅ 0))
         Sample.staffed
       = Ok (Next (set_user Scenario.claims_jane (incoming Sample.jane "" ∅ 0)))
            Sample.staffed)
  /\ (serve [] (FullRest.get_users_role {[ "email" := VStr "jane@example.com" ]})
        (incoming None "" ∅ 0) Sample.staffed
      = (Some (mkResponse 200 (JDoc {[ "role" := VStr "agent" ]})), Sample.staffed)
      <-> verifyAgent (set_user Scenario.claims_jane (incoming Sample.jane "" ∅ 0))
            Sample.staffed
          = Ok (Next (set_user Scenario.claims_jane (incoming Sample.jane "" ∅ 0)))
               Sample.staffed).
Proof.
  apply (reported_role_is_enforced_role _ _ _ Scenario.claims_jane "jane@example.com").
  - reflexivity.
  - reflexivity.
  - vm_compute. reflexivity.
  - discriminate.
  - vm_compute. reflexivity.
Defined.

(** ** The list of one's applications *)

Lemma get_applications_answer q r s u e :
  user r = Some u -> field u "email" = VStr e -> e <> "" -> online s = true ->
  FullRest.get_applications q r s
  = Ok (if strict_ne (js_or (field q "email") (VStr e)) (VStr e)
           && strict_ne (field u "role") (VStr "admin")
        then mkResponse 403 (message "Forbidden")
        else mkResponse 200
               (JDocs (records_with "userEmail" (js_or (field q "email") (VStr e))
                         (applications s))))
       s.
Proof.
  intros Hu He Hne Hon. unfold FullRest.get_applications. apply try_ok.
  assert (Hasked : truthy (js_or (field q "email") (VStr e)) = true).
  { unfold js_or. destruct (truthy (field q "email")) eqn:Hq; [exact Hq|].
    cbn [truthy]. destruct (String.eqb_spec e ""); [contradiction|reflexivity]. }
  assert (Hfirst : forall B (k : value -> M B),
    bind (if truthy (field q "email") then ret (field q "email")
          else user_claim r "email") k s
    = k (js_or (field q "email") (VStr e)) s).
  { intros B k. unfold js_or. destruct (truthy (field q "email")).
    - reflexivity.
    - rewrite (bind_user_claim _ _ _ _ _ Hu), He. reflexivity. }
  rewrite Hfirst. unfold Full.falsy. rewrite Hasked. cbn [negb].
  rewrite (bind_user_claim _ _ _ _ _ Hu), He.
  rewrite (records_with_matches _ _ _ (truthy_not_nullish _ Hasked)).
  destruct (strict_ne (js_or (field q "email") (VStr e)) (VStr e)).
  - unfold bind at 1. rewrite (bind_user_claim _ _ _ _ _ Hu). unfold ret at 1.
    destruct (strict_ne (field u "role") (VStr "admin")); cbn [andb].
    + reflexivity.
    + erewrite bind_ok; [|apply find_online, Hon]. reflexivity.
  - rewrite bind_ret. cbn [andb].
    erewrite bind_ok; [|apply find_online, Hon]. reflexivity.
Qed.

(** X19. [GET /applications] lists the applications of one email, and only an
    admin may ask for an email other than its own. For a caller with a valid
    token (email [e]) on a reachable store, the email asked for is the
    query's [email] or, without one, [e]; the answer is 200 with exactly the
    applications whose [userEmail] is that email when it is [e] or the token
    has the role claim "admin", and 403 otherwise. The store is unchanged. *)
Theorem application_listing_is_own_or_admin verify h u e q bd t s :
  authenticates verify (Some h) u -> field u "email" = VStr e -> e <> "" ->
  online s = true ->
  exists resp,
    serve [verifyToken verify] (FullRest.get_applications q)
      (incoming (Some h) "" bd t) s = (Some resp, s)
    /\ (js_or (field q "email") (VStr e) = VStr e
        \/ field u "role" = VStr "admin" ->
        resp = mkResponse 200
                 (JDocs (records_with "userEmail"
                           (js_or (field q "email") (VStr e)) (applications s))))
    /\ (js_or (field q "email") (VStr e) <> VStr e ->
        field u "role" <> VStr "admin" ->
        resp = mkResponse 403 (message "Forbidden")).
Proof.
  intros Hauth He Hne Hon.
  rewrite (serve_token verify [] _ (incoming (Some h) "" bd t) s u Hauth).
  rewrite serve_nil.
  rewrite (get_applications_answer q (set_user u (incoming (Some h) "" bd t)) s u e
             eq_refl He Hne Hon).
  eexists. split; [reflexivity|].
  pose proof (strict_ne_spec (js_or (field q "email") (VStr e)) e) as [Hm1 Hm2].
  pose proof (strict_ne_spec (field u "role") "admin") as [Hr1 Hr2].
  destruct (strict_ne (js_or (field q "email") (VStr e)) (VStr e)).
  - destruct (strict_ne (field u "role") (VStr "admin")); cbn [andb]; split.
    + intros [H|H]; exfalso; [exact (Hm1 eq_refl H)|exact (Hr1 eq_refl H)].
    + reflexivity.
    + reflexivity.
    + intros _ H. discriminate (Hr2 H).
  - cbn [andb]. split; [reflexivity|].
    intros H _. discriminate (Hm2 H).
Qed.

Lemma application_listing_is_own_or_admin_witness :
  exists resp,
    serve [verifyToken Sample.idp]
      (FullRest.get_applications {[ "email" := VStr "jane@example.com" ]})
      (incoming (Some "Bearer bob-token") "" ∅ 9) Sample.with_application
    = (Some resp, Sample.with_application)
    /\ (js_or (field {[ "email" := VStr "jane@example.com" ]} "email")
           (VStr "bob@example.com") = VStr "bob@example.com"
        \/ field Scenario.claims_bob "role" = VStr "admin" ->
        resp = mkResponse 200
                 (JDocs (records_with "userEmail"
                           (js_or (field {[ "email" := VStr "jane@example.com" ]} "email")
                                  (VStr "bob@example.com"))
                           (applications Sample.with_application))))
    /\ (js_or (field {[ "email" := VStr "jane@example.com" ]} "email")
           (VStr "bob@example.com") <> VStr "bob@example.com" ->
        field Scenario.claims_bob "role" <> VStr "admin" ->
        resp = mkResponse 403 (message "Forbidden")).
Proof.
  apply (application_listing_is_own_or_admin Sample.idp "Bearer bob-token"
           Scenario.claims_bob "bob@example.com").
  - exists "Bearer bob-token". split; [reflexivity|]. split; vm_compute; reflexivity.
  - vm_compute. reflexivity.
  - discriminate.
  - reflexivity.
Defined.

Lemma records_with_snoc k v l (a : doc) :
  a !! k = Some v -> records_with k v (l ++ [a]) = records_with k v l ++ [a].
Proof.
  intros Ha. unfold records_with. rewrite List.filter_app. cbn [List.filter].
  rewrite bool_decide_eq_true_2 by exact Ha. reflexivity.
Qed.

(** X20. A created application shows up in its creator's list: after an
    authenticated [POST /applications] (body without [_id]) is answered 201,
    [GET /applications] with the same credential and no [email] query returns
    the applications the caller had before, in their order, followed by the
    new record: the submitted body stamped with the caller's email, status
    "pending", the server clock and the generated identifier. *)
Theorem created_application_is_listed verify r s u e q bd t :
  authenticates verify (authorization r) u -> field u "email" = VStr e ->
  e <> "" -> online s = true ->
  is_nullish (field (body r) "_id") = true -> fresh_in Applications s ->
  truthy (field q "email") = false ->
  exists s1,
    Full.handle verify Full.PostApplications r s
    = (Some (mkResponse 201
               (JDoc {[ "insertedId" := VOid (fresh_hex (next_oid s)) ]})), s1)
    /\ serve [verifyToken verify] (FullRest.get_applications q)
         (incoming (authorization r) "" bd t) s1
       = (Some (mkResponse 200
                  (JDocs (records_with "userEmail" (VStr e) (applications s)
                          ++ [<["_id" := VOid (fresh_hex (next_oid s))]>
                              (bson_doc (stamped_application (body r) (VStr e)
                                           (now r)))]))),
          s1).
Proof.
  intros Hauth He Hne Hon Hnull Hfresh Hq.
  eexists. split.
  - unfold Full.handle, Full.guards, Full.handler_of.
    rewrite (serve_token verify [] _ r s u Hauth), serve_nil.
    rewrite (post_applications_created (set_user u r) s u eq_refl Hon Hnull Hfresh).
    rewrite He. reflexivity.
  - rewrite (serve_token verify [] _ (incoming (authorization r) "" bd t) _ u Hauth).
    rewrite serve_nil.
    rewrite (get_applications_answer q
               (set_user u (incoming (authorization r) "" bd t)) _ u e eq_refl He Hne)
      by (rewrite online_set_coll; exact Hon).
    unfold js_or. rewrite Hq.
    unfold strict_ne at 1. unfold strict_eq. rewrite String.eqb_refl. cbn [negb andb].
    change (applications (set_coll Applications ?l ?x)) with l.
    rewrite records_with_snoc; [reflexivity|].
    unfold stamped_application. doc_lookup. reflexivity.
Qed.

Lemma created_application_is_listed_witness :
  exists s1,
    Full.handle Sample.idp Full.PostApplications
      (incoming Sample.jane "" Sample.jane_application 1000) Sample.staffed
    = (Some (mkResponse 201
               (JDoc {[ "insertedId" := VOid (fresh_hex (next_oid Sample.staffed)) ]})),
       s1)
    /\ serve [verifyToken Sample.idp] (FullRest.get_applications ∅)
         (incoming Sample.jane "" ∅ 2000) s1
       = (Some (mkResponse 200
                  (JDocs (records_with "userEmail" (VStr "jane@example.com")
                            (applications Sample.staffed)
                          ++ [<["_id" := VOid (fresh_hex (next_oid Sample.staffed))]>
                              (bson_doc (stamped_application Sample.jane_application
                                           (VStr "jane@example.com") 1000))]))),
          s1).
Proof.
  apply (created_application_is_listed Sample.idp
           (incoming Sample.jane "" Sample.jane_application 1000) Sample.staffed
           Scenario.claims_jane "jane@example.com" ∅ ∅ 2000).
  - exists "Bearer jane-token". split; [reflexivity|]. split; vm_compute; reflexivity.
  - vm_compute. reflexivity.
  - discriminate.
  - reflexivity.
  - vm_compute. reflexivity.
  - vm_compute. reflexivity.
  - vm_compute. reflexivity.
Defined.

(** ** Assigning an agent *)

Lemma apply_set_insert (k : string) (v : value) (upd old : doc) :
  apply_set (<[k := v]> upd) old = <[k := bson v]> (apply_set upd old).
Proof.
  unfold apply_set, bson_doc. rewrite fmap_insert, insert_union_l. reflexivity.
Qed.

(** X21. [PATCH /applications/assign/:id] asks for no credential and accepts
    as agent only the email of a user record with role "agent". For an
    existing application: when no such record exists the answer is 404
    "Agent not found" and the store is unchanged; when one exists the answer
    is 200, the application gets [assignedAgent], status "Assigned" and
    [assignedAt] (the server clock), whatever its state was, and
    [GET /applications/assigned/:agentEmail] for that email then lists it. *)
Theorem assignment_needs_an_agent_record
    (auth : option string) id oid b n s a app :
  online s = true -> field b "agentEmail" = VStr a -> a <> "" ->
  new_ObjectId id = Some oid ->
  List.find (matches [("_id", oid)]) (applications s) = Some app ->
  (List.find (matches [("email", VStr a); ("role", VStr "agent")]) (users s) = None ->
   serve [] FullRest.patch_applications_assign (incoming auth id b n) s
   = (Some (mkResponse 404 (message "Agent not found")), s))
  /\ (List.find (matches [("email", VStr a); ("role", VStr "agent")]) (users s) <> None ->
      exists m s',
        serve [] FullRest.patch_applications_assign (incoming auth id b n) s
        = (Some (mkResponse 200
                   (JDoc (<["success" := VBool true]>
                          (<["message" := VStr "Agent assigned successfully"]>
                          {[ "modifiedCount" := VNum m ]})))), s')
        /\ (forall c, c <> Applications -> get_coll c s' = get_coll c s)
        /\ forall auth' b' t', exists l,
             serve [] FullRest.get_applications_assigned (incoming auth' a b' t') s'
             = (Some (mkResponse 200 (JDocs l)), s')
             /\ In (<["assignedAgent" := VStr a]>
                    (<["status" := VStr "Assigned"]>
                    (<["assignedAt" := VDate n]> app))) l).
Proof.
  intros Hon Hb Hne Hid Happ.
  assert (Hfalsy : Full.falsy (VStr a) = false).
  { unfold Full.falsy. cbn [truthy].
    destruct (String.eqb_spec a ""); [contradiction|reflexivity]. }
  split.
  - intros Hagent. rewrite serve_nil.
    unfold FullRest.patch_applications_assign. cbn [body incoming].
    rewrite Hb, Hfalsy. erewrite try_ok; [reflexivity|].
    rewrite (bind_findOne _ _ _ _ Hon). cbn [get_coll]. rewrite Hagent. reflexivity.
  - intros Hagent.
    destruct (List.find (matches [("email", VStr a); ("role", VStr "agent")]) (users s))
      as [agent|] eqn:Hfind; [clear Hagent|contradiction].
    destruct (find_split_first _ _ _ Happ) as (pre & post & Hsp).
    set (new := <["assignedAgent" := VStr a]>
                (<["status" := VStr "Assigned"]> (<["assignedAt" := VDate n]> app))).
    assert (Hset : apply_set (<["assignedAgent" := VStr a]>
                              (<["status" := VStr "Assigned"]>
                              {[ "assignedAt" := VDate n ]})) app = new).
    { rewrite !apply_set_insert, apply_set_singleton. reflexivity. }
    exists (if bool_decide (new = app) then 0%Z else 1%Z),
           (set_coll Applications (pre ++ new :: post) s).
    split; [|split].
    + rewrite serve_nil.
      unfold FullRest.patch_applications_assign. cbn [body incoming param now].
      rewrite Hb, Hfalsy. erewrite try_ok; [reflexivity|].
      rewrite (bind_findOne _ _ _ _ Hon). cbn [get_coll]. rewrite Hfind.
      rewrite Hid, bind_lift_some. unfold bind at 1.
      rewrite (updateOne_found Applications _ _ false s pre app post Hon Hsp).
      rewrite Hset.
      rewrite bool_decide_eq_true_2
        by (unfold new; rewrite !lookup_insert_ne by discriminate; reflexivity).
      cbn [matchedCount modifiedCount Nat.eqb].
      destruct (bool_decide (new = app)); reflexivity.
    + intros c Hc. apply get_set_coll_other. exact Hc.
    + intros auth' b' t'. eexists. split.
      * rewrite serve_nil. unfold FullRest.get_applications_assigned.
        cbn [param incoming]. rewrite Hfalsy.
        erewrite try_ok; [reflexivity|].
        erewrite bind_ok; [reflexivity|].
        apply find_online. rewrite online_set_coll. exact Hon.
      * rewrite get_set_coll. apply List.filter_In. split.
        -- apply List.in_or_app. right. left. reflexivity.
        -- rewrite matches_single by reflexivity. apply bool_decide_eq_true_2.
           unfold new. apply lookup_insert_eq.
Qed.

Lemma assignment_needs_an_agent_record_witness :
  (List.find (matches [("email", VStr "jane@example.com"); ("role", VStr "agent")])
     (users Sample.with_application) = None ->
   serve [] FullRest.patch_applications_assign
     (incoming None (fresh_hex 0) {[ "agentEmail" := VStr "jane@example.com" ]} 2000)
     Sample.with_application
   = (Some (mkResponse 404 (message "Agent not found")), Sample.with_application))
  /\ (List.find (matches [("email", VStr "jane@example.com"); ("role", VStr "agent")])
        (users Sample.with_application) <> None ->
      exists m s',
        serve [] FullRest.patch_applications_assign
          (incoming None (fresh_hex 0) {[ "agentEmail" := VStr "jane@example.com" ]} 2000)
          Sample.with_application
        = (Some (mkResponse 200
                   (JDoc (<["success" := VBool true]>
                          (<["message" := VStr "Agent assigned successfully"]>
                          {[ "modifiedCount" := VNum m ]})))), s')
        /\ (forall c, c <> Applications ->
                      get_coll c s' = get_coll c Sample.with_application)
        /\ forall auth' b' t', exists l,
             serve [] FullRest.get_applications_assigned
               (incoming auth' "jane@example.com" b' t') s'
             = (Some (mkResponse 200 (JDocs l)), s')
             /\ In (<["assignedAgent" := VStr "jane@example.com"]>
                    (<["status" := VStr "Assigned"]>
                    (<["assignedAt" := VDate 2000]> Scenario.stored_application))) l).
Proof.
  apply (assignment_needs_an_agent_record None (fresh_hex 0) (VOid (fresh_hex 0))
           {[ "agentEmail" := VStr "jane@example.com" ]} 2000 Sample.with_application
           "jane@example.com" Scenario.stored_application).
  - reflexivity.
  - vm_compute. reflexivity.
  - discriminate.
  - vm_compute. reflexivity.
  - vm_compute. reflexivity.
Defined.

(** ** Policies *)

Lemma no_id_no_match (id : value) (l : list doc) :
  is_nullish id = false -> has_id id l = false ->
  forallb (fun d => negb (matches [("_id", id)] d)) l = true.
Proof.
  intros Hn. unfold has_id. induction l as [|d l IH]; cbn [existsb forallb];
    [reflexivity|].
  intros H. apply orb_false_iff in H as [Hd Hl].
  rewrite (matches_id _ _ Hn), Hd. cbn [negb andb]. apply IH, Hl.
Qed.

(** X22. The policy catalogue is open to everyone: creating, reading and
    deleting a policy ask for no credential. On a reachable store, a
    [POST /policies] whose body has no [_id] is answered 201 with a generated
    identifier; [GET /policies/:id] for it then returns the body with that
    [_id]; [DELETE /policies/:id] for it is answered 200; after that the same
    [GET] is answered 404 and the policies are those there were before. *)
Theorem policy_lifecycle_without_credential (auth : option string) b n s :
  online s = true -> is_nullish (field b "_id") = true -> fresh_in Policies s ->
  exists s1 s2,
    serve [] FullRest.post_policies (incoming auth "" b n) s
    = (Some (mkResponse 201
               (JDoc (<["success" := VBool true]>
                      {[ "insertedId" := VOid (fresh_hex (next_oid s)) ]}))), s1)
    /\ (forall auth' b' t',
          serve [] Full.get_policy
            (incoming auth' (fresh_hex (next_oid s)) b' t') s1
          = (Some (mkResponse 200
                     (JDoc (<["_id" := VOid (fresh_hex (next_oid s))]> (bson_doc b)))),
             s1))
    /\ (forall auth' b' t',
          serve [] FullRest.delete_policy
            (incoming auth' (fresh_hex (next_oid s)) b' t') s1
          = (Some (mkResponse 200 (success "Policy deleted successfully")), s2))
    /\ (forall auth' b' t',
          serve [] Full.get_policy
            (incoming auth' (fresh_hex (next_oid s)) b' t') s2
          = (Some (mkResponse 404 (message "Policy not found")), s2))
    /\ policies s2 = policies s.
Proof.
  intros Hon Hnull Hfresh.
  set (id := VOid (fresh_hex (next_oid s))).
  set (p := <["_id" := id]> (bson_doc b)).
  set (s1 := set_coll Policies (policies s ++ [p]) (bump_oid s)).
  set (s2 := set_coll Policies (policies s) s1).
  assert (Hon1 : online s1 = true) by exact Hon.
  assert (Hon2 : online s2 = true) by exact Hon.
  assert (Hnn : is_nullish id = false) by reflexivity.
  assert (Hpre : forallb (fun d => negb (matches [("_id", id)] d)) (policies s) = true)
    by (apply no_id_no_match; [exact Hnn|exact Hfresh]).
  assert (Hp : matches [("_id", id)] p = true).
  { rewrite (matches_id _ _ Hnn). apply bool_decide_eq_true_2.
    unfold p. apply lookup_insert_eq. }
  exists s1, s2. split; [|split; [|split; [|split]]].
  - rewrite serve_nil. unfold FullRest.post_policies.
    erewrite try_ok; [reflexivity|].
    erewrite bind_ok; [|apply (insertOne_generated Policies b s Hon Hnull Hfresh)].
    reflexivity.
  - intros auth' b' t'. rewrite serve_nil. unfold Full.get_policy.
    erewrite try_ok; [reflexivity|].
    cbn [param incoming]. rewrite new_ObjectId_fresh, bind_lift_some. fold id.
    rewrite (bind_findOne _ _ _ _ Hon1).
    change (get_coll Policies s1) with (policies s ++ [p]).
    rewrite (find_hit _ (policies s) p [] Hpre Hp). reflexivity.
  - intros auth' b' t'. rewrite serve_nil. unfold FullRest.delete_policy.
    erewrite try_ok; [reflexivity|].
    cbn [param incoming]. rewrite new_ObjectId_fresh, bind_lift_some. fold id.
    unfold bind at 1. rewrite (deleteOne_online _ _ _ Hon1).
    change (get_coll Policies s1) with (policies s ++ [p]).
    rewrite (split_first_hit _ (policies s) p [] Hpre Hp).
    rewrite app_nil_r. reflexivity.
  - intros auth' b' t'. rewrite serve_nil.
    rewrite (get_policy_absent _ s2 id); [reflexivity| |exact Hon2|].
    + apply new_ObjectId_fresh.
    + change (policies s2) with (policies s).
      destruct (List.find (matches [("_id", id)]) (policies s)) as [d|] eqn:Hd;
        [|reflexivity].
      apply find_split_first in Hd as (pre & post & Hsp).
      apply split_first_spec in Hsp as (Hl & Hm & _).
      rewrite Hl, forallb_app in Hpre. cbn [forallb] in Hpre.
      rewrite Hm in Hpre. cbn [negb andb] in Hpre.
      rewrite andb_false_r in Hpre. discriminate Hpre.
  - reflexivity.
Qed.

Lemma policy_lifecycle_without_credential_witness :
  exists s1 s2,
    serve [] FullRest.post_policies
      (incoming None "" {[ "title" := VStr "Term Life" ]} 10) empty_db
    = (Some (mkResponse 201
               (JDoc (<["success" := VBool true]>
                      {[ "insertedId" := VOid (fresh_hex (next_oid empty_db)) ]}))), s1)
    /\ (forall auth' b' t',
          serve [] Full.get_policy
            (incoming auth' (fresh_hex (next_oid empty_db)) b' t') s1
          = (Some (mkResponse 200
                     (JDoc (<["_id" := VOid (fresh_hex (next_oid empty_db))]>
                            (bson_doc {[ "title" := VStr "Term Life" ]})))),
             s1))
    /\ (forall auth' b' t',
          serve [] FullRest.delete_policy
            (incoming auth' (fresh_hex (next_oid empty_db)) b' t') s1
          = (Some (mkResponse 200 (success "Policy deleted successfully")), s2))
    /\ (forall auth' b' t',
          serve [] Full.get_policy
            (incoming auth' (fresh_hex (next_oid empty_db)) b' t') s2
          = (Some (mkResponse 404 (message "Policy not found")), s2))
    /\ policies s2 = policies empty_db.
Proof.
  apply (policy_lifecycle_without_credential None {[ "title" := VStr "Term Life" ]} 10
           empty_db).
  - reflexivity.
  - vm_compute. reflexivity.
  - vm_compute. reflexivity.
Defined.

Lemma updateOne_absent c q upd s :
  online s = true ->
  split_first (matches q) (get_coll c s) = None ->
  updateOne c q upd false s = Ok (mkUpdate 0 0 0 VNull) s.
Proof.
  intros Hon Hsp. unfold updateOne, bind, guard_online, get_docs.
  rewrite Hon, Hsp. reflexivity.
Qed.

(** X23. [PATCH /policies/:id] asks for no credential, merges the body into
    the policy and reports success by [matchedCount]: for an identifier
    without policy the answer is 404 and the store is unchanged; for an
    existing policy and a non-empty body without [_id] the answer is 200, the
    policy keeps its identifier and its other fields and gets the fields of
    the body, and sending the same update again is answered 200 again and
    changes nothing. *)
Theorem policy_update_merges (auth : option string) id oid b n s :
  online s = true -> new_ObjectId id = Some oid -> b <> ∅ -> b !! "_id" = None ->
  (List.find (matches [("_id", oid)]) (policies s) = None ->
   serve [] FullRest.patch_policy (incoming auth id b n) s
   = (Some (mkResponse 404 (message "Policy not found")), s))
  /\ (forall p,
        List.find (matches [("_id", oid)]) (policies s) = Some p ->
        exists s',
          serve [] FullRest.patch_policy (incoming auth id b n) s
          = (Some (mkResponse 200 (success "Policy updated successfully")), s')
          /\ List.find (matches [("_id", oid)]) (policies s') = Some (bson_doc b ∪ p)
          /\ (forall c, c <> Policies -> get_coll c s' = get_coll c s)
          /\ forall auth' n',
               serve [] FullRest.patch_policy (incoming auth' id b n') s'
               = (Some (mkResponse 200 (success "Policy updated successfully")), s')).
Proof.
  intros Hon Hid _ Hb.
  pose proof (new_ObjectId_not_nullish _ _ Hid) as Hnn.
  split.
  - intros Hnone. rewrite serve_nil. unfold FullRest.patch_policy.
    erewrite try_ok; [reflexivity|].
    cbn [param incoming body]. rewrite Hid, bind_lift_some.
    erewrite bind_ok with (a := mkUpdate 0 0 0 VNull) (s' := s); [reflexivity|].
    apply updateOne_absent; [exact Hon|]. apply split_first_none. exact Hnone.
  - intros p Hp.
    destruct (find_split_first _ _ _ Hp) as (pre & post & Hsp).
    pose proof (split_first_spec _ _ _ _ _ Hsp) as (_ & Hm & _ & Hpre).
    set (new := apply_set b p).
    assert (Hsame : new !! "_id" = p !! "_id")
      by (apply apply_set_lookup_none; exact Hb).
    assert (Hnew : matches [("_id", oid)] new = true).
    { rewrite (matches_id _ new Hnn). rewrite (matches_id _ p Hnn) in Hm.
      apply bool_decide_eq_true_1 in Hm.
      apply bool_decide_eq_true_2. rewrite Hsame. exact Hm. }
    set (s' := set_coll Policies (pre ++ new :: post) s).
    assert (Hon' : online s' = true) by (unfold s'; rewrite online_set_coll; exact Hon).
    assert (Hsp' : split_first (matches [("_id", oid)]) (get_coll Policies s')
                   = Some (pre, new, post)).
    { unfold s'. rewrite get_set_coll. apply split_first_hit; assumption. }
    exists s'. split; [|split; [|split]].
    + rewrite serve_nil. unfold FullRest.patch_policy.
      erewrite try_ok; [reflexivity|].
      cbn [param incoming body]. rewrite Hid, bind_lift_some.
      unfold bind at 1.
      rewrite (updateOne_found Policies _ b false s pre p post Hon Hsp).
      fold new. rewrite bool_decide_eq_true_2 by exact Hsame.
      reflexivity.
    + change (policies s') with (get_coll Policies s').
      apply split_first_spec in Hsp'. tauto.
    + intros c Hc. apply get_set_coll_other. exact Hc.
    + intros auth' n'. rewrite serve_nil. unfold FullRest.patch_policy.
      erewrite try_ok; [reflexivity|].
      cbn [param incoming body]. rewrite Hid, bind_lift_some.
      unfold bind at 1.
      rewrite (updateOne_found Policies _ b false s' pre new post Hon' Hsp').
      assert (Hidem : apply_set b new = new) by (unfold new; apply apply_set_idem).
      rewrite !Hidem.
      rewrite bool_decide_eq_true_2 by reflexivity.
      unfold s'. rewrite set_coll_twice. reflexivity.
Qed.

Lemma policy_update_merges_witness :
  (List.find (matches [("_id", VOid (fresh_hex 0))]) (policies Scenario.catalogue) = None ->
   serve [] FullRest.patch_policy
     (incoming None (fresh_hex 0) {[ "premium" := VNum 100 ]} 20) Scenario.catalogue
   = (Some (mkResponse 404 (message "Policy not found")), Scenario.catalogue))
  /\ (forall p,
        List.find (matches [("_id", VOid (fresh_hex 0))]) (policies Scenario.catalogue)
        = Some p ->
        exists s',
          serve [] FullRest.patch_policy
            (incoming None (fresh_hex 0) {[ "premium" := VNum 100 ]} 20)
            Scenario.catalogue
          = (Some (mkResponse 200 (success "Policy updated successfully")), s')
          /\ List.find (matches [("_id", VOid (fresh_hex 0))]) (policies s')
             = Some (bson_doc {[ "premium" := VNum 100 ]} ∪ p)
          /\ (forall c, c <> Policies -> get_coll c s' = get_coll c Scenario.catalogue)
          /\ forall auth' n',
               serve [] FullRest.patch_policy
                 (incoming auth' (fresh_hex 0) {[ "premium" := VNum 100 ]} n') s'
               = (Some (mkResponse 200 (success "Policy updated successfully")), s')).
Proof.
  apply (policy_update_merges None (fresh_hex 0) (VOid (fresh_hex 0))
           {[ "premium" := VNum 100 ]} 20 Scenario.catalogue).
  - reflexivity.
  - vm_compute. reflexivity.
  - intros H. apply (f_equal (fun m : doc => m !! "premium")) in H.
    rewrite lookup_singleton_eq, lookup_empty in H. discriminate H.
  - vm_compute. reflexivity.
Defined.
